(** * Agent wallet HTTP client (examples/python/agent_wallet_integration.py)

    A shallow embedding of the Python client [AgentWalletClient] and of the
    helper [format_balance], with the properties of the client's contract
    stated and proved over it.

    Python's [int] is modelled by [Z].  A [str] is modelled by [string],
    one [ascii] for each code point: the strings of the model are the
    [str]s whose code points are all below 256, and a [str] with a code
    point from 256 on is outside the model.  Exceptions are modelled by
    an error result.  The interpreter is CPython 3.11 or later with its
    default settings, where [str] and [int] refuse to convert between an
    [int] and a numeral of more than 4300 digits.

    The [requests] session is modelled by an explicit world that records
    every call of a method of the session and answers it through an
    arbitrary function; what [requests] makes of one such call on the
    wire (the waits it allows, the redirects it follows) is modelled
    apart, in [Requests]. *)

From Stdlib Require Import ZArith List String Ascii Bool Lia.
From Stdlib Require Import SpecFloat.
Import ListNotations.

Local Open Scope string_scope.
Local Open Scope Z_scope.

(** ** Python built-ins used by the client *)

Module Py.

(** [chr(ord('0') + d)] for a decimal digit [d]. *)
Definition digit_char (d : Z) : ascii := ascii_of_N (48 + Z.to_N d).

Definition is_digit (c : ascii) : bool :=
  ((48 <=? N_of_ascii c) && (N_of_ascii c <=? 57))%N.

Definition digit_val (c : ascii) : Z := Z.of_N (N_of_ascii c) - 48.

(** The decimal digits of a non-negative [n], most significant first,
    in front of [acc].  The fuel bounds the number of digits. *)
Fixpoint digits_fuel (fuel : nat) (n : Z) (acc : string) : string :=
  match fuel with
  | O => acc
  | S fuel' =>
      let acc' := String (digit_char (n mod 10)) acc in
      if n <? 10 then acc' else digits_fuel fuel' (n / 10) acc'
  end.

Definition str_nonneg (n : Z) : string :=
  digits_fuel (S (Z.to_nat (Z.log2 n))) n "".

(** The decimal numeral of [n]: what [str(n)] is when it returns. *)
Definition decimal (n : Z) : string :=
  if n <? 0 then String "-" (str_nonneg (- n)) else str_nonneg n.

(** [sys.int_info.default_max_str_digits]: the longest numeral, in
    digits, that [str] writes and [int] reads for an [int] under the
    interpreter's default settings (CPython 3.11 and later). *)
Definition max_str_digits : Z := 4300.

(** The number of digits of [n], the sign aside. *)
Definition digit_count (n : Z) : Z :=
  Z.of_nat (String.length (str_nonneg (Z.abs n))).

(** [str(n)] and [f"{n}"] for an [int]; [None] is the [ValueError]
    raised for a number of more than [max_str_digits] digits. *)
Definition str (n : Z) : option string :=
  if digit_count n <=? max_str_digits then Some (decimal n) else None.

(** White space as [int] sees it around a literal: TAB, LF, VT, FF, CR
    and SPACE, and the two white-space code points between 128 and 255,
    NEL and NBSP (a [str] that is not ASCII has its white space turned
    into spaces before it is read).  FS, GS, RS and US, which [str.strip]
    removes, are no white space to [int]. *)
Definition is_space (c : ascii) : bool :=
  let n := N_of_ascii c in
  (((9 <=? n) && (n <=? 13)) || (n =? 32) || (n =? 133) || (n =? 160))%N.


Fixpoint lstrip (s : string) : string :=
  match s with
  | EmptyString => EmptyString
  | String c r => if is_space c then lstrip r else s
  end.

Fixpoint rstrip (s : string) : string :=
  match s with
  | EmptyString => EmptyString
  | String c r =>
      match rstrip r with
      | EmptyString => if is_space c then EmptyString else String c EmptyString
      | r' => String c r'
      end
  end.

Definition strip (s : string) : string := rstrip (lstrip s).

(** The digit part of an integer literal: decimal digits, with single
    underscores allowed between two digits.  [prev] tells whether the
    previous character was a digit. *)
Fixpoint parse_digits (s : string) (acc : Z) (prev : bool) : option Z :=
  match s with
  | EmptyString => if prev then Some acc else None
  | String c r =>
      if is_digit c then parse_digits r (10 * acc + digit_val c) true
      else if Ascii.eqb c "_" then
        if prev then parse_digits r acc false else None
      else None
  end.

(** The integer a literal of base 10 stands for: white space around
    it, one sign, digits with single underscores between them; [None]
    for what is no literal. *)
Definition literal (s : string) : option Z :=
  match strip s with
  | String "-" r => option_map Z.opp (parse_digits r 0 false)
  | String "+" r => parse_digits r 0 false
  | r => parse_digits r 0 false
  end.

(** The digits among the characters of [s]. *)
Fixpoint count_digits (s : string) : Z :=
  match s with
  | EmptyString => 0
  | String c r => (if is_digit c then 1 else 0) + count_digits r
  end.

(** [int(s)] for a [str] in base 10; [None] is [ValueError], raised
    for what is no literal and for a literal of more than
    [max_str_digits] digits, leading zeros counted, underscores not. *)
Definition int_of_str (s : string) : option Z :=
  match literal s with
  | Some n => if count_digits s <=? max_str_digits then Some n else None
  | None => None
  end.

Fixpoint repeat_char (c : ascii) (k : nat) : string :=
  match k with
  | O => EmptyString
  | S k' => String c (repeat_char c k')
  end.

(** [s.zfill(width)]: zeros are inserted after a leading sign. *)
Definition zfill (s : string) (width : Z) : string :=
  let len := Z.of_nat (String.length s) in
  if width <=? len then s
  else
    let zeros := repeat_char "0" (Z.to_nat (width - len)) in
    match s with
    | String c r =>
        if (Ascii.eqb c "+" || Ascii.eqb c "-")%bool
        then String c (zeros ++ r)
        else zeros ++ s
    | EmptyString => zeros
    end.

(** [base ** e] on [int]s.  A negative exponent gives a [float] in
    Python, which leaves the integers: [None]. *)
Definition pow (base e : Z) : option Z :=
  if e <? 0 then None else Some (base ^ e).

End Py.

(** ** Python values decoded from JSON *)

(** What [response.json()] yields: [None], [bool], [int], [float],
    [str], [list] and [dict] (keys of a [dict] are [str]s, in insertion
    order). *)
#[warnings="-register-all"] Inductive json : Type :=
| JNull
| JBool (b : bool)
| JInt (n : Z)
| JFloat (f : spec_float)
| JStr (s : string)
| JList (l : list json)
| JObj (kvs : list (string * json)).

Inductive RequestFailure : Type :=
| ConnectTimeout
| ReadTimeout
| ConnectionError
| OtherRequestException.

Inductive Method : Type := GET | POST | DELETE.

(** The arguments of one call of [Session.get], [Session.post] or
    [Session.delete]. *)
Record Request : Type := mkRequest {
  method : Method;
  url : string;
  json_body : option json;
  timeout : Z
}.

(** A response: its status code and its body.  The body is [None]
    when the decoder rejects its text as JSON, and [Some d] when the
    text denotes the document [d], integers written out in full.  (A
    text that the decoder gives up on after it has met an integer
    beyond the limit of [int] fares like a document that holds such an
    integer, and is taken as one.) *)
Record Response : Type := mkResponse {
  status_code : Z;
  body : option json
}.

(** The exceptions the client can let through. *)
Inductive Exn : Type :=
| RequestException (f : RequestFailure)
| HTTPError (r : Response)
| JSONDecodeError
| KeyError (k : string)
| TypeError
| ValueError
| OverflowError.

Inductive PyResult (A : Type) : Type :=
| Return (a : A)
| Raise (e : Exn).
Arguments Return {A} a.
Arguments Raise {A} e.

Module PyVal.

(** [int(x)] for a [float]: truncation towards zero. *)
Definition int_of_float (f : spec_float) : PyResult Z :=
  match f with
  | S754_zero _ => Return 0
  | S754_infinity _ => Raise OverflowError
  | S754_nan => Raise ValueError
  | S754_finite sign m e =>
      let magnitude :=
        if 0 <=? e then Z.pos m * 2 ^ e else Z.pos m / 2 ^ (- e) in
      Return (if sign then - magnitude else magnitude)
  end.

(** [int(x)]. *)
Definition int (x : json) : PyResult Z :=
  match x with
  | JInt n => Return n
  | JBool b => Return (if b then 1 else 0)
  | JFloat f => int_of_float f
  | JStr s =>
      match Py.int_of_str s with
      | Some n => Return n
      | None => Raise ValueError
      end
  | JNull | JList _ | JObj _ => Raise TypeError
  end.

Fixpoint lookup (k : string) (kvs : list (string * json)) : option json :=
  match kvs with
  | [] => None
  | (k', v) :: rest => if String.eqb k k' then Some v else lookup k rest
  end.

(** [x[k]] for a [str] key [k]. *)
Definition getitem (x : json) (k : string) : PyResult json :=
  match x with
  | JObj kvs =>
      match lookup k kvs with
      | Some v => Return v
      | None => Raise (KeyError k)
      end
  | _ => Raise TypeError
  end.

Fixpoint chars (s : string) : list json :=
  match s with
  | EmptyString => []
  | String c r => JStr (String c EmptyString) :: chars r
  end.

(** What [for b in x] ranges over. *)
Definition iter (x : json) : PyResult (list json) :=
  match x with
  | JList l => Return l
  | JObj kvs => Return (map (fun kv => JStr (fst kv)) kvs)
  | JStr s => Return (chars s)
  | _ => Raise TypeError
  end.

(** No integer of the document is beyond the limit of [int]: the
    decoder makes its integers with [int], numeral by numeral. *)
Fixpoint within_limit (x : json) : bool :=
  match x with
  | JInt n => Py.digit_count n <=? Py.max_str_digits
  | JList l => forallb within_limit l
  | JObj kvs => forallb (fun kv => within_limit (snd kv)) kvs
  | JNull | JBool _ | JFloat _ | JStr _ => true
  end.

End PyVal.

(** [response.json()]: [JSONDecodeError] for what is no JSON, and the
    [ValueError] of [int] for an integer of more than 4300 digits. *)
Definition decoded (r : Response) : PyResult json :=
  match body r with
  | Some d => if PyVal.within_limit d then Return d else Raise ValueError
  | None => Raise JSONDecodeError
  end.

(** ** [format_balance] *)

(** [None] only when [decimals] is negative: the divisor is a float
    then, and what is returned is made by floating-point arithmetic,
    which is outside the model.  Otherwise the divisor is positive, so
    that [//] and [%] cannot raise, and only the two conversions to
    text can: [ValueError], for a number of more than 4300 digits. *)
Definition format_balance (balance decimals : Z) : option (PyResult string) :=
  match Py.pow 10 decimals with
  | None => None
  | Some divisor =>
      let whole := balance / divisor in
      let fraction := balance mod divisor in
      Some (match Py.str whole, Py.str fraction with
            | Some w, Some f => Return (w ++ "." ++ Py.zfill f decimals)
            | _, _ => Raise ValueError
            end)
  end.

(** ** The world outside the client *)

Definition Session : Type := nat.

(** What the program has done to the outside so far: sessions
    constructed, calls of a method of a session ([get], [post] or
    [delete]) with the request they were given, sessions closed. *)
Inductive Event : Type :=
| Opened (s : Session)
| Sent (s : Session) (r : Request)
| Closed (s : Session).

Definition World : Type := list Event.

(** The session, the network and the server: given everything that
    happened so far and the request of a call, how the call ends, with
    an exception of [requests] or with a response. *)
Definition Network : Type :=
  World -> Session -> Request -> RequestFailure + Response.

Definition is_opened (e : Event) : bool :=
  match e with Opened _ => true | _ => false end.

Definition is_sent (e : Event) : bool :=
  match e with Sent _ _ => true | _ => false end.

Definition sessions_created (w : World) : nat :=
  List.length (filter is_opened w).

(** The calls of a method of a session recorded in [w]. *)
Definition requests_sent (w : World) : nat :=
  List.length (filter is_sent w).

Definition is_closed (s : Session) (w : World) : bool :=
  existsb (fun e => match e with Closed s' => Nat.eqb s s' | _ => false end) w.

(** [requests.Session()]. *)
Definition new_session (w : World) : Session * World :=
  let s := sessions_created w in (s, (w ++ [Opened s])%list).

(** ** Data classes *)

Module AgentWallet.
Record t : Type := mk {
  agent_id : json;
  evm_address : json;
  xrp_address : json;
  derivation_index : json;
  created_at : json;
  status : json
}.
End AgentWallet.

Module AgentBalance.
Record t : Type := mk {
  agent_id : json;
  chain : json;
  token : json;
  balance : Z;
  decimals : json;
  last_updated : json
}.
End AgentBalance.

Module AgentChannel.
Record t : Type := mk {
  id : json;
  agent_id : json;
  peer_id : json;
  chain : json;
  token : json;
  balance : Z;
  initial_amount : Z;
  payments_count : json;
  status : json
}.
End AgentChannel.

Definition API_BASE_URL : string := "http://localhost:3000/api/v1".
Definition API_TIMEOUT : Z := 30.

(** ** [AgentWalletClient] *)

Module AgentWalletClient.

(** The attributes of a client object. *)
Record t : Type := mk {
  base_url : string;
  session : Session
}.

(** A method runs against the object it is called on and the world. *)
Record State : Type := mkState {
  self : t;
  world : World
}.

(** Computations that read and write the state and may raise. *)
Definition M (A : Type) : Type := State -> PyResult A * State.

Definition ret {A : Type} (a : A) : M A := fun s => (Return a, s).

Definition raise {A : Type} (e : Exn) : M A := fun s => (Raise e, s).

Definition bind {A B : Type} (m : M A) (f : A -> M B) : M B :=
  fun s =>
    match m s with
    | (Return a, s') => f a s'
    | (Raise e, s') => (Raise e, s')
    end.

Definition lift {A : Type} (r : PyResult A) : M A := fun s => (r, s).

Notation "x <- m ;; k" := (bind m (fun x => k))
  (at level 61, m at next level, right associativity).
Notation "m ;;; k" := (bind m (fun _ => k))
  (at level 61, right associativity).

(** A list comprehension [[f(x) for x in xs]]: left to right, stopping
    at the first element that raises. *)
Fixpoint comprehension {A B : Type} (f : A -> M B) (xs : list A) : M (list B) :=
  match xs with
  | [] => ret []
  | x :: rest =>
      y <- f x ;;
      ys <- comprehension f rest ;;
      ret (y :: ys)
  end.

(** [__init__(self, base_url=API_BASE_URL)]; [None] is the default. *)
Definition __init__ (url : option string) (w : World) : t * World :=
  let (s, w') := new_session w in
  ({| base_url := match url with Some u => u | None => API_BASE_URL end;
      session := s |}, w').

(** [response.raise_for_status()]. *)
Definition raise_for_status (r : Response) : M unit :=
  if (400 <=? status_code r) && (status_code r <? 600)
  then raise (HTTPError r)
  else ret tt.

(** [response.json()]. *)
Definition response_json (r : Response) : M json := lift (decoded r).

(** [str(n)]. *)
Definition str (n : Z) : M string :=
  match Py.str n with
  | Some text => ret text
  | None => raise ValueError
  end.

Definition getitem (x : json) (k : string) : M json := lift (PyVal.getitem x k).

Definition int (x : json) : M Z := lift (PyVal.int x).

Definition iter (x : json) : M (list json) := lift (PyVal.iter x).

Section Methods.

Context (net : Network).

(** One call of a method of [self.session]: the call is recorded with
    its request, and [net] tells how it ends. *)
Definition session_request (m : Method) (u : string) (j : option json)
    (tmo : Z) : M Response :=
  fun s =>
    let ses := session (self s) in
    let req := {| method := m; url := u; json_body := j; timeout := tmo |} in
    let s' := {| self := self s; world := (world s ++ [Sent ses req])%list |} in
    match net (world s) ses req with
    | inl f => (Raise (RequestException f), s')
    | inr r => (Return r, s')
    end.

Definition self_base_url : M string := fun s => (Return (base_url (self s)), s).

Definition wallet_of_json (data : json) : M AgentWallet.t :=
  a <- getitem data "agentId" ;;
  e <- getitem data "evmAddress" ;;
  x <- getitem data "xrpAddress" ;;
  d <- getitem data "derivationIndex" ;;
  c <- getitem data "createdAt" ;;
  st <- getitem data "status" ;;
  ret (AgentWallet.mk a e x d c st).

Definition create_wallet (agent_id : string) : M AgentWallet.t :=
  base <- self_base_url ;;
  response <- session_request POST (base ++ "/wallets")
                (Some (JObj [("agentId", JStr agent_id)])) API_TIMEOUT ;;
  raise_for_status response ;;;
  data <- response_json response ;;
  wallet_of_json data.

Definition get_wallet (agent_id : string) : M (option AgentWallet.t) :=
  base <- self_base_url ;;
  response <- session_request GET (base ++ "/wallets/" ++ agent_id)
                None API_TIMEOUT ;;
  if status_code response =? 404 then ret None
  else
    raise_for_status response ;;;
    data <- response_json response ;;
    w <- wallet_of_json data ;;
    ret (Some w).

Definition balance_of_json (b : json) : M AgentBalance.t :=
  a <- getitem b "agentId" ;;
  c <- getitem b "chain" ;;
  tk <- getitem b "token" ;;
  bal <- (v <- getitem b "balance" ;; int v) ;;
  d <- getitem b "decimals" ;;
  l <- getitem b "lastUpdated" ;;
  ret (AgentBalance.mk a c tk bal d l).

Definition get_all_balances (agent_id : string) : M (list AgentBalance.t) :=
  base <- self_base_url ;;
  response <- session_request GET (base ++ "/wallets/" ++ agent_id ++ "/balances")
                None API_TIMEOUT ;;
  raise_for_status response ;;;
  data <- response_json response ;;
  balances <- getitem data "balances" ;;
  items <- iter balances ;;
  comprehension balance_of_json items.

Definition get_balance (agent_id chain token : string) : M Z :=
  base <- self_base_url ;;
  response <- session_request GET
                (base ++ "/wallets/" ++ agent_id ++ "/balances/" ++ chain
                   ++ "/" ++ token)
                None API_TIMEOUT ;;
  raise_for_status response ;;;
  data <- response_json response ;;
  v <- getitem data "balance" ;;
  int v.

Definition open_channel (agent_id peer_id chain token : string) (amount : Z)
    : M json :=
  base <- self_base_url ;;
  amount_text <- str amount ;;
  response <- session_request POST (base ++ "/channels")
                (Some (JObj [("agentId", JStr agent_id);
                             ("peerId", JStr peer_id);
                             ("chain", JStr chain);
                             ("token", JStr token);
                             ("amount", JStr amount_text)]))
                API_TIMEOUT ;;
  raise_for_status response ;;;
  data <- response_json response ;;
  getitem data "channelId".

Definition send_payment (agent_id channel_id : string) (amount : Z) : M unit :=
  base <- self_base_url ;;
  amount_text <- str amount ;;
  response <- session_request POST
                (base ++ "/channels/" ++ channel_id ++ "/payments")
                (Some (JObj [("agentId", JStr agent_id);
                             ("amount", JStr amount_text)]))
                API_TIMEOUT ;;
  raise_for_status response.

Definition close_channel (agent_id channel_id : string) : M unit :=
  base <- self_base_url ;;
  response <- session_request DELETE (base ++ "/channels/" ++ channel_id)
                (Some (JObj [("agentId", JStr agent_id)])) API_TIMEOUT ;;
  raise_for_status response.

Definition channel_of_json (c : json) : M AgentChannel.t :=
  i <- getitem c "id" ;;
  a <- getitem c "agentId" ;;
  p <- getitem c "peerId" ;;
  ch <- getitem c "chain" ;;
  tk <- getitem c "token" ;;
  bal <- (v <- getitem c "balance" ;; int v) ;;
  ini <- (v <- getitem c "initialAmount" ;; int v) ;;
  n <- getitem c "paymentsCount" ;;
  st <- getitem c "status" ;;
  ret (AgentChannel.mk i a p ch tk bal ini n st).

Definition get_agent_channels (agent_id : string) : M (list AgentChannel.t) :=
  base <- self_base_url ;;
  response <- session_request GET (base ++ "/wallets/" ++ agent_id ++ "/channels")
                None API_TIMEOUT ;;
  raise_for_status response ;;;
  data <- response_json response ;;
  channels <- getitem data "channels" ;;
  items <- iter channels ;;
  comprehension channel_of_json items.

(** One call of one of the eight methods, and what it returns, so that
    a property can be stated of all of them. *)
Inductive Call : Type :=
| CreateWallet (agent_id : string)
| GetWallet (agent_id : string)
| GetAllBalances (agent_id : string)
| GetBalance (agent_id chain token : string)
| OpenChannel (agent_id peer_id chain token : string) (amount : Z)
| SendPayment (agent_id channel_id : string) (amount : Z)
| CloseChannel (agent_id channel_id : string)
| GetAgentChannels (agent_id : string).

Inductive Value : Type :=
| VWallet (w : AgentWallet.t)
| VOptWallet (w : option AgentWallet.t)
| VBalances (l : list AgentBalance.t)
| VInt (n : Z)
| VJson (j : json)
| VNone
| VChannels (l : list AgentChannel.t).

Definition call (c : Call) : M Value :=
  match c with
  | CreateWallet a => w <- create_wallet a ;; ret (VWallet w)
  | GetWallet a => w <- get_wallet a ;; ret (VOptWallet w)
  | GetAllBalances a => l <- get_all_balances a ;; ret (VBalances l)
  | GetBalance a c t => n <- get_balance a c t ;; ret (VInt n)
  | OpenChannel a p c t n => j <- open_channel a p c t n ;; ret (VJson j)
  | SendPayment a ch n => send_payment a ch n ;;; ret VNone
  | CloseChannel a ch => close_channel a ch ;;; ret VNone
  | GetAgentChannels a => l <- get_agent_channels a ;; ret (VChannels l)
  end.

(** A caller that makes the calls [cs] one after the other on the same
    client, catching whatever each raises. *)
Fixpoint calls (cs : list Call) (s : State) : list (PyResult Value) * State :=
  match cs with
  | [] => ([], s)
  | c :: rest =>
      let (r, s1) := call c s in
      let (rs, s2) := calls rest s1 in
      (r :: rs, s2)
  end.

(** The life of a client: constructed, used for [cs], dropped. *)
Definition lifetime (url : option string) (cs : list Call) (w : World)
    : list (PyResult Value) * State :=
  let (c, w1) := __init__ url w in
  calls cs {| self := c; world := w1 |}.

End Methods.

End AgentWalletClient.

(** ** What [requests] makes of a call on the wire *)

(** The client gives [Session.get], [Session.post] and
    [Session.delete] a request and a timeout and nothing else, so that
    the defaults of the library apply: redirects are followed, up to
    30 of them, nothing is tried again, and the timeout bounds the wait
    for the connection and each wait for bytes of the response, not the
    exchange as a whole. *)
Module Requests.

(** What comes back for a request that reached the server: a response
    for the caller, or a redirect, which the session follows with the
    request it makes of the redirect (method, URL and body). *)
Inductive Arrival : Type :=
| Final (r : Response)
| Redirect (m : Method) (u : string) (j : option json).

(** How a request fares.  [Rejected]: the library refuses it before it
    sends anything (a URL it cannot use).  [Unreachable]: no connection
    can be made.  [Reached connect head body a]: the connection stands
    after [connect] seconds, the status line and the headers come after
    the waits [head], one wait for each piece, the body after the waits
    [body], and [a] is what came. *)
Inductive Exchange : Type :=
| Rejected
| Unreachable
| Reached (connect : Z) (head body : list Z) (a : Arrival).

(** The network and the server: given what happened so far, the
    requests already sent for the same call, and a request, how it
    fares. *)
Definition Wire : Type := World -> Session -> list Request -> Request -> Exchange.

(** [requests.models.DEFAULT_REDIRECT_LIMIT]. *)
Definition DEFAULT_REDIRECT_LIMIT : nat := 30.

(** One of the waits is longer than [limit]. *)
Definition late (limit : Z) (waits : list Z) : bool :=
  existsb (fun w => limit <? w) waits.

(** One request under the timeout [limit]: [ConnectTimeout] when the
    connection takes longer, [ReadTimeout] when a piece of the head
    does; a wait that long for a piece of the body, which is read once
    the head is in, is raised as [ConnectionError]. *)
Definition send (x : Exchange) (limit : Z) : (RequestFailure + Arrival) :=
  match x with
  | Rejected => inl OtherRequestException
  | Unreachable => inl ConnectionError
  | Reached connect head body a =>
      if limit <? connect then inl ConnectTimeout
      else if late limit head then inl ReadTimeout
      else if late limit body then inl ConnectionError
      else inr a
  end.

(** [Session.request]: the request is sent, and so is the request of
    every redirect that comes back, with the same timeout, until a
    response comes that is no redirect; [redirects] more redirects are
    followed before [TooManyRedirects] is raised.  The result is the
    requests that went to the wire after [sent], in order, and how the
    call ends. *)
Fixpoint exchange (wire : Wire) (w : World) (ses : Session) (redirects : nat)
    (sent : list Request) (req : Request)
    : list Request * (RequestFailure + Response) :=
  match wire w ses sent req with
  | Rejected => ([], inl OtherRequestException)
  | x =>
      match send x (timeout req) with
      | inl f => ([req], inl f)
      | inr (Final r) => ([req], inr r)
      | inr (Redirect m u j) =>
          match redirects with
          | O => ([req], inl OtherRequestException)
          | S redirects' =>
              let (more, ending) :=
                exchange wire w ses redirects' (sent ++ [req])%list
                  (mkRequest m u j (timeout req)) in
              (req :: more, ending)
          end
      end
  end.

(** The requests that go to the wire for one call of a method of the
    session. *)
Definition traffic (wire : Wire) (w : World) (ses : Session) (req : Request)
    : list Request :=
  fst (exchange wire w ses DEFAULT_REDIRECT_LIMIT [] req).

(** How the call ends: the session as the client sees it. *)
Definition transport (wire : Wire) : Network :=
  fun w ses req => snd (exchange wire w ses DEFAULT_REDIRECT_LIMIT [] req).

(** The requests that went to the wire for the calls recorded in
    [events], which came after [before]. *)
Fixpoint wire_log (wire : Wire) (before : World) (events : list Event)
    : list Request :=
  match events with
  | [] => []
  | e :: rest =>
      (match e with
       | Sent ses req => traffic wire before ses req
       | Opened _ | Closed _ => []
       end
       ++ wire_log wire (before ++ [e]) rest)%list
  end.

Definition on_wire (wire : Wire) (w : World) : list Request := wire_log wire [] w.

End Requests.

(** ** Vocabulary of the statements *)

Import AgentWalletClient.

(** Every character of [s] satisfies [p]. *)
Fixpoint all_chars (p : ascii -> bool) (s : string) : bool :=
  match s with
  | EmptyString => true
  | String c r => p c && all_chars p r
  end.

(** The state after [req] went out through the session of [self]. *)
Definition sent (s : State) (req : Request) : State :=
  {| self := self s;
     world := (world s ++ [Sent (session (self s)) req])%list |}.

(** What the network does with [req] when it is issued in state [s]. *)
Definition reply (net : Network) (s : State) (req : Request)
    : RequestFailure + Response :=
  net (world s) (session (self s)) req.

(** The statuses for which [raise_for_status] raises. *)
Definition error_status (r : Response) : bool :=
  (400 <=? status_code r) && (status_code r <? 600).

(** A computation that touches neither the object nor the world, and
    that raises no exception of the transport. *)
Definition local {A : Type} (m : M A) : Prop :=
  exists res : PyResult A,
    (forall s, m s = (res, s)) /\
    (forall f, res <> Raise (RequestException f)).

(** The value handed to the caller of [call] from the outcome of the
    method's own decoding. *)
Definition decode {A : Type} (V : A -> Value) (m : M A) (s : State)
    : PyResult Value :=
  match fst (m s) with
  | Return a => Return (V a)
  | Raise e => Raise e
  end.

(** What the caller of a method gets, as a function of what the
    network did with the one request. *)
Definition outcome (answer : RequestFailure + Response)
    (k : Response -> PyResult Value) : PyResult Value :=
  match answer with
  | inl f => Raise (RequestException f)
  | inr r => k r
  end.

(** The decoding of every method but [get_wallet] starts with
    [raise_for_status]; [surfaced c k] says what [k] does with an error
    status, and that [None] is only ever returned for a 404. *)
Definition surfaced (c : Call) (k : Response -> PyResult Value) : Prop :=
  (forall r f, k r <> Raise (RequestException f)) /\
  (forall r, error_status r = true ->
     k r = Raise (HTTPError r) \/
     (status_code r = 404 /\ k r = Return (VOptWallet None) /\
      exists a, c = GetWallet a)) /\
  (forall r, k r = Return (VOptWallet None) -> status_code r = 404).

(** [requests.exceptions.Timeout] and its two subclasses. *)
Definition is_timeout_failure (f : RequestFailure) : bool :=
  match f with
  | ConnectTimeout | ReadTimeout => true
  | ConnectionError | OtherRequestException => false
  end.

(** The exceptions an [except requests.Timeout] clause would catch. *)
Definition is_timeout (e : Exn) : bool :=
  match e with
  | RequestException f => is_timeout_failure f
  | _ => false
  end.




(** *** Test doubles for the network, and a client to call *)

(** A server that answers every request with [code] and no document. *)
Definition net_status (code : Z) : Network :=
  fun _ _ _ => inr (mkResponse code None).

(** A server that answers every request with 200 and [document]. *)
Definition net_document (document : json) : Network :=
  fun _ _ _ => inr (mkResponse 200 (Some document)).

(** A transport on which every request fails with [f]. *)
Definition net_down (f : RequestFailure) : Network :=
  fun _ _ _ => inl f.

(** [AgentWalletClient()] in a world where nothing happened before. *)
Definition fresh_client : State :=
  let (c, w) := __init__ None [] in {| self := c; world := w |}.

Definition big_amount : Z := 340282366920938463463374607431768211456.



Definition demo_document : json :=
  JObj [("balance", JStr "340282366920938463463374607431768211456");
        ("balances",
         JList [JObj [("agentId", JStr "agent-001"); ("chain", JStr "evm");
                      ("token", JStr "USDC");
                      ("balance", JStr "340282366920938463463374607431768211456");
                      ("decimals", JInt 6);
                      ("lastUpdated", JStr "2026-01-01T00:00:00Z")]]);
        ("channels",
         JList [JObj [("id", JStr "ch-1"); ("agentId", JStr "agent-001");
                      ("peerId", JStr "agent-002"); ("chain", JStr "evm");
                      ("token", JStr "USDC"); ("balance", JStr "900000000");
                      ("initialAmount",
                       JStr "340282366920938463463374607431768211456");
                      ("paymentsCount", JInt 10); ("status", JStr "open")]])].

(** ** The example programs *)

(** What an example does besides talking to the server. *)
Inductive Effect : Type :=
| Printed (text : string)
| Slept (seconds : Z).

(** The machine an example runs on: the world of the client and the
    console, with the pauses taken. *)
Record Machine : Type := mkMachine {
  outside : World;
  console : list Effect
}.

(** What an example can raise: what a method of the client raised,
    [AttributeError], or the [Exception] of [example_4_error_handling]. *)
Inductive Failure : Type :=
| ClientError (e : Exn)
| AttributeError
| Exception (message : string).

(** How a run ends.  [Diverged]: the polling loop used up its fuel.
    [NotModelled]: the run went into floating-point arithmetic. *)
Inductive Outcome (A : Type) : Type :=
| Done (a : A)
| Failed (f : Failure)
| Diverged
| NotModelled.
Arguments Done {A} a.
Arguments Failed {A} f.
Arguments Diverged {A}.
Arguments NotModelled {A}.

(** What the examples use of Python beyond the model: [repr] of a float,
    a list or a dict, [str] of an exception, [str.upper], and [==] when
    a float, a list or a dict is involved. *)
Record Builtins : Type := mkBuiltins {
  repr_value : json -> string;
  exception_text : Failure -> string;
  str_upper : string -> string;
  eq_compound : json -> json -> bool
}.

Definition Prog (A : Type) : Type := Machine -> Outcome A * Machine.

Definition done {A : Type} (a : A) : Prog A := fun mc => (Done a, mc).

Definition fail {A : Type} (f : Failure) : Prog A := fun mc => (Failed f, mc).

Definition then_ {A B : Type} (p : Prog A) (k : A -> Prog B) : Prog B :=
  fun mc =>
    match p mc with
    | (Done a, mc') => k a mc'
    | (Failed f, mc') => (Failed f, mc')
    | (Diverged, mc') => (Diverged, mc')
    | (NotModelled, mc') => (NotModelled, mc')
    end.

Notation "x <~ p ;> k" := (then_ p (fun x => k))
  (at level 61, p at next level, right associativity).
Notation "p ;> k" := (then_ p (fun _ => k))
  (at level 61, right associativity).

(** [print(text)]. *)
Definition print (text : string) : Prog unit :=
  fun mc =>
    (Done tt,
     {| outside := outside mc;
        console := (console mc ++ [Printed text])%list |}).

(** [time.sleep(seconds)]. *)
Definition sleep (seconds : Z) : Prog unit :=
  fun mc =>
    (Done tt,
     {| outside := outside mc;
        console := (console mc ++ [Slept seconds])%list |}).

(** [try: body except requests.HTTPError as e: handler], the handler
    being given [e.response]. *)
Definition try_http {A : Type} (body : Prog A) (handler : Response -> Prog A)
    : Prog A :=
  fun mc =>
    match body mc with
    | (Failed (ClientError (HTTPError r)), mc') => handler r mc'
    | other => other
    end.

(** [try: body except Exception as e: handler]. *)
Definition try_any {A : Type} (body : Prog A) (handler : Failure -> Prog A)
    : Prog A :=
  fun mc =>
    match body mc with
    | (Failed f, mc') => handler f mc'
    | other => other
    end.

(** The newline of the ["\n"] in the messages. *)
Definition nl : string := String "010" EmptyString.

(** [needle in hay] for two strings. *)
Fixpoint is_substring (needle hay : string) : bool :=
  match hay with
  | EmptyString => String.prefix needle EmptyString
  | String _ rest => String.prefix needle hay || is_substring needle rest
  end.

Section Programs.

Context (net : Network) (py : Builtins).

(** [AgentWalletClient()]. *)
Definition new_client : Prog t :=
  fun mc =>
    let (c, w) := __init__ None (outside mc) in
    (Done c, {| outside := w; console := console mc |}).

(** A call of a method on [client]. *)
Definition invoke {A : Type} (client : t) (m : M A) : Prog A :=
  fun mc =>
    let (res, s) := m {| self := client; world := outside mc |} in
    (match res with
     | Return a => Done a
     | Raise e => Failed (ClientError e)
     end,
     {| outside := world s; console := console mc |}).

(** [f"{v}"] for a value out of a decoded document.  The integers of
    a decoded document are within the limit of [str] ([response.json()]
    raises otherwise), so that the numeral is what is written. *)
Definition format_value (v : json) : string :=
  match v with
  | JStr s => s
  | JInt n => Py.decimal n
  | JBool true => "True"
  | JBool false => "False"
  | JNull => "None"
  | JFloat _ | JList _ | JObj _ => repr_value py v
  end.

(** [a == b] for two decoded values. *)
Definition value_eq (a b : json) : bool :=
  match a, b with
  | JStr x, JStr y => String.eqb x y
  | JNull, JNull => true
  | JInt m, JInt n => m =? n
  | JBool x, JBool y => Bool.eqb x y
  | JInt n, JBool y | JBool y, JInt n => n =? (if y then 1 else 0)
  | JStr _, _ | _, JStr _ | JNull, _ | _, JNull => false
  | _, _ => eq_compound py a b
  end.

(** [e.response.json()] and the like inside an example. *)
Definition lift_result {A : Type} (r : PyResult A) : Prog A :=
  match r with
  | Return a => done a
  | Raise e => fail (ClientError e)
  end.

(** [f"{n}"] for an [int] that a method of the client returned. *)
Definition str_of (n : Z) : Prog string :=
  match Py.str n with
  | Some text => done text
  | None => fail (ClientError ValueError)
  end.

(** **** [example_1_create_wallet] *)

(** The [while wallet.status == "pending"] loop; [wallet] is [None]
    when [get_wallet] found none, and then [wallet.status] raises. *)
Fixpoint wait_until_active (fuel : nat) (client : t)
    (wallet : option AgentWallet.t) : Prog (option AgentWallet.t) :=
  match wallet with
  | None => fail AttributeError
  | Some w =>
      if value_eq (AgentWallet.status w) (JStr "pending") then
        match fuel with
        | O => fun mc => (Diverged, mc)
        | S fuel' =>
            print "Waiting for wallet activation..." ;>
            sleep 5 ;>
            wallet' <~ invoke client
                         (get_wallet net (format_value (AgentWallet.agent_id w))) ;>
            wait_until_active fuel' client wallet'
        end
      else done wallet
  end.

Definition example_1_create_wallet (fuel : nat) : Prog (option AgentWallet.t) :=
  client <~ new_client ;>
  print "=== Example 1: Create Agent Wallet ===" ;>
  try_http
    (wallet <~ invoke client (create_wallet net "agent-001") ;>
     print "Agent wallet created:" ;>
     print ("  Agent ID: " ++ format_value (AgentWallet.agent_id wallet)) ;>
     print ("  EVM Address: " ++ format_value (AgentWallet.evm_address wallet)) ;>
     print ("  XRP Address: " ++ format_value (AgentWallet.xrp_address wallet)) ;>
     print ("  Status: " ++ format_value (AgentWallet.status wallet)) ;>
     wallet' <~ wait_until_active fuel client (Some wallet) ;>
     print "Wallet is now active!" ;>
     done wallet')
    (fun r =>
       print ("Wallet creation failed: "
                ++ exception_text py (ClientError (HTTPError r))) ;>
       fail (ClientError (HTTPError r))).

(** **** [example_2_check_balances] *)

(** [format_balance(balance, decimals)] with [decimals] as it came out
    of the JSON document: a [bool] is an [int]; [10 ** decimals] raises
    [TypeError] for what is no number; a float, or a negative integer,
    leads into float arithmetic. *)
Definition format_balance_of (balance : Z) (decimals : json) : Prog string :=
  match decimals with
  | JInt d =>
      match format_balance balance d with
      | Some result => lift_result result
      | None => fun mc => (NotModelled, mc)
      end
  | JBool b =>
      match format_balance balance (if b then 1 else 0) with
      | Some result => lift_result result
      | None => fun mc => (NotModelled, mc)
      end
  | JFloat _ => fun mc => (NotModelled, mc)
  | JStr _ | JNull | JList _ | JObj _ => fail (ClientError TypeError)
  end.

(** [v.upper()]. *)
Definition upper_of (v : json) : Prog string :=
  match v with
  | JStr s => done (str_upper py s)
  | _ => fail AttributeError
  end.

Fixpoint print_balances (balances : list AgentBalance.t) : Prog unit :=
  match balances with
  | [] => done tt
  | balance :: rest =>
      formatted <~ format_balance_of (AgentBalance.balance balance)
                     (AgentBalance.decimals balance) ;>
      chain <~ upper_of (AgentBalance.chain balance) ;>
      print ("  " ++ chain ++ " " ++ format_value (AgentBalance.token balance)
               ++ ": " ++ formatted) ;>
      raw <~ str_of (AgentBalance.balance balance) ;>
      print ("    Raw: " ++ raw ++ " (decimals: "
               ++ format_value (AgentBalance.decimals balance) ++ ")") ;>
      print_balances rest
  end.

Definition example_2_check_balances (agent_id : string)
    : Prog (list AgentBalance.t) :=
  client <~ new_client ;>
  print (nl ++ "=== Example 2: Check Balances for " ++ agent_id ++ " ===") ;>
  try_http
    (balances <~ invoke client (get_all_balances net agent_id) ;>
     (* [len] of a list is below [sys.maxsize]: [str] cannot raise. *)
     print ("Agent has " ++ Py.decimal (Z.of_nat (List.length balances))
              ++ " balances:") ;>
     print_balances balances ;>
     done balances)
    (fun r =>
       print ("Balance check failed: "
                ++ exception_text py (ClientError (HTTPError r))) ;>
       fail (ClientError (HTTPError r))).

(** **** [example_3_payment_channel] *)

(** The [for i in range(1, 11)] loop, over the values of [i], which
    are written with one or two digits. *)
Fixpoint send_payments (client : t) (agent_id : string) (channel_id : json)
    (indices : list Z) : Prog unit :=
  match indices with
  | [] => done tt
  | i :: rest =>
      invoke client
        (send_payment net agent_id (format_value channel_id) 10000000) ;>
      print ("Payment " ++ Py.decimal i ++ "/10 sent: 10 USDC") ;>
      send_payments client agent_id channel_id rest
  end.

Definition range_1_11 : list Z := map Z.of_nat (seq 1 10).

Definition example_3_payment_channel (agent_id peer_id : string) : Prog unit :=
  client <~ new_client ;>
  print (nl ++ "=== Example 3: Payment Channel ===") ;>
  try_http
    (print ("Opening payment channel from " ++ agent_id ++ " to " ++ peer_id) ;>
     channel_id <~ invoke client
                     (open_channel net agent_id peer_id "evm" "USDC" 1000000000) ;>
     print ("Payment channel opened: " ++ format_value channel_id) ;>
     send_payments client agent_id channel_id range_1_11 ;>
     channels <~ invoke client (get_agent_channels net agent_id) ;>
     match find (fun c => value_eq (AgentChannel.id c) channel_id) channels with
     | Some channel =>
         print (nl ++ "Channel status:") ;>
         print ("  Channel ID: " ++ format_value (AgentChannel.id channel)) ;>
         formatted <~ format_balance_of (AgentChannel.balance channel) (JInt 6) ;>
         print ("  Remaining balance: " ++ formatted ++ " USDC") ;>
         print ("  Payments sent: "
                  ++ format_value (AgentChannel.payments_count channel))
     | None => done tt
     end ;>
     print (nl ++ "Closing payment channel...") ;>
     invoke client (close_channel net agent_id (format_value channel_id)) ;>
     print "Channel closed and settled")
    (fun r =>
       print ("Payment channel operation failed: "
                ++ exception_text py (ClientError (HTTPError r))) ;>
       fail (ClientError (HTTPError r))).

(** **** [example_4_error_handling] *)

(** [d.get(key, default)]. *)
Definition dict_get (d : json) (key : string) (default : json) : Prog json :=
  match d with
  | JObj kvs =>
      match PyVal.lookup key kvs with
      | Some v => done v
      | None => done default
      end
  | _ => fail AttributeError
  end.

(** [needle in x] for a string [needle]. *)
Definition contains (needle : string) (x : json) : Prog bool :=
  match x with
  | JStr hay => done (is_substring needle hay)
  | JList l => done (existsb (fun v => value_eq v (JStr needle)) l)
  | JObj kvs => done (existsb (fun kv => String.eqb (fst kv) needle) kvs)
  | JNull | JBool _ | JInt _ | JFloat _ => fail (ClientError TypeError)
  end.

Definition example_4_error_handling (agent_id : string)
    : Prog (option AgentWallet.t) :=
  client <~ new_client ;>
  print (nl ++ "=== Example 4: Error Handling ===") ;>
  try_http
    (wallet <~ invoke client (create_wallet net agent_id) ;>
     print ("Wallet created: " ++ agent_id) ;>
     done (Some wallet))
    (fun r =>
       if status_code r =? 409 then
         print "Wallet already exists, retrieving existing wallet" ;>
         invoke client (get_wallet net agent_id)
       else if status_code r =? 429 then
         print "Rate limit exceeded, waiting 60 seconds..." ;>
         sleep 60 ;>
         fail (ClientError (HTTPError r))
       else if status_code r =? 500 then
         error_data <~ lift_result (decoded r) ;>
         message <~ dict_get error_data "error" (JStr "") ;>
         found <~ contains "master-seed not found" message ;>
         if found then
           print "Master seed not initialized - contact administrator" ;>
           fail (Exception "System configuration error")
         else fail (ClientError (HTTPError r))
       else
         print ("Unknown error: "
                  ++ exception_text py (ClientError (HTTPError r))) ;>
         fail (ClientError (HTTPError r))).

(** **** [example_5_batch_operations] *)

Definition batch_agent_ids : list string :=
  ["agent-batch-001"; "agent-batch-002"; "agent-batch-003"].

(** The [for agent_id in agent_ids] loop; [wallets] is the list the
    loop appends to. *)
Fixpoint create_batch (client : t) (agent_ids : list string)
    (wallets : list AgentWallet.t) : Prog (list AgentWallet.t) :=
  match agent_ids with
  | [] => done wallets
  | agent_id :: rest =>
      wallets' <~ try_http
                    (wallet <~ invoke client (create_wallet net agent_id) ;>
                     print ("  Created: "
                              ++ format_value (AgentWallet.agent_id wallet)) ;>
                     done (wallets ++ [wallet])%list)
                    (fun r =>
                       if status_code r =? 409 then
                         print ("  Skipped (already exists): " ++ agent_id) ;>
                         done wallets
                       else fail (ClientError (HTTPError r))) ;>
      create_batch client rest wallets'
  end.

Definition example_5_batch_operations : Prog (list AgentWallet.t) :=
  client <~ new_client ;>
  print (nl ++ "=== Example 5: Batch Wallet Creation ===") ;>
  try_http
    (print ("Creating " ++ Py.decimal (Z.of_nat (List.length batch_agent_ids))
              ++ " wallets...") ;>
     wallets <~ create_batch client batch_agent_ids [] ;>
     print (nl ++ "Batch creation complete: "
              ++ Py.decimal (Z.of_nat (List.length wallets)) ++ " wallets created") ;>
     done wallets)
    (fun r =>
       print ("Batch wallet creation failed: "
                ++ exception_text py (ClientError (HTTPError r))) ;>
       fail (ClientError (HTTPError r))).

(** **** [complete_lifecycle_example] *)

Definition rule : string := Py.repeat_char "=" 60.

Definition complete_lifecycle_example (fuel : nat) : Prog unit :=
  print (nl ++ rule) ;>
  print "=== COMPLETE AGENT LIFECYCLE EXAMPLE ===" ;>
  print rule ;>
  try_any
    (print (nl ++ "Step 1: Creating agent wallet...") ;>
     example_1_create_wallet fuel ;>
     print (nl ++ "Step 2: Checking wallet balances...") ;>
     example_2_check_balances "agent-example-001" ;>
     print (nl ++ "Step 3: Payment channel operations...") ;>
     example_3_payment_channel "agent-example-001" "agent-example-002" ;>
     print (nl ++ "Step 4: Error handling demonstration...") ;>
     example_4_error_handling "agent-error-001" ;>
     print (nl ++ "Step 5: Batch wallet operations...") ;>
     example_5_batch_operations ;>
     print (nl ++ rule) ;>
     print "=== COMPLETE LIFECYCLE EXAMPLE FINISHED SUCCESSFULLY ===" ;>
     print rule)
    (fun f =>
       print (nl ++ "Lifecycle example failed: " ++ exception_text py f) ;>
       fail f).

End Programs.

(** The pauses among the effects, in order. *)
Definition slept (es : list Effect) : list Z :=
  flat_map (fun e => match e with Slept n => [n] | Printed _ => [] end) es.

(** The lines printed among the effects, in order. *)
Definition printed (es : list Effect) : list string :=
  flat_map (fun e => match e with Printed t => [t] | Slept _ => [] end) es.

(** The client an example constructs on the machine [mc], in the world
    as it is right after the construction. *)
Definition started (mc : Machine) : State :=
  {| self := {| base_url := API_BASE_URL;
                session := sessions_created (outside mc) |};
     world := (outside mc ++ [Opened (sessions_created (outside mc))])%list |}.

(** *** Vocabulary of the further properties *)


(** The server answers [req], issued in state [s], with the response
    [r], whose status is no error and which [response.json()] decodes
    to the document [data]. *)
Definition answers (net : Network) (s : State) (req : Request)
    (r : Response) (data : json) : Prop :=
  reply net s req = inr r /\ error_status r = false /\ decoded r = Return data.

(** The amount of the call, when it has one, is within the limit of
    [str]. *)
Definition converts (c : Call) : bool :=
  match c with
  | OpenChannel _ _ _ _ n | SendPayment _ _ n =>
      Py.digit_count n <=? Py.max_str_digits
  | _ => true
  end.

(** The request each call gives the session when it gets that far,
    which it does when its amount converts ([call_issues] below proves
    that it is this one). *)
Definition request_of (c : Call) (base : string) : Request :=
  match c with
  | CreateWallet a =>
      mkRequest POST (base ++ "/wallets")
        (Some (JObj [("agentId", JStr a)])) API_TIMEOUT
  | GetWallet a =>
      mkRequest GET (base ++ "/wallets/" ++ a) None API_TIMEOUT
  | GetAllBalances a =>
      mkRequest GET (base ++ "/wallets/" ++ a ++ "/balances") None API_TIMEOUT
  | GetBalance a c t =>
      mkRequest GET
        (base ++ "/wallets/" ++ a ++ "/balances/" ++ c ++ "/" ++ t)
        None API_TIMEOUT
  | OpenChannel a p c t n =>
      mkRequest POST (base ++ "/channels")
        (Some (JObj [("agentId", JStr a); ("peerId", JStr p);
                     ("chain", JStr c); ("token", JStr t);
                     ("amount", JStr (Py.decimal n))]))
        API_TIMEOUT
  | SendPayment a ch n =>
      mkRequest POST (base ++ "/channels/" ++ ch ++ "/payments")
        (Some (JObj [("agentId", JStr a); ("amount", JStr (Py.decimal n))]))
        API_TIMEOUT
  | CloseChannel a ch =>
      mkRequest DELETE (base ++ "/channels/" ++ ch)
        (Some (JObj [("agentId", JStr a)])) API_TIMEOUT
  | GetAgentChannels a =>
      mkRequest GET (base ++ "/wallets/" ++ a ++ "/channels") None API_TIMEOUT
  end.

(** The first argument of every method. *)
Definition agent_of (c : Call) : string :=
  match c with
  | CreateWallet a | GetWallet a | GetAllBalances a | GetBalance a _ _
  | OpenChannel a _ _ _ _ | SendPayment a _ _ | CloseChannel a _
  | GetAgentChannels a => a
  end.

(** The four methods the class uses to read. *)
Definition is_read (c : Call) : bool :=
  match c with
  | GetWallet _ | GetAllBalances _ | GetBalance _ _ _ | GetAgentChannels _ => true
  | _ => false
  end.

(** The two methods that return nothing. *)
Definition is_ack (c : Call) : bool :=
  match c with
  | SendPayment _ _ _ | CloseChannel _ _ => true
  | _ => false
  end.

(** The first of [keys] that the dict [kvs] does not have. *)
Definition first_missing (keys : list string) (kvs : list (string * json))
    : option string :=
  find (fun k => match PyVal.lookup k kvs with
                 | None => true
                 | Some _ => false
                 end) keys.

(** The keys of a wallet document, in the order the client reads them. *)
Definition wallet_keys : list string :=
  ["agentId"; "evmAddress"; "xrpAddress"; "derivationIndex"; "createdAt";
   "status"].

(** A comprehension over [xs] with the element-wise decoder [f] gave
    [res]: either every element decoded and [res] holds the results in
    the order of [xs], or [res] is what the first element that does not
    decode raises. *)
Definition all_or_first_failure {A B : Type} (f : A -> PyResult B)
    (xs : list A) (res : PyResult (list B)) : Prop :=
  match res with
  | Return ys => Forall2 (fun x y => f x = Return y) xs ys
  | Raise e =>
      exists good bad rest,
        xs = (good ++ bad :: rest)%list /\
        Forall (fun x => exists y, f x = Return y) good /\
        f bad = Raise e
  end.

(** A wallet document as the server sends it, with one key the client
    does not read. *)
Definition wallet_document : json :=
  JObj [("agentId", JStr "agent-001"); ("evmAddress", JStr "0xabc");
        ("xrpAddress", JStr "rXYZ"); ("derivationIndex", JInt 7);
        ("createdAt", JStr "2026-01-01T00:00:00Z"); ("status", JStr "active");
        ("extra", JNull)].

Definition demo_wallet : AgentWallet.t :=
  AgentWallet.mk (JStr "agent-001") (JStr "0xabc") (JStr "rXYZ") (JInt 7)
    (JStr "2026-01-01T00:00:00Z") (JStr "active").

(** What a run of the batch loop over [ids] did, from the machine [mc],
    with [held] wallets collected before: it sent the creation requests
    of the first [k] identifiers, in order, and nothing else; it took no
    pause; it ended well only after all of them, with at most one more
    wallet per identifier; it never ended on the [HTTPError] of a 409. *)
Definition batch_summary (client : t) (ids : list string) (held : nat)
    (mc : Machine) (run : Outcome (list AgentWallet.t) * Machine) : Prop :=
  exists k : nat,
    (k <= List.length ids)%nat /\
    outside (snd run)
    = (outside mc
         ++ map (fun a => Sent (session client)
                            (request_of (CreateWallet a) (base_url client)))
              (firstn k ids))%list /\
    slept (console (snd run)) = slept (console mc) /\
    (forall ws, fst run = Done ws ->
                k = List.length ids /\
                (List.length ws <= held + List.length ids)%nat) /\
    (forall r, fst run = Failed (ClientError (HTTPError r)) ->
               status_code r <> 409) /\
    fst run <> Diverged /\ fst run <> NotModelled.

(** The program [p], run with [client], follows [script]: whatever the
    machine, the requests it sends are an initial part of [script], in
    order and through the client's session; it sends the whole of
    [script] when it ends well; it takes no pause. *)
Definition follows {A : Type} (client : t) (script : list Request)
    (p : Prog A) : Prop :=
  forall mc : Machine,
    exists done_part rest : list Request,
      script = (done_part ++ rest)%list /\
      outside (snd (p mc))
      = (outside mc ++ map (Sent (session client)) done_part)%list /\
      slept (console (snd (p mc))) = slept (console mc) /\
      (forall a, fst (p mc) = Done a -> rest = []).

(** The requests of [example_3_payment_channel] for the channel [ch]:
    one opening, ten payments, one listing, one closing. *)
Definition channel_script (agent_id peer_id ch : string) : list Request :=
  (request_of (OpenChannel agent_id peer_id "evm" "USDC" 1000000000)
     API_BASE_URL
   :: repeat (request_of (SendPayment agent_id ch 10000000) API_BASE_URL) 10
   ++ [request_of (GetAgentChannels agent_id) API_BASE_URL;
       request_of (CloseChannel agent_id ch) API_BASE_URL])%list.

(** What a run of the polling loop did, with [fuel] rounds allowed: it
    sent [GET] requests only, through the client's session, at most
    [fuel] of them and exactly [fuel] when it was cut short; it paused 5
    seconds before each; it ended well only on a wallet whose status is
    not ["pending"]. *)
Definition polling_summary (client : t) (fuel : nat) (mc : Machine)
    (run : Outcome (option AgentWallet.t) * Machine) : Prop :=
  exists polls : list Request,
    outside (snd run) = (outside mc ++ map (Sent (session client)) polls)%list /\
    Forall (fun req => method req = GET) polls /\
    slept (console (snd run))
    = (slept (console mc) ++ repeat 5 (List.length polls))%list /\
    (List.length polls <= fuel)%nat /\
    (forall w, fst run = Done w ->
               exists w', w = Some w' /\ AgentWallet.status w' <> JStr "pending") /\
    (fst run = Diverged -> List.length polls = fuel) /\
    fst run <> NotModelled.

(** The program [p], run with [client], does nothing to the world but
    send requests through the client's session. *)
Definition keeps_to {A : Type} (client : t) (p : Prog A) : Prop :=
  forall mc : Machine,
    exists reqs : list Request,
      outside (snd (p mc)) = (outside mc ++ map (Sent (session client)) reqs)%list.

(** The program [p] constructs at most [n] sessions, exactly [n] when
    it ends well, and closes none. *)
Definition opens {A : Type} (n : nat) (p : Prog A) : Prop :=
  forall mc : Machine,
    exists k : nat,
      (k <= n)%nat /\
      sessions_created (outside (snd (p mc)))
      = (sessions_created (outside mc) + k)%nat /\
      (forall j, is_closed j (outside (snd (p mc))) = is_closed j (outside mc)) /\
      (forall a, fst (p mc) = Done a -> k = n).


(** A server that answers every request with [r]. *)
Definition net_answer (r : Response) : Network := fun _ _ _ => inr r.

(** A wallet document whose status is ["pending"]. *)
Definition pending_document : json :=
  JObj [("agentId", JStr "agent-001"); ("evmAddress", JStr "0xabc");
        ("xrpAddress", JStr "rXYZ"); ("derivationIndex", JInt 7);
        ("createdAt", JStr "2026-01-01T00:00:00Z"); ("status", JStr "pending")].

(** A server that creates a pending wallet and then does not find it. *)
Definition net_created_then_gone : Network :=
  fun _ _ req =>
    match method req with
    | POST => inr (mkResponse 201 (Some pending_document))
    | GET | DELETE => inr (mkResponse 404 None)
    end.

(** Stand-ins for the built-ins the examples use beyond the model. *)
Definition demo_builtins : Builtins :=
  {| repr_value := fun _ => "<value>";
     exception_text := fun _ => "<error>";
     str_upper := fun s => s;
     eq_compound := fun _ _ => false |}.

(** A machine on which nothing has happened yet. *)
Definition idle : Machine := {| outside := []; console := [] |}.

(** *** Test doubles for the wire *)

(** A server that is reached after [connect] seconds and answers every
    request with [r], head and body coming after the waits given. *)
Definition wire_waits (connect : Z) (head body : list Z) (r : Response)
    : Requests.Wire :=
  fun _ _ _ _ => Requests.Reached connect head body (Requests.Final r).

(** A server that answers the first request of a call with a redirect
    to [location] that keeps the method and the body, as a 307 does,
    and the request that follows it with [r]. *)
Definition wire_moved (location : string) (r : Response) : Requests.Wire :=
  fun _ _ sent req =>
    match sent with
    | [] =>
        Requests.Reached 0 [0] [0]
          (Requests.Redirect (method req) location (json_body req))
    | _ :: _ => Requests.Reached 0 [0] [0] (Requests.Final r)
    end.

(** A server that answers every request with a redirect to itself. *)
Definition wire_loop : Requests.Wire :=
  fun _ _ _ req =>
    Requests.Reached 0 [0] [0]
      (Requests.Redirect (method req) (url req) (json_body req)).

(** ** Worked values *)

Example format_balance_1000 :
  format_balance 1000000000 6 = Some (Return "1000.000000").
Proof. reflexivity. Qed.

Example format_balance_10 :
  format_balance 10000000 6 = Some (Return "10.000000").
Proof. reflexivity. Qed.

Example format_balance_neg : format_balance (-1) 6 = Some (Return "-1.999999").
Proof. reflexivity. Qed.

Example format_balance_d0 : format_balance 5 0 = Some (Return "5.0").
Proof. reflexivity. Qed.

Example int_of_str_examples :
  Py.int_of_str " 1_000 " = Some 1000 /\ Py.int_of_str "-007" = Some (-7) /\
  Py.int_of_str "1__0" = None /\ Py.int_of_str "" = None /\
  Py.int_of_str "+5" = Some 5 /\ Py.int_of_str "- 5" = None /\
  Py.int_of_str "12a" = None /\ Py.int_of_str "_1" = None /\
  Py.int_of_str "1_" = None.
Proof. repeat split; reflexivity. Qed.

(** White space to [int]: NBSP and NEL are, FS is not. *)
Example int_of_str_spaces :
  Py.int_of_str (String (ascii_of_N 160) "42") = Some 42 /\
  Py.int_of_str (String (ascii_of_N 133) "42") = Some 42 /\
  Py.int_of_str (String (ascii_of_N 28) "42") = None /\
  Py.int_of_str (String (ascii_of_N 11) "42") = Some 42.
Proof. repeat split; reflexivity. Qed.

Example str_examples :
  Py.str 0 = Some "0" /\ Py.str (-5) = Some "-5" /\
  Py.str 1000000000 = Some "1000000000".
Proof. repeat split; reflexivity. Qed.

(** ** Facts about the built-ins *)

Lemma digit_cases (d : Z) :
  0 <= d < 10 ->
  d = 0 \/ d = 1 \/ d = 2 \/ d = 3 \/ d = 4 \/
  d = 5 \/ d = 6 \/ d = 7 \/ d = 8 \/ d = 9.
Proof. lia. Qed.

Ltac each_digit d H :=
  destruct (digit_cases d H) as [-> | [-> | [-> | [-> | [-> | [-> | [-> | [-> | [-> | ->]]]]]]]]].

Lemma is_digit_digit_char (d : Z) :
  0 <= d < 10 -> Py.is_digit (Py.digit_char d) = true.
Proof. intros H. each_digit d H; reflexivity. Qed.

Lemma digit_val_digit_char (d : Z) :
  0 <= d < 10 -> Py.digit_val (Py.digit_char d) = d.
Proof. intros H. each_digit d H; reflexivity. Qed.

Lemma mod10_digit (n : Z) : 0 <= n mod 10 < 10.
Proof. apply Z.mod_pos_bound; lia. Qed.

(** A digit is neither white space, nor a sign, nor a dot. *)
Lemma is_digit_plain (c : ascii) :
  Py.is_digit c = true ->
  Py.is_space c = false /\ c <> "-"%char /\ c <> "+"%char /\ c <> "."%char.
Proof.
  destruct c as [[] [] [] [] [] [] [] []]; cbv; intros H;
    try discriminate H; repeat split; discriminate.
Qed.

Lemma digits_fuel_all_digits (fuel : nat) :
  forall n acc,
    all_chars Py.is_digit acc = true ->
    all_chars Py.is_digit (Py.digits_fuel fuel n acc) = true.
Proof.
  induction fuel as [| fuel IH]; intros n acc Hacc; simpl; [exact Hacc |].
  assert (Hd : all_chars Py.is_digit (String (Py.digit_char (n mod 10)) acc) = true).
  { simpl. rewrite is_digit_digit_char by apply mod10_digit. exact Hacc. }
  destruct (n <? 10); [exact Hd | apply IH, Hd].
Qed.

Lemma digits_fuel_nonempty (fuel : nat) :
  forall n acc, Py.digits_fuel (S fuel) n acc <> EmptyString.
Proof.
  induction fuel as [| fuel IH]; intros n acc.
  - simpl. destruct (n <? 10); discriminate.
  - change (Py.digits_fuel (S (S fuel)) n acc)
      with (if n <? 10 then String (Py.digit_char (n mod 10)) acc
            else Py.digits_fuel (S fuel) (n / 10)
                   (String (Py.digit_char (n mod 10)) acc)).
    destruct (n <? 10); [discriminate | apply IH].
Qed.

(** Reading back the digits written for [n] gives [n], when the fuel
    covers them. *)
Lemma parse_digits_fuel (fuel : nat) :
  forall n rest prev,
    0 <= n < 2 ^ Z.of_nat (S fuel) ->
    Py.parse_digits (Py.digits_fuel (S fuel) n rest) 0 prev
    = Py.parse_digits rest n true.
Proof.
  induction fuel as [| fuel IH]; intros n rest prev Hn.
  - assert (Hlt : n < 10).
    { assert (E : 2 ^ Z.of_nat 1 = 2) by reflexivity. rewrite E in Hn. lia. }
    simpl. apply Z.ltb_lt in Hlt. rewrite Hlt. simpl.
    rewrite is_digit_digit_char by apply mod10_digit.
    rewrite digit_val_digit_char by apply mod10_digit.
    apply Z.ltb_lt in Hlt. rewrite Z.mod_small by lia. reflexivity.
  - change (Py.digits_fuel (S (S fuel)) n rest)
      with (if n <? 10 then String (Py.digit_char (n mod 10)) rest
            else Py.digits_fuel (S fuel) (n / 10)
                   (String (Py.digit_char (n mod 10)) rest)).
    destruct (Z.ltb_spec n 10) as [Hlt | Hge].
    + simpl. rewrite is_digit_digit_char by apply mod10_digit.
      rewrite digit_val_digit_char by apply mod10_digit.
      rewrite Z.mod_small by lia. reflexivity.
    + rewrite IH.
      * cbn [Py.parse_digits].
        rewrite is_digit_digit_char by apply mod10_digit.
        rewrite digit_val_digit_char by apply mod10_digit.
        f_equal. pose proof (Z.div_mod n 10). lia.
      * split; [apply Z.div_pos; lia |].
        apply Z.div_lt_upper_bound; [lia |].
        rewrite (Nat2Z.inj_succ (S fuel)) in Hn.
        rewrite Z.pow_succ_r in Hn by lia. lia.
Qed.

Lemma str_nonneg_fuel (n : Z) :
  0 <= n -> 0 <= n < 2 ^ Z.of_nat (S (Z.to_nat (Z.log2 n))).
Proof.
  intros Hn. split; [exact Hn |].
  rewrite Nat2Z.inj_succ, Z2Nat.id by apply Z.log2_nonneg.
  destruct (Z.eq_dec n 0) as [-> | Hnz]; [reflexivity |].
  apply Z.log2_spec. lia.
Qed.

Lemma parse_str_nonneg (n : Z) (prev : bool) :
  0 <= n -> Py.parse_digits (Py.str_nonneg n) 0 prev = Some n.
Proof.
  intros Hn. unfold Py.str_nonneg.
  rewrite parse_digits_fuel by (apply str_nonneg_fuel; exact Hn).
  reflexivity.
Qed.

Lemma str_nonneg_all_digits (n : Z) :
  all_chars Py.is_digit (Py.str_nonneg n) = true.
Proof. apply digits_fuel_all_digits. reflexivity. Qed.

Lemma str_nonneg_head (n : Z) :
  exists c r, Py.str_nonneg n = String c r /\ Py.is_digit c = true /\
              all_chars Py.is_digit r = true.
Proof.
  pose proof (str_nonneg_all_digits n) as Hall.
  pose proof (digits_fuel_nonempty (Z.to_nat (Z.log2 n)) n EmptyString) as Hne.
  fold (Py.str_nonneg n) in Hne.
  destruct (Py.str_nonneg n) as [| c r]; [contradiction |].
  simpl in Hall. apply andb_true_iff in Hall.
  exists c, r. tauto.
Qed.

(** Stripping leaves alone a string with no white space in it. *)
Lemma rstrip_no_space (s : string) :
  all_chars (fun c => negb (Py.is_space c)) s = true -> Py.rstrip s = s.
Proof.
  induction s as [| c r IH]; simpl; [reflexivity |].
  intros H. apply andb_true_iff in H. destruct H as [Hc Hr].
  rewrite (IH Hr). apply negb_true_iff in Hc. rewrite Hc.
  destruct r; reflexivity.
Qed.

Lemma strip_no_space (s : string) :
  all_chars (fun c => negb (Py.is_space c)) s = true -> Py.strip s = s.
Proof.
  intros H. unfold Py.strip.
  assert (Hl : Py.lstrip s = s).
  { destruct s as [| c r]; [reflexivity |]. simpl in *.
    apply andb_true_iff in H. destruct H as [Hc _].
    apply negb_true_iff in Hc. rewrite Hc. reflexivity. }
  rewrite Hl. apply rstrip_no_space, H.
Qed.

Lemma all_chars_weaken (p q : ascii -> bool) (s : string) :
  (forall c, p c = true -> q c = true) ->
  all_chars p s = true -> all_chars q s = true.
Proof.
  intros Hpq. induction s as [| c r IH]; simpl; [reflexivity |].
  intros H. apply andb_true_iff in H. destruct H as [Hc Hr].
  rewrite (Hpq c Hc), (IH Hr). reflexivity.
Qed.

Lemma digits_no_space (s : string) :
  all_chars Py.is_digit s = true ->
  all_chars (fun c => negb (Py.is_space c)) s = true.
Proof.
  apply all_chars_weaken. intros c Hc.
  destruct (is_digit_plain c Hc) as [Hs _]. rewrite Hs. reflexivity.
Qed.

(** A string that starts with a digit is read as an unsigned literal. *)
Lemma literal_unsigned (c : ascii) (r : string) :
  Py.is_digit c = true ->
  all_chars Py.is_digit r = true ->
  Py.literal (String c r) = Py.parse_digits (String c r) 0 false.
Proof.
  intros Hc Hr. unfold Py.literal.
  rewrite strip_no_space.
  - destruct c as [[] [] [] [] [] [] [] []]; try reflexivity; discriminate Hc.
  - apply digits_no_space. simpl. rewrite Hc, Hr. reflexivity.
Qed.

Lemma literal_decimal (n : Z) : Py.literal (Py.decimal n) = Some n.
Proof.
  unfold Py.decimal. destruct (Z.ltb_spec n 0) as [Hneg | Hpos].
  - unfold Py.literal. rewrite strip_no_space.
    + rewrite parse_str_nonneg by lia. simpl. f_equal. lia.
    + simpl. apply digits_no_space, str_nonneg_all_digits.
  - destruct (str_nonneg_head n) as (c & r & E & Hc & Hr).
    rewrite E, literal_unsigned by assumption.
    rewrite <- E. apply parse_str_nonneg, Hpos.
Qed.

(** *** Lengths and padding *)

Lemma length_repeat_append (c : ascii) (k : nat) (s : string) :
  String.length (Py.repeat_char c k ++ s) = (k + String.length s)%nat.
Proof. induction k as [| k IH]; simpl; [reflexivity | rewrite IH; reflexivity]. Qed.

(** A number below [10 ^ (d + 1)] is written with at most [d + 1] digits. *)
Lemma length_digits_fuel (fuel : nat) :
  forall n d acc,
    0 <= n < 10 ^ Z.of_nat (S d) ->
    (String.length (Py.digits_fuel fuel n acc) <= S d + String.length acc)%nat.
Proof.
  induction fuel as [| fuel IH]; intros n d acc Hn; simpl; [lia |].
  destruct (Z.ltb_spec n 10) as [Hlt | Hge]; simpl; [lia |].
  destruct d as [| d].
  - assert (E : 10 ^ Z.of_nat 1 = 10) by reflexivity. rewrite E in Hn. lia.
  - assert (Hdiv : 0 <= n / 10 < 10 ^ Z.of_nat (S d)).
    { split; [apply Z.div_pos; lia |].
      apply Z.div_lt_upper_bound; [lia |].
      rewrite (Nat2Z.inj_succ (S d)) in Hn.
      rewrite Z.pow_succ_r in Hn by lia. lia. }
    specialize (IH (n / 10) d (String (Py.digit_char (n mod 10)) acc) Hdiv).
    simpl in IH. lia.
Qed.

Lemma length_str_nonneg (n d : Z) :
  0 < d -> 0 <= n < 10 ^ d ->
  Z.of_nat (String.length (Py.str_nonneg n)) <= d.
Proof.
  intros Hd Hn. unfold Py.str_nonneg.
  pose proof (length_digits_fuel (S (Z.to_nat (Z.log2 n))) n
                (Z.to_nat (d - 1)) EmptyString) as H.
  replace (Z.of_nat (S (Z.to_nat (d - 1)))) with d in H by lia.
  specialize (H Hn). change (String.length EmptyString) with O in H. lia.
Qed.

(** Padding a string that starts with a digit puts the zeros in front. *)
Lemma zfill_digit_head (c : ascii) (r : string) (width : Z) :
  Py.is_digit c = true ->
  Py.zfill (String c r) width
  = Py.repeat_char "0"
      (Z.to_nat (width - Z.of_nat (String.length (String c r)))) ++ String c r.
Proof.
  intros Hc. unfold Py.zfill.
  destruct (Z.leb_spec width (Z.of_nat (String.length (String c r)))) as [Hle | Hgt].
  - replace (Z.to_nat (width - Z.of_nat (String.length (String c r)))) with O by lia.
    reflexivity.
  - destruct (is_digit_plain c Hc) as (_ & Hm & Hp & _).
    apply Ascii.eqb_neq in Hm. apply Ascii.eqb_neq in Hp.
    rewrite Hm, Hp. reflexivity.
Qed.

Lemma parse_zeros (k : nat) (s : string) (prev : bool) :
  Py.parse_digits (Py.repeat_char "0" k ++ s) 0 prev
  = Py.parse_digits s 0 (match k with O => prev | S _ => true end).
Proof.
  revert prev. induction k as [| k IH]; intros prev; [reflexivity |].
  cbn [Py.repeat_char append Py.parse_digits].
  change (Py.is_digit "0") with true. cbv iota.
  change (10 * 0 + Py.digit_val "0") with 0.
  rewrite IH. destruct k; reflexivity.
Qed.

Lemma all_chars_repeat_append (p : ascii -> bool) (c : ascii) (k : nat) (s : string) :
  p c = true -> all_chars p s = true ->
  all_chars p (Py.repeat_char c k ++ s) = true.
Proof.
  intros Hc Hs. induction k as [| k IH]; simpl; [exact Hs |].
  rewrite Hc, IH. reflexivity.
Qed.

(** The padded fraction still reads as the number it was made from. *)
Lemma literal_zeros_str_nonneg (k : nat) (n : Z) :
  0 <= n -> Py.literal (Py.repeat_char "0" k ++ Py.str_nonneg n) = Some n.
Proof.
  intros Hn.
  destruct (str_nonneg_head n) as (c & r & E & Hc & Hr).
  assert (Hall : all_chars Py.is_digit (Py.repeat_char "0" k ++ Py.str_nonneg n) = true).
  { apply all_chars_repeat_append; [reflexivity | apply str_nonneg_all_digits]. }
  assert (Hparse : Py.parse_digits (Py.repeat_char "0" k ++ Py.str_nonneg n) 0 false
                   = Some n).
  { rewrite parse_zeros. apply parse_str_nonneg, Hn. }
  destruct (Py.repeat_char "0" k ++ Py.str_nonneg n) as [| c' r'] eqn:E'.
  - destruct k; simpl in E'; [congruence | discriminate].
  - simpl in Hall. apply andb_true_iff in Hall. destruct Hall as [Hc' Hr'].
    rewrite literal_unsigned by assumption. exact Hparse.
Qed.

Lemma decimal_of_nonneg (n : Z) : 0 <= n -> Py.decimal n = Py.str_nonneg n.
Proof.
  intros Hn. unfold Py.decimal. destruct (Z.ltb_spec n 0); [lia | reflexivity].
Qed.

Lemma decimal_of_neg (n : Z) : n < 0 -> Py.decimal n = String "-" (Py.str_nonneg (- n)).
Proof.
  intros Hn. unfold Py.decimal. destruct (Z.ltb_spec n 0); [reflexivity | lia].
Qed.

(** The fraction part of [format_balance]: zeros, then the remainder,
    [d] characters in all. *)
Lemma zfill_fraction (r d : Z) :
  0 < d -> 0 <= r < 10 ^ d ->
  exists k : nat,
    Py.zfill (Py.decimal r) d = Py.repeat_char "0" k ++ Py.decimal r /\
    Z.of_nat (String.length (Py.repeat_char "0" k ++ Py.decimal r)) = d.
Proof.
  intros Hd Hr.
  pose proof (length_str_nonneg r d Hd Hr) as Hlen.
  rewrite decimal_of_nonneg by lia.
  destruct (str_nonneg_head r) as (c & t & E & Hc & Ht).
  rewrite E in *.
  exists (Z.to_nat (d - Z.of_nat (String.length (String c t)))).
  split; [apply zfill_digit_head, Hc |].
  rewrite length_repeat_append. lia.
Qed.

Lemma pow10_pos (d : Z) : 0 <= d -> 0 < 10 ^ d.
Proof. intros Hd. apply Z.pow_pos_nonneg; lia. Qed.



Lemma all_chars_app (p : ascii -> bool) (s t : string) :
  all_chars p (s ++ t) = all_chars p s && all_chars p t.
Proof.
  induction s as [| c r IH]; simpl; [reflexivity |].
  rewrite IH, andb_assoc. reflexivity.
Qed.











Lemma length_digits_fuel_ge (fuel : nat) :
  forall n acc,
    (String.length acc <= String.length (Py.digits_fuel fuel n acc))%nat.
Proof.
  induction fuel as [| fuel IH]; intros n acc; simpl; [lia |].
  destruct (n <? 10); simpl; [lia |].
  specialize (IH (n / 10) (String (Py.digit_char (n mod 10)) acc)).
  simpl in IH. lia.
Qed.

(** A number from [10 ^ d] on is written with more than [d] digits,
    when the fuel covers them. *)
Lemma length_digits_fuel_lower (fuel : nat) :
  forall n d acc,
    10 ^ Z.of_nat d <= n < 2 ^ Z.of_nat (S fuel) ->
    (S d + String.length acc
     <= String.length (Py.digits_fuel (S fuel) n acc))%nat.
Proof.
  induction fuel as [| fuel IH]; intros n d acc Hn.
  - assert (E : 2 ^ Z.of_nat 1 = 2) by reflexivity. rewrite E in Hn.
    destruct d as [| d].
    + simpl. destruct (n <? 10); simpl; lia.
    + exfalso. rewrite Nat2Z.inj_succ, Z.pow_succ_r in Hn by lia.
      pose proof (pow10_pos (Z.of_nat d) ltac:(lia)). lia.
  - change (Py.digits_fuel (S (S fuel)) n acc)
      with (if n <? 10 then String (Py.digit_char (n mod 10)) acc
            else Py.digits_fuel (S fuel) (n / 10)
                   (String (Py.digit_char (n mod 10)) acc)).
    destruct (Z.ltb_spec n 10) as [Hlt | Hge].
    + destruct d as [| d]; [simpl; lia |].
      exfalso. rewrite Nat2Z.inj_succ, Z.pow_succ_r in Hn by lia.
      pose proof (pow10_pos (Z.of_nat d) ltac:(lia)). lia.
    + assert (Hhi : n / 10 < 2 ^ Z.of_nat (S fuel)).
      { apply Z.div_lt_upper_bound; [lia |].
        rewrite (Nat2Z.inj_succ (S fuel)) in Hn.
        rewrite Z.pow_succ_r in Hn by lia. lia. }
      destruct d as [| d].
      * pose proof (length_digits_fuel_ge (S fuel) (n / 10)
                      (String (Py.digit_char (n mod 10)) acc)) as H.
        simpl String.length in H at 1. lia.
      * assert (Hlo : 10 ^ Z.of_nat d <= n / 10).
        { apply Z.div_le_lower_bound; [lia |].
          rewrite Nat2Z.inj_succ, Z.pow_succ_r in Hn by lia. lia. }
        specialize (IH (n / 10) d (String (Py.digit_char (n mod 10)) acc)
                       (conj Hlo Hhi)).
        simpl String.length in IH at 1. lia.
Qed.

Lemma before_first_dot (s1 : string) :
  forall s2 x y,
    all_chars (fun c => negb (Ascii.eqb c ".")) s1 = true ->
    all_chars (fun c => negb (Ascii.eqb c ".")) s2 = true ->
    s1 ++ String "." x = s2 ++ String "." y ->
    s1 = s2 /\ x = y.
Proof.
  induction s1 as [| c1 r1 IH]; intros [| c2 r2] x y H1 H2 E; simpl in *.
  - injection E as E. split; [reflexivity | exact E].
  - apply andb_true_iff in H2. destruct H2 as [Hc _].
    injection E as Ec _. subst c2. discriminate Hc.
  - apply andb_true_iff in H1. destruct H1 as [Hc _].
    injection E as Ec _. subst c1. discriminate Hc.
  - apply andb_true_iff in H1. apply andb_true_iff in H2.
    injection E as Ec Er. subst c2.
    destruct (IH r2 x y) as [Hr Hxy]; try tauto.
    split; [f_equal; exact Hr | exact Hxy].
Qed.

Lemma digits_no_dot (s : string) :
  all_chars Py.is_digit s = true ->
  all_chars (fun c => negb (Ascii.eqb c ".")) s = true.
Proof.
  apply all_chars_weaken. intros c Hc.
  destruct (is_digit_plain c Hc) as (_ & _ & _ & Hdot).
  apply Ascii.eqb_neq in Hdot. rewrite Hdot. reflexivity.
Qed.

Lemma decimal_no_dot (n : Z) :
  all_chars (fun c => negb (Ascii.eqb c ".")) (Py.decimal n) = true.
Proof.
  unfold Py.decimal. destruct (n <? 0); [simpl |];
    apply digits_no_dot, str_nonneg_all_digits.
Qed.

(** The fraction part for any number of decimals from [0] on. *)
Lemma fraction_facts (r d : Z) :
  0 <= d -> 0 <= r < 10 ^ d ->
  all_chars Py.is_digit (Py.zfill (Py.decimal r) d) = true /\
  Z.of_nat (String.length (Py.zfill (Py.decimal r) d)) = Z.max d 1 /\
  Py.literal (Py.zfill (Py.decimal r) d) = Some r.
Proof.
  intros Hd Hr. destruct (Z.eq_dec d 0) as [-> | Hnz].
  - change (10 ^ 0) with 1 in Hr. assert (r = 0) by lia. subst r.
    repeat split; reflexivity.
  - destruct (zfill_fraction r d ltac:(lia) Hr) as (k & Hfill & Hlen).
    rewrite Hfill. rewrite decimal_of_nonneg in * by lia. repeat split.
    + apply all_chars_repeat_append; [reflexivity | apply str_nonneg_all_digits].
    + lia.
    + apply literal_zeros_str_nonneg. lia.
Qed.

(** *** The limit on the digits *)

Lemma max_str_digits_pos : 0 < Py.max_str_digits.
Proof. reflexivity. Qed.

Lemma count_digits_all_digits (s : string) :
  all_chars Py.is_digit s = true ->
  Py.count_digits s = Z.of_nat (String.length s).
Proof.
  induction s as [| c r IH]; [reflexivity |].
  cbn [all_chars Py.count_digits String.length]. intros H.
  apply andb_true_iff in H. destruct H as [Hc Hr].
  rewrite Hc, (IH Hr). lia.
Qed.





Lemma count_digits_decimal (n : Z) :
  Py.count_digits (Py.decimal n) = Py.digit_count n.
Proof.
  unfold Py.digit_count.
  destruct (Z.ltb_spec n 0) as [Hneg | Hpos].
  - rewrite decimal_of_neg by exact Hneg. cbn [Py.count_digits].
    change (Py.is_digit "-") with false.
    rewrite count_digits_all_digits by apply str_nonneg_all_digits.
    rewrite Z.abs_neq by lia. reflexivity.
  - rewrite decimal_of_nonneg by exact Hpos.
    rewrite count_digits_all_digits by apply str_nonneg_all_digits.
    rewrite Z.abs_eq by lia. reflexivity.
Qed.

(** A number has at most [k] digits exactly when it is below [10 ^ k]
    in absolute value. *)
Lemma digit_count_bound (n k : Z) :
  0 < k -> (Py.digit_count n <= k <-> Z.abs n < 10 ^ k).
Proof.
  intros Hk. unfold Py.digit_count.
  pose proof (Z.abs_nonneg n) as Hm. set (m := Z.abs n) in *.
  split.
  - intros Hlen.
    destruct (Z.lt_ge_cases m (10 ^ k)) as [Hlt | Hge]; [exact Hlt | exfalso].
    pose proof (str_nonneg_fuel m Hm) as [_ Hfuel].
    pose proof (length_digits_fuel_lower (Z.to_nat (Z.log2 m)) m (Z.to_nat k)
                  EmptyString) as Hl.
    rewrite Z2Nat.id in Hl by lia. specialize (Hl (conj Hge Hfuel)).
    fold (Py.str_nonneg m) in Hl.
    change (String.length EmptyString) with O in Hl. lia.
  - intros Hlt. apply length_str_nonneg; lia.
Qed.

Lemma digit_count_pos (n : Z) : 1 <= Py.digit_count n.
Proof.
  unfold Py.digit_count.
  destruct (str_nonneg_head (Z.abs n)) as (c & r & E & _). rewrite E.
  cbn [String.length]. lia.
Qed.


Lemma digit_count_le (m n : Z) :
  Z.abs m <= Z.abs n -> Py.digit_count m <= Py.digit_count n.
Proof.
  intros H. pose proof (digit_count_pos n) as Hpos.
  apply digit_count_bound; [lia |].
  assert (Hn : Z.abs n < 10 ^ Py.digit_count n)
    by (apply digit_count_bound; lia).
  lia.
Qed.


Lemma str_fits (n : Z) :
  Py.digit_count n <= Py.max_str_digits -> Py.str n = Some (Py.decimal n).
Proof.
  intros H. unfold Py.str. apply Z.leb_le in H. rewrite H. reflexivity.
Qed.

Lemma str_over (n : Z) :
  Py.max_str_digits < Py.digit_count n -> Py.str n = None.
Proof.
  intros H. unfold Py.str.
  destruct (Z.leb_spec (Py.digit_count n) Py.max_str_digits); [lia | reflexivity].
Qed.

Lemma str_inv (n : Z) (s : string) :
  Py.str n = Some s ->
  s = Py.decimal n /\ Py.digit_count n <= Py.max_str_digits.
Proof.
  unfold Py.str.
  destruct (Z.leb_spec (Py.digit_count n) Py.max_str_digits) as [H | H];
    [| discriminate].
  intros E. injection E as <-. split; [reflexivity | exact H].
Qed.



Lemma int_of_str_over (s : string) :
  Py.max_str_digits < Py.count_digits s -> Py.int_of_str s = None.
Proof.
  intros H. unfold Py.int_of_str. destruct (Py.literal s); [| reflexivity].
  destruct (Z.leb_spec (Py.count_digits s) Py.max_str_digits); [lia | reflexivity].
Qed.


(** *** [format_balance], step by step *)

Lemma format_balance_run (b d : Z) :
  0 <= d ->
  format_balance b d
  = Some (match Py.str (b / 10 ^ d), Py.str (b mod 10 ^ d) with
          | Some w, Some f => Return (w ++ "." ++ Py.zfill f d)
          | _, _ => Raise ValueError
          end).
Proof.
  intros Hd. unfold format_balance, Py.pow.
  destruct (Z.ltb_spec d 0); [lia | reflexivity].
Qed.


Lemma format_balance_over (b d : Z) :
  0 <= d ->
  Py.max_str_digits < Py.digit_count (b / 10 ^ d) \/
  Py.max_str_digits < Py.digit_count (b mod 10 ^ d) ->
  format_balance b d = Some (Raise ValueError).
Proof.
  intros Hd H. rewrite format_balance_run by exact Hd.
  destruct H as [H | H].
  - rewrite (str_over _ H). reflexivity.
  - rewrite (str_over _ H). destruct (Py.str (b / 10 ^ d)); reflexivity.
Qed.

Lemma format_balance_inv (b d : Z) (text : string) :
  0 <= d ->
  format_balance b d = Some (Return text) ->
  Py.digit_count (b / 10 ^ d) <= Py.max_str_digits /\
  Py.digit_count (b mod 10 ^ d) <= Py.max_str_digits /\
  text = Py.decimal (b / 10 ^ d) ++ "." ++ Py.zfill (Py.decimal (b mod 10 ^ d)) d.
Proof.
  intros Hd H. rewrite format_balance_run in H by exact Hd.
  destruct (Py.str (b / 10 ^ d)) as [w |] eqn:Ew; [| discriminate H].
  destruct (Py.str (b mod 10 ^ d)) as [f |] eqn:Ef; [| discriminate H].
  destruct (str_inv _ _ Ew) as [-> Hq]. destruct (str_inv _ _ Ef) as [-> Hr].
  injection H as <-. repeat split; assumption.
Qed.

(** The power of ten one above the limit, and its quotient by ten. *)
Lemma over_limit_digits :
  Py.max_str_digits < Py.digit_count (10 ^ Py.max_str_digits).
Proof.
  pose proof max_str_digits_pos as Hpos.
  destruct (Z.lt_ge_cases Py.max_str_digits
              (Py.digit_count (10 ^ Py.max_str_digits))) as [H | H];
    [exact H | exfalso].
  apply digit_count_bound in H; [| exact Hpos].
  pose proof (pow10_pos Py.max_str_digits ltac:(lia)).
  rewrite Z.abs_eq in H by lia. lia.
Qed.

(** ** [format_balance] *)



(** C2, as stated, fails: a balance whose quotient has 4301 digits is
    not formatted, [format_balance] raises [ValueError]. *)
Lemma format_balance_nonneg_counterexample :
  0 <= 10 ^ (Py.max_str_digits + 1) /\
  format_balance (10 ^ (Py.max_str_digits + 1)) 1 = Some (Raise ValueError).
Proof.
  pose proof max_str_digits_pos as Hpos.
  pose proof (pow10_pos Py.max_str_digits ltac:(lia)) as HL.
  assert (E : 10 ^ (Py.max_str_digits + 1) = 10 ^ Py.max_str_digits * 10).
  { rewrite Z.pow_add_r by lia. reflexivity. }
  split; [rewrite E; lia |].
  apply format_balance_over; [lia |]. left.
  rewrite E. change (10 ^ 1) with 10. rewrite Z.div_mul by lia.
  apply over_limit_digits.
Qed.



(** C9, as stated, fails: for the balance [-1] and 4301 decimals the
    remainder has 4301 digits and [format_balance] raises
    [ValueError]. *)
Lemma format_balance_negative_counterexample :
  format_balance (-1) (Py.max_str_digits + 1) = Some (Raise ValueError).
Proof.
  pose proof max_str_digits_pos as Hpos.
  pose proof (pow10_pos Py.max_str_digits ltac:(lia)) as HL.
  assert (E : 10 ^ (Py.max_str_digits + 1) = 10 ^ Py.max_str_digits * 10).
  { rewrite Z.pow_add_r by lia. reflexivity. }
  apply format_balance_over; [lia |]. right.
  assert (Er : -1 mod 10 ^ (Py.max_str_digits + 1)
               = 10 ^ (Py.max_str_digits + 1) - 1).
  { symmetry. apply (Z.mod_unique _ _ (-1)); lia. }
  rewrite Er.
  pose proof over_limit_digits as Hover.
  pose proof (digit_count_le (10 ^ Py.max_str_digits)
                (10 ^ (Py.max_str_digits + 1) - 1)) as Hle.
  rewrite !Z.abs_eq in Hle by lia. specialize (Hle ltac:(lia)). lia.
Qed.




(** ** More on the built-ins and on [format_balance] *)










(** X4: for a fixed number of decimals from [0] on, two balances that
    [format_balance] formats alike are the same balance. *)
Theorem format_balance_injective (b1 b2 d : Z) (text : string) :
  0 <= d ->
  format_balance b1 d = Some (Return text) ->
  format_balance b2 d = Some (Return text) ->
  b1 = b2.
Proof.
  intros Hd E1 E2.
  destruct (format_balance_inv b1 d text Hd E1) as (_ & _ & T1).
  destruct (format_balance_inv b2 d text Hd E2) as (_ & _ & T2).
  rewrite T1 in T2.
  destruct (before_first_dot _ _ _ _ (decimal_no_dot _) (decimal_no_dot _) T2)
    as [Ew Ef].
  pose proof (pow10_pos d Hd) as HD.
  destruct (fraction_facts (b1 mod 10 ^ d) d Hd (Z.mod_pos_bound b1 _ HD))
    as (_ & _ & Hint1).
  destruct (fraction_facts (b2 mod 10 ^ d) d Hd (Z.mod_pos_bound b2 _ HD))
    as (_ & _ & Hint2).
  rewrite Ef, Hint2 in Hint1. injection Hint1 as Hr.
  pose proof (literal_decimal (b1 / 10 ^ d)) as L1.
  rewrite Ew, literal_decimal in L1. injection L1 as Hq.
  rewrite (Z.div_mod b1 (10 ^ d)), (Z.div_mod b2 (10 ^ d)) by lia.
  rewrite Hq, Hr. reflexivity.
Qed.

Lemma format_balance_injective_witness : 1000000000 = 1000000000.
Proof.
  apply (format_balance_injective 1000000000 1000000000 6 "1000.000000");
    [lia | reflexivity | reflexivity].
Defined.

(** ** The client's methods *)

Section ClientFacts.

Context (net : Network).

Lemma local_ret {A : Type} (a : A) : local (ret a).
Proof. exists (Return a). split; [reflexivity | discriminate]. Qed.

Lemma local_raise {A : Type} (e : Exn) :
  (forall f, e <> RequestException f) -> local (@raise A e).
Proof.
  intros He. exists (Raise e). split; [reflexivity |].
  intros f E. injection E as E. exact (He f E).
Qed.

Lemma local_bind {A B : Type} (m : M A) (k : A -> M B) :
  local m -> (forall a, local (k a)) -> local (bind m k).
Proof.
  intros (res & Hm & Hres) Hk. destruct res as [a | e].
  - destruct (Hk a) as (res' & Hk' & Hres').
    exists res'. split; [| exact Hres'].
    intros s. unfold bind. rewrite Hm. apply Hk'.
  - exists (Raise e). split.
    + intros s. unfold bind. rewrite Hm. reflexivity.
    + intros f E. injection E as E. exact (Hres f (f_equal Raise E)).
Qed.

Lemma local_getitem (x : json) (k : string) : local (getitem x k).
Proof.
  exists (PyVal.getitem x k). split; [reflexivity |].
  intros f. destruct x; simpl; try discriminate.
  destruct (PyVal.lookup k kvs); discriminate.
Qed.

Lemma local_int (x : json) : local (int x).
Proof.
  exists (PyVal.int x). split; [reflexivity |].
  intros f. destruct x as [| b | n | fl | str | l | kvs]; simpl; try discriminate.
  - destruct fl; simpl; discriminate.
  - destruct (Py.int_of_str str); discriminate.
Qed.

Lemma local_str (n : Z) : local (AgentWalletClient.str n).
Proof.
  unfold AgentWalletClient.str. destruct (Py.str n).
  - apply local_ret.
  - apply local_raise. discriminate.
Qed.

Lemma local_iter (x : json) : local (iter x).
Proof.
  exists (PyVal.iter x). split; [reflexivity |].
  intros f. destruct x; simpl; discriminate.
Qed.

Lemma local_raise_for_status (r : Response) : local (raise_for_status r).
Proof.
  unfold raise_for_status.
  destruct ((400 <=? status_code r) && (status_code r <? 600)).
  - apply local_raise. discriminate.
  - apply local_ret.
Qed.

Lemma local_response_json (r : Response) : local (response_json r).
Proof.
  exists (decoded r). split; [reflexivity |].
  intros f. unfold decoded. destruct (body r) as [d |]; [| discriminate].
  destruct (PyVal.within_limit d); discriminate.
Qed.

Lemma local_comprehension {A B : Type} (f : A -> M B) (xs : list A) :
  (forall x, local (f x)) -> local (comprehension f xs).
Proof.
  intros Hf. induction xs as [| x rest IH]; simpl.
  - apply local_ret.
  - apply local_bind; [apply Hf |]. intros y.
    apply local_bind; [exact IH |]. intros ys. apply local_ret.
Qed.

Create HintDb local_db.

#[local] Hint Resolve
  (@local_ret) (@local_bind) local_getitem local_int local_iter
  local_raise_for_status local_response_json (@local_comprehension)
  : local_db.

Ltac solve_local := repeat (intro || apply local_bind); auto with local_db.

Lemma local_wallet_of_json (data : json) : local (wallet_of_json data).
Proof. unfold wallet_of_json. solve_local. Qed.

Lemma local_balance_of_json (b : json) : local (balance_of_json b).
Proof. unfold balance_of_json. solve_local. Qed.

Lemma local_channel_of_json (c : json) : local (channel_of_json c).
Proof. unfold channel_of_json. solve_local. Qed.

#[local] Hint Resolve
  local_wallet_of_json local_balance_of_json local_channel_of_json : local_db.

Lemma local_run {A : Type} (m : M A) (s s0 : State) :
  local m -> m s = (fst (m s0), s).
Proof. intros (res & Hm & _). rewrite (Hm s), (Hm s0). reflexivity. Qed.

Lemma local_no_transport {A : Type} (m : M A) (s : State) (f : RequestFailure) :
  local m -> fst (m s) <> Raise (RequestException f).
Proof. intros (res & Hm & Hres). rewrite Hm. apply Hres. Qed.

(** What every method does: read [self.base_url], issue one request
    with the common timeout, and decode the response locally. *)
Lemma method_run {A : Type} (m : Method) (url_of : string -> string)
    (j : option json) (post : Response -> M A) (s : State) :
  (forall r, local (post r)) ->
  (base <- self_base_url ;;
   response <- session_request net m (url_of base) j API_TIMEOUT ;;
   post response) s
  = (match net (world s) (session (self s))
             (mkRequest m (url_of (base_url (self s))) j API_TIMEOUT) with
     | inl f => Raise (RequestException f)
     | inr r => fst (post r s)
     end,
     sent s (mkRequest m (url_of (base_url (self s))) j API_TIMEOUT)).
Proof.
  intros Hpost. unfold bind, self_base_url, session_request. simpl.
  destruct (net (world s) (session (self s)) _) as [f | r]; [reflexivity |].
  apply local_run, Hpost.
Qed.

Lemma wrapped_run {A : Type} (V : A -> Value) (m : Method)
    (url_of : string -> string) (j : option json) (post : Response -> M A)
    (s : State) :
  (forall r, local (post r)) ->
  (x <- (base <- self_base_url ;;
         response <- session_request net m (url_of base) j API_TIMEOUT ;;
         post response) ;;
   ret (V x)) s
  = (match net (world s) (session (self s))
             (mkRequest m (url_of (base_url (self s))) j API_TIMEOUT) with
     | inl f => Raise (RequestException f)
     | inr r => decode V (post r) s
     end,
     sent s (mkRequest m (url_of (base_url (self s))) j API_TIMEOUT)).
Proof.
  intros Hpost. unfold bind at 1. rewrite (method_run m url_of j post s Hpost).
  unfold decode.
  destruct (net (world s) (session (self s)) _) as [f | r]; [reflexivity |].
  destruct (fst (post r s)); reflexivity.
Qed.

Lemma decode_no_transport {A : Type} (V : A -> Value) (m : M A) (s : State)
    (f : RequestFailure) :
  local m -> decode V m s <> Raise (RequestException f).
Proof.
  intros Hm. unfold decode. pose proof (local_no_transport m s f Hm) as H.
  destruct (fst (m s)) as [a | e]; [discriminate |].
  intros E. injection E as E. apply H. rewrite E. reflexivity.
Qed.

Lemma error_status_iff (r : Response) :
  error_status r = true <-> 400 <= status_code r < 600.
Proof. unfold error_status. rewrite andb_true_iff, Z.leb_le, Z.ltb_lt. tauto. Qed.

(** After an error status, whatever follows [raise_for_status] is not
    run. *)
Lemma raise_for_status_error {A : Type} (r : Response) (k : M A) (s : State) :
  error_status r = true ->
  (raise_for_status r ;;; k) s = (Raise (HTTPError r), s).
Proof.
  intros H. unfold bind, raise_for_status. fold (error_status r).
  rewrite H. reflexivity.
Qed.

Lemma raise_for_status_ok {A : Type} (r : Response) (k : M A) (s : State) :
  error_status r = false ->
  (raise_for_status r ;;; k) s = k s.
Proof.
  intros H. unfold bind, raise_for_status. fold (error_status r).
  rewrite H. reflexivity.
Qed.

Lemma raise_for_status_run (r : Response) (s : State) :
  raise_for_status r s
  = (if error_status r then Raise (HTTPError r) else Return tt, s).
Proof.
  unfold raise_for_status. fold (error_status r).
  destruct (error_status r); reflexivity.
Qed.

Ltac decode_plain :=
  repeat split;
  [ intros r f; apply decode_no_transport; solve_local
  | intros r Herr; left; unfold decode;
    first [ rewrite raise_for_status_error by exact Herr
          | rewrite raise_for_status_run, Herr ];
    reflexivity
  | intros r; unfold decode;
    match goal with |- context [fst ?x] => destruct (fst x) end;
    discriminate ].

Lemma get_wallet_decode (r : Response) (s : State) :
  decode VOptWallet
    (if status_code r =? 404 then ret None
     else raise_for_status r ;;;
          data <- response_json r ;;
          w <- wallet_of_json data ;;
          ret (Some w)) s
  = if status_code r =? 404 then Return (VOptWallet None)
    else if error_status r then Raise (HTTPError r)
    else match decoded r with
         | Raise e => Raise e
         | Return data =>
             match fst (wallet_of_json data s) with
             | Return w => Return (VOptWallet (Some w))
             | Raise e => Raise e
             end
         end.
Proof.
  unfold decode. destruct (status_code r =? 404); [reflexivity |].
  destruct (error_status r) eqn:Herr.
  - rewrite raise_for_status_error by exact Herr. reflexivity.
  - rewrite raise_for_status_ok by exact Herr.
    unfold bind, response_json, lift.
    destruct (decoded r) as [data | e]; [| reflexivity].
    destruct (wallet_of_json data s) as [[w | e] s1]; reflexivity.
Qed.

(** The two methods with an amount, once [str] has written it: they
    are as the other six, one request and its decoding. *)
Lemma open_channel_fits (agent_id peer_id chain token : string) (amount : Z) :
  Py.digit_count amount <= Py.max_str_digits ->
  open_channel net agent_id peer_id chain token amount
  = (base <- self_base_url ;;
     response <- session_request net POST (base ++ "/channels")
                   (Some (JObj [("agentId", JStr agent_id);
                                ("peerId", JStr peer_id);
                                ("chain", JStr chain);
                                ("token", JStr token);
                                ("amount", JStr (Py.decimal amount))]))
                   API_TIMEOUT ;;
     raise_for_status response ;;;
     data <- response_json response ;;
     getitem data "channelId").
Proof.
  intros H. unfold open_channel, AgentWalletClient.str.
  rewrite (str_fits amount H). reflexivity.
Qed.

Lemma send_payment_fits (agent_id channel_id : string) (amount : Z) :
  Py.digit_count amount <= Py.max_str_digits ->
  send_payment net agent_id channel_id amount
  = (base <- self_base_url ;;
     response <- session_request net POST
                   (base ++ "/channels/" ++ channel_id ++ "/payments")
                   (Some (JObj [("agentId", JStr agent_id);
                                ("amount", JStr (Py.decimal amount))]))
                   API_TIMEOUT ;;
     raise_for_status response).
Proof.
  intros H. unfold send_payment, AgentWalletClient.str.
  rewrite (str_fits amount H). reflexivity.
Qed.

Lemma open_channel_over (agent_id peer_id chain token : string) (amount : Z)
    (s : State) :
  Py.max_str_digits < Py.digit_count amount ->
  open_channel net agent_id peer_id chain token amount s = (Raise ValueError, s).
Proof.
  intros H. unfold open_channel, AgentWalletClient.str.
  rewrite (str_over amount H). reflexivity.
Qed.

Lemma send_payment_over (agent_id channel_id : string) (amount : Z)
    (s : State) :
  Py.max_str_digits < Py.digit_count amount ->
  send_payment net agent_id channel_id amount s = (Raise ValueError, s).
Proof.
  intros H. unfold send_payment, AgentWalletClient.str.
  rewrite (str_over amount H). reflexivity.
Qed.

(** A call whose amount [str] refuses raises [ValueError] and leaves
    the world as it is. *)
Lemma call_refused (c : Call) (s : State) :
  converts c = false -> call net c s = (Raise ValueError, s).
Proof.
  destruct c; try discriminate; cbn [converts]; intros H;
    apply Z.leb_gt in H; unfold call, bind.
  - rewrite open_channel_over by exact H. reflexivity.
  - rewrite send_payment_over by exact H. reflexivity.
Qed.

(** The unfolding of a call whose amount converts. *)
Ltac unfold_call Hc :=
  unfold call;
  try (cbn [converts] in Hc; apply Z.leb_le in Hc;
       rewrite ?(open_channel_fits _ _ _ _ _ Hc),
         ?(send_payment_fits _ _ _ Hc));
  unfold create_wallet, get_wallet, get_all_balances, get_balance,
    close_channel, get_agent_channels.


(** Every call whose amount converts, as the answer to [request_of]
    decoded. *)
Lemma call_run (c : Call) (s : State) :
  converts c = true ->
  exists k,
    call net c s
    = (outcome (reply net s (request_of c (base_url (self s)))) k,
       sent s (request_of c (base_url (self s)))) /\
    surfaced c k.
Proof.
  intros Hc. unfold outcome, reply.
  destruct c; unfold_call Hc.
  2: {
    rewrite wrapped_run
      by (intros r; destruct (status_code r =? 404); solve_local).
    eexists. split; [reflexivity |].
    repeat split.
    - intros r f. apply decode_no_transport.
      destruct (status_code r =? 404); solve_local.
    - intros r Herr. rewrite get_wallet_decode, Herr.
      destruct (Z.eqb_spec (status_code r) 404) as [E | E].
      + right. repeat split; [exact E | eexists; reflexivity].
      + left. reflexivity.
    - intros r. rewrite get_wallet_decode.
      destruct (Z.eqb_spec (status_code r) 404) as [E | E]; [intros _; exact E |].
      destruct (error_status r); [discriminate |].
      destruct (decoded r) as [data | e]; [| discriminate].
      destruct (fst (wallet_of_json data s)); discriminate.
  }
  all: rewrite wrapped_run by solve_local.
  all: eexists; split; [reflexivity |].
  all: decode_plain.
Qed.

Lemma requests_sent_snoc (w : World) (ses : Session) (req : Request) :
  requests_sent (w ++ [Sent ses req])%list = S (requests_sent w).
Proof.
  unfold requests_sent. rewrite filter_app, length_app. simpl. lia.
Qed.

(** What a call does at the level of the session: one call of the
    session when the amount converts, with [request_of], and every way
    the call of the session can end is surfaced. *)
Lemma call_surfaces (c : Call) (s : State) :
  converts c = true ->
  let req := request_of c (base_url (self s)) in
  snd (call net c s) = sent s req /\
  (forall f, reply net s req = inl f ->
     fst (call net c s) = Raise (RequestException f)) /\
  (forall r, reply net s req = inr r -> 400 <= status_code r < 600 ->
     fst (call net c s) = Raise (HTTPError r) \/
     (status_code r = 404 /\ fst (call net c s) = Return (VOptWallet None) /\
      exists a, c = GetWallet a)) /\
  (forall r, reply net s req = inr r ->
     fst (call net c s) = Return (VOptWallet None) -> status_code r = 404) /\
  (forall r e, reply net s req = inr r -> fst (call net c s) = Raise e ->
     is_timeout e = false).
Proof.
  intros Hc req.
  destruct (call_run c s Hc) as (k & Hrun & Hk1 & Hk2 & Hk3).
  fold req in Hrun. rewrite Hrun. cbn [fst snd].
  split; [reflexivity |]. split; [| split; [| split]].
  - intros f Hf. rewrite Hf. reflexivity.
  - intros r Hr Herr. rewrite Hr. apply Hk2, error_status_iff, Herr.
  - intros r Hr. rewrite Hr. apply Hk3.
  - intros r e Hr He. rewrite Hr in He. cbn [outcome] in He.
    destruct e as [f | | | | | |]; try reflexivity.
    exfalso. exact (Hk1 r f He).
Qed.

(** C3: when the server answers [get_wallet] with status 404 the
    method returns [None]; when it answers with any other error status
    the method raises the [HTTPError] of that response. *)
Theorem get_wallet_not_found (agent_id : string) (s : State) (r : Response) :
  reply net s (mkRequest GET (base_url (self s) ++ "/wallets/" ++ agent_id)
             None API_TIMEOUT) = inr r ->
  (status_code r = 404 -> fst (get_wallet net agent_id s) = Return None) /\
  (400 <= status_code r < 600 -> status_code r <> 404 ->
   fst (get_wallet net agent_id s) = Raise (HTTPError r)).
Proof.
  intros Hreply. unfold reply in Hreply. unfold get_wallet.
  rewrite (method_run GET (fun base => base ++ "/wallets/" ++ agent_id))
    by (intros r'; destruct (status_code r' =? 404); solve_local).
  rewrite Hreply. cbn [fst]. split.
  - intros E. rewrite E. reflexivity.
  - intros Herr Hne. apply error_status_iff in Herr.
    destruct (Z.eqb_spec (status_code r) 404) as [E | _]; [contradiction |].
    rewrite raise_for_status_error by exact Herr. reflexivity.
Qed.



Lemma getitem_then {A : Type} (x : json) (k : string) (v : json)
    (f : json -> M A) (s : State) :
  PyVal.getitem x k = Return v -> (y <- getitem x k ;; f y) s = f v s.
Proof. intros H. unfold bind, getitem, lift. rewrite H. reflexivity. Qed.





(** What a method returns once the server has answered with a success
    status and a document that [response.json()] decodes. *)
Lemma decoded_answer {A : Type} (r : Response) (data : json)
    (f : json -> M A) (s : State) :
  error_status r = false -> decoded r = Return data ->
  (raise_for_status r ;;; d <- response_json r ;; f d) s = f data s.
Proof.
  intros Hok Hbody. rewrite raise_for_status_ok by exact Hok.
  unfold bind, response_json, lift. rewrite Hbody. reflexivity.
Qed.


(** C4, amended: of the four read operations only [get_wallet] turns a
    404 into a value, [None]; [get_balance], [get_all_balances] and
    [get_agent_channels] raise the [HTTPError] of the response. *)
Theorem not_found_by_operation (agent_id chain token : string) (s : State)
    (r : Response) :
  status_code r = 404 ->
  (reply net s (mkRequest GET (base_url (self s) ++ "/wallets/" ++ agent_id)
              None API_TIMEOUT) = inr r ->
   fst (get_wallet net agent_id s) = Return None) /\
  (reply net s (mkRequest GET
              (base_url (self s) ++ "/wallets/" ++ agent_id ++ "/balances/"
                 ++ chain ++ "/" ++ token)
              None API_TIMEOUT) = inr r ->
   fst (get_balance net agent_id chain token s) = Raise (HTTPError r)) /\
  (reply net s (mkRequest GET
              (base_url (self s) ++ "/wallets/" ++ agent_id ++ "/balances")
              None API_TIMEOUT) = inr r ->
   fst (get_all_balances net agent_id s) = Raise (HTTPError r)) /\
  (reply net s (mkRequest GET
              (base_url (self s) ++ "/wallets/" ++ agent_id ++ "/channels")
              None API_TIMEOUT) = inr r ->
   fst (get_agent_channels net agent_id s) = Raise (HTTPError r)).
Proof.
  intros H404.
  assert (Herr : error_status r = true)
    by (unfold error_status; rewrite H404; reflexivity).
  unfold reply. split; [| split; [| split]]; intros Hr.
  - unfold get_wallet.
    rewrite (method_run GET (fun base => base ++ "/wallets/" ++ agent_id))
      by (intros r'; destruct (status_code r' =? 404); solve_local).
    rewrite Hr, H404. reflexivity.
  - unfold get_balance.
    rewrite (method_run GET
               (fun base => base ++ "/wallets/" ++ agent_id ++ "/balances/"
                              ++ chain ++ "/" ++ token)) by solve_local.
    rewrite Hr, raise_for_status_error by exact Herr. reflexivity.
  - unfold get_all_balances.
    rewrite (method_run GET
               (fun base => base ++ "/wallets/" ++ agent_id ++ "/balances"))
      by solve_local.
    rewrite Hr, raise_for_status_error by exact Herr. reflexivity.
  - unfold get_agent_channels.
    rewrite (method_run GET
               (fun base => base ++ "/wallets/" ++ agent_id ++ "/channels"))
      by solve_local.
    rewrite Hr, raise_for_status_error by exact Herr. reflexivity.
Qed.

(** *** The session over the life of a client *)

Lemma calls_run (cs : list Call) :
  forall s, exists reqs : list Request,
    snd (calls net cs s)
    = {| self := self s;
         world := (world s ++ map (Sent (session (self s))) reqs)%list |} /\
    List.length reqs = List.length (filter converts cs) /\
    List.length (fst (calls net cs s)) = List.length cs.
Proof.
  induction cs as [| c rest IH]; intros s.
  - exists []. simpl. rewrite app_nil_r. destruct s; repeat split; reflexivity.
  - cbn [calls filter]. destruct (converts c) eqn:Hc.
    + destruct (call_run c s Hc) as (k & Hrun & _).
      set (req := request_of c (base_url (self s))) in *.
      destruct (IH (sent s req)) as (reqs & Hrest & Hlen & Hres).
      exists (req :: reqs). rewrite Hrun.
      destruct (calls net rest (sent s req)) as [rs s2]. cbn [fst snd] in *.
      rewrite Hrest. cbn [sent self world map List.length].
      rewrite <- app_assoc. repeat split; [congruence | congruence].
    + rewrite (call_refused c s Hc).
      destruct (IH s) as (reqs & Hrest & Hlen & Hres).
      exists reqs. destruct (calls net rest s) as [rs s2]. cbn [fst snd] in *.
      rewrite Hrest. cbn [List.length]. repeat split; [exact Hlen | congruence].
Qed.

Lemma is_closed_sent (k ses : Session) (reqs : list Request) :
  is_closed k (map (Sent ses) reqs) = false.
Proof. induction reqs as [| r rest IH]; [reflexivity | exact IH]. Qed.

Lemma opened_sent (ses : Session) (reqs : list Request) :
  filter is_opened (map (Sent ses) reqs) = [].
Proof. induction reqs as [| r rest IH]; [reflexivity | exact IH]. Qed.

(** C7, amended: a client constructs its session once, in [__init__],
    and every request of every call goes through that one session, one
    request for each call whose amount [str] converts; the client never
    closes the session: over the whole life of a client no session is
    closed, whatever the calls and however they end. *)
Theorem session_acquired_once_never_closed (url : option string)
    (cs : list Call) (w : World) :
  exists reqs : list Request,
    let s' := snd (lifetime net url cs w) in
    let ses := session (self s') in
    world s' = (w ++ Opened ses :: map (Sent ses) reqs)%list /\
    List.length reqs = List.length (filter converts cs) /\
    sessions_created (world s') = S (sessions_created w) /\
    (forall k, is_closed k (world s') = is_closed k w).
Proof.
  unfold lifetime, __init__, new_session.
  destruct (calls_run cs
              {| self := {| base_url := match url with
                                        | Some u => u
                                        | None => API_BASE_URL
                                        end;
                            session := sessions_created w |};
                 world := (w ++ [Opened (sessions_created w)])%list |})
    as (reqs & Hrun & Hlen & _).
  exists reqs. cbn zeta. rewrite Hrun. cbn [self world session].
  rewrite <- app_assoc. cbn [app].
  split; [reflexivity |]. split; [exact Hlen |]. split.
  - unfold sessions_created at 1. rewrite filter_app, length_app.
    cbn [filter is_opened]. rewrite opened_sent. simpl. unfold sessions_created. lia.
  - intros k. unfold is_closed. rewrite existsb_app. cbn [existsb].
    fold (is_closed k (map (Sent (sessions_created w)) reqs)).
    rewrite is_closed_sent. rewrite orb_false_r. reflexivity.
Qed.

(** *** Further properties of the methods *)

Ltac run_call Hc :=
  unfold_call Hc;
  rewrite wrapped_run
    by (let r' := fresh "r" in
        intros r'; try destruct (status_code r' =? 404); solve_local).

(** Every call whose amount converts, as the network's answer to
    [request_of] decoded. *)
Lemma call_issues (c : Call) (s : State) :
  converts c = true ->
  snd (call net c s) = sent s (request_of c (base_url (self s))) /\
  forall f, reply net s (request_of c (base_url (self s))) = inl f ->
            fst (call net c s) = Raise (RequestException f).
Proof.
  intros Hc. destruct (call_surfaces c s Hc) as (H1 & H2 & _).
  split; assumption.
Qed.

Lemma prefix_append (s t : string) : String.prefix s (s ++ t) = true.
Proof.
  induction s as [| c r IH]; simpl; [destruct t; reflexivity |].
  destruct (ascii_dec c c) as [_ | Hne]; [exact IH | contradiction].
Qed.

(** X5: whatever the call and its arguments, the one request it issues
    goes to a URL under [self.base_url] with the common timeout; the
    four reads use GET and send no body, the other four send a JSON
    object whose ["agentId"] is the method's [agent_id] argument.  A
    call issues its request unless it has an amount of more than 4300
    digits: then it raises [ValueError] and issues none. *)
Theorem request_shape (c : Call) (s : State) :
  (converts c = true ->
   exists req : Request,
     snd (call net c s) = sent s req /\
     String.prefix (base_url (self s)) (url req) = true /\
     timeout req = API_TIMEOUT /\
     (is_read c = true -> method req = GET /\ json_body req = None) /\
     (is_read c = false ->
      method req <> GET /\
      exists kvs, json_body req = Some (JObj kvs) /\
                  PyVal.lookup "agentId" kvs = Some (JStr (agent_of c)))) /\
  (converts c = false ->
   is_read c = false /\ call net c s = (Raise ValueError, s)).
Proof.
  split.
  - intros Hc. exists (request_of c (base_url (self s))).
    split; [apply call_issues, Hc |].
    split; [destruct c; apply prefix_append |].
    split; [destruct c; reflexivity |].
    split; intros Hread.
    + destruct c; try discriminate Hread; split; reflexivity.
    + destruct c; try discriminate Hread;
        (split; [discriminate | eexists; split; reflexivity]).
  - intros Hc. split; [destruct c; try discriminate Hc; reflexivity |].
    apply call_refused, Hc.
Qed.

Lemma not_error_not_404 (r : Response) :
  error_status r = false -> (status_code r =? 404) = false.
Proof.
  intros H. destruct (Z.eqb_spec (status_code r) 404) as [E | _]; [| reflexivity].
  unfold error_status in H. rewrite E in H. discriminate H.
Qed.

(** X6: [send_payment] and [close_channel] never look at the body of
    the response: with any status outside 400..599 they return [None],
    whatever the body is, a JSON document or not ([send_payment] for an
    amount that [str] converts: it sends nothing otherwise). *)
Theorem acknowledgement_ignores_body (c : Call) (s : State) (r : Response) :
  is_ack c = true ->
  converts c = true ->
  reply net s (request_of c (base_url (self s))) = inr r ->
  error_status r = false ->
  fst (call net c s) = Return VNone.
Proof.
  unfold reply. intros Hack Hc Hr Hok.
  destruct c; try discriminate Hack; run_call Hc; cbn [fst request_of] in *;
    rewrite Hr; unfold decode; rewrite raise_for_status_run, Hok; reflexivity.
Qed.

(** X7: the six methods that decode a document raise [JSONDecodeError]
    when a success response carries no JSON document, the [ValueError]
    of [response.json()] when the document holds an integer of more
    than 4300 digits, and [TypeError] when the document is decoded and
    is not an object ([open_channel] for an amount that [str]
    converts: it sends nothing otherwise). *)
Theorem undecodable_body (c : Call) (s : State) (r : Response) :
  is_ack c = false ->
  converts c = true ->
  reply net s (request_of c (base_url (self s))) = inr r ->
  error_status r = false ->
  (body r = None -> fst (call net c s) = Raise JSONDecodeError) /\
  (forall data, body r = Some data -> PyVal.within_limit data = false ->
                fst (call net c s) = Raise ValueError) /\
  (forall data, body r = Some data -> PyVal.within_limit data = true ->
                (forall kvs, data <> JObj kvs) ->
                fst (call net c s) = Raise TypeError).
Proof.
  unfold reply. intros Hack Hc Hr Hok.
  pose proof (not_error_not_404 r Hok) as H404.
  destruct c; try discriminate Hack; run_call Hc; cbn [fst request_of] in *;
    rewrite Hr; unfold decode; rewrite ?H404;
    rewrite raise_for_status_ok by exact Hok;
    unfold bind at 1, response_json, lift, decoded;
    (split; [| split];
     [ intros Hbody; rewrite Hbody; reflexivity
     | intros data Hbody Hlim; rewrite Hbody, Hlim; reflexivity
     | intros data Hbody Hlim Hobj; rewrite Hbody, Hlim;
       destruct data; try reflexivity; exfalso; eapply Hobj; reflexivity ]).
Qed.

Lemma wallet_of_json_missing (kvs : list (string * json)) (k : string)
    (s : State) :
  first_missing wallet_keys kvs = Some k ->
  wallet_of_json (JObj kvs) s = (Raise (KeyError k), s).
Proof.
  unfold first_missing, wallet_keys, wallet_of_json, bind, getitem, lift,
    PyVal.getitem.
  cbn [find].
  repeat match goal with
         | |- context [PyVal.lookup ?key kvs] =>
             destruct (PyVal.lookup key kvs);
             [| intros E; injection E as <-; reflexivity]
         end.
  discriminate.
Qed.

Lemma wallet_of_json_present (kvs : list (string * json)) (s : State) :
  first_missing wallet_keys kvs = None ->
  exists w : AgentWallet.t,
    wallet_of_json (JObj kvs) s = (Return w, s) /\
    PyVal.lookup "agentId" kvs = Some (AgentWallet.agent_id w) /\
    PyVal.lookup "evmAddress" kvs = Some (AgentWallet.evm_address w) /\
    PyVal.lookup "xrpAddress" kvs = Some (AgentWallet.xrp_address w) /\
    PyVal.lookup "derivationIndex" kvs = Some (AgentWallet.derivation_index w) /\
    PyVal.lookup "createdAt" kvs = Some (AgentWallet.created_at w) /\
    PyVal.lookup "status" kvs = Some (AgentWallet.status w).
Proof.
  unfold first_missing, wallet_keys, wallet_of_json, bind, getitem, lift,
    PyVal.getitem.
  cbn [find].
  destruct (PyVal.lookup "agentId" kvs) as [a |]; [| discriminate].
  destruct (PyVal.lookup "evmAddress" kvs) as [e |]; [| discriminate].
  destruct (PyVal.lookup "xrpAddress" kvs) as [x |]; [| discriminate].
  destruct (PyVal.lookup "derivationIndex" kvs) as [d |]; [| discriminate].
  destruct (PyVal.lookup "createdAt" kvs) as [c |]; [| discriminate].
  destruct (PyVal.lookup "status" kvs) as [st |]; [| discriminate].
  intros _. exists (AgentWallet.mk a e x d c st). repeat split; reflexivity.
Qed.

Lemma create_wallet_answered (agent_id : string) (s : State) (r : Response)
    (data : json) :
  answers net s (request_of (CreateWallet agent_id) (base_url (self s))) r data ->
  fst (create_wallet net agent_id s) = fst (wallet_of_json data s).
Proof.
  unfold answers, reply. intros (Hr & Hok & Hbody). unfold create_wallet.
  rewrite (method_run POST (fun base => base ++ "/wallets")) by solve_local.
  cbn [request_of] in Hr. rewrite Hr. cbn [fst].
  rewrite (decoded_answer r data) by assumption. reflexivity.
Qed.

Lemma get_wallet_answered (agent_id : string) (s : State) (r : Response)
    (data : json) :
  answers net s (request_of (GetWallet agent_id) (base_url (self s))) r data ->
  fst (get_wallet net agent_id s)
  = match fst (wallet_of_json data s) with
    | Return w => Return (Some w)
    | Raise e => Raise e
    end.
Proof.
  unfold answers, reply. intros (Hr & Hok & Hbody). unfold get_wallet.
  rewrite (method_run GET (fun base => base ++ "/wallets/" ++ agent_id))
    by (intros r'; destruct (status_code r' =? 404); solve_local).
  cbn [request_of] in Hr. rewrite Hr. cbn [fst].
  rewrite (not_error_not_404 r Hok).
  rewrite (decoded_answer r data) by assumption.
  unfold bind. destruct (wallet_of_json data s) as [[w | e] s1]; reflexivity.
Qed.

(** X8: from a success response whose document is an object,
    [create_wallet] builds the wallet out of the six values it finds
    under the keys it reads, whatever else the object holds; when a key
    is missing it raises the [KeyError] of the first missing key, in
    the order agentId, evmAddress, xrpAddress, derivationIndex,
    createdAt, status. *)
Theorem create_wallet_decodes (agent_id : string) (s : State) (r : Response)
    (kvs : list (string * json)) :
  answers net s (request_of (CreateWallet agent_id) (base_url (self s)))
    r (JObj kvs) ->
  match first_missing wallet_keys kvs with
  | Some k => fst (create_wallet net agent_id s) = Raise (KeyError k)
  | None =>
      exists w : AgentWallet.t,
        fst (create_wallet net agent_id s) = Return w /\
        PyVal.lookup "agentId" kvs = Some (AgentWallet.agent_id w) /\
        PyVal.lookup "evmAddress" kvs = Some (AgentWallet.evm_address w) /\
        PyVal.lookup "xrpAddress" kvs = Some (AgentWallet.xrp_address w) /\
        PyVal.lookup "derivationIndex" kvs
        = Some (AgentWallet.derivation_index w) /\
        PyVal.lookup "createdAt" kvs = Some (AgentWallet.created_at w) /\
        PyVal.lookup "status" kvs = Some (AgentWallet.status w)
  end.
Proof.
  intros Hans. rewrite (create_wallet_answered _ _ _ _ Hans).
  destruct (first_missing wallet_keys kvs) as [k |] eqn:E.
  - rewrite (wallet_of_json_missing kvs k s E). reflexivity.
  - destruct (wallet_of_json_present kvs s E) as (w & Hw & Hfields).
    exists w. rewrite Hw. split; [reflexivity | exact Hfields].
Qed.

(** X9: [create_wallet] and [get_wallet] decode a wallet document in
    the same way: when the server answers both with the same document,
    [get_wallet] returns the wallet [create_wallet] returned, and
    raises what it raised. *)
Theorem get_wallet_agrees_with_create (agent_id : string) (s1 s2 : State)
    (r1 r2 : Response) (data : json) :
  answers net s1 (request_of (CreateWallet agent_id) (base_url (self s1)))
    r1 data ->
  answers net s2 (request_of (GetWallet agent_id) (base_url (self s2)))
    r2 data ->
  fst (get_wallet net agent_id s2)
  = match fst (create_wallet net agent_id s1) with
    | Return w => Return (Some w)
    | Raise e => Raise e
    end.
Proof.
  intros H1 H2.
  rewrite (create_wallet_answered _ _ _ _ H1), (get_wallet_answered _ _ _ _ H2).
  rewrite (local_run (wallet_of_json data) s2 s1) by solve_local.
  reflexivity.
Qed.





Lemma decoded_inv (r : Response) (data : json) :
  decoded r = Return data ->
  body r = Some data /\ PyVal.within_limit data = true.
Proof.
  unfold decoded. destruct (body r) as [d |]; [| discriminate].
  destruct (PyVal.within_limit d) eqn:E; [| discriminate].
  intros H. injection H as <-. split; [reflexivity | exact E].
Qed.


Lemma comprehension_outcome {A B : Type} (f : A -> M B) (xs : list A)
    (s : State) :
  (forall x, local (f x)) ->
  all_or_first_failure (fun x => fst (f x s)) xs (fst (comprehension f xs s)).
Proof.
  intros Hf. induction xs as [| x rest IH].
  - simpl. constructor.
  - cbn [comprehension]. unfold bind at 1.
    rewrite (local_run (f x) s s (Hf x)).
    destruct (fst (f x s)) as [y | e] eqn:Ex.
    + unfold bind at 1.
      rewrite (local_run (comprehension f rest) s s)
        by (apply local_comprehension, Hf).
      destruct (fst (comprehension f rest s)) as [ys | e] eqn:Er; cbn [fst ret].
      * simpl in *. constructor; assumption.
      * simpl in *. destruct IH as (good & bad & rest' & E & Hgood & Hbad).
        exists (x :: good), bad, rest'. subst rest.
        split; [reflexivity |]. split; [| exact Hbad].
        constructor; [exists y; exact Ex | exact Hgood].
    + cbn [fst]. simpl. exists [], x, rest.
      split; [reflexivity |]. split; [constructor | exact Ex].
Qed.

Lemma get_all_balances_answered (agent_id : string) (s : State) (r : Response)
    (data v : json) :
  answers net s (request_of (GetAllBalances agent_id) (base_url (self s)))
    r data ->
  PyVal.getitem data "balances" = Return v ->
  fst (get_all_balances net agent_id s)
  = fst ((items <- iter v ;; comprehension balance_of_json items) s).
Proof.
  unfold answers, reply. intros (Hr & Hok & Hbody) Hget.
  unfold get_all_balances.
  rewrite (method_run GET
             (fun base => base ++ "/wallets/" ++ agent_id ++ "/balances"))
    by solve_local.
  cbn [request_of] in Hr. rewrite Hr. cbn [fst].
  rewrite (decoded_answer r data) by assumption.
  rewrite (getitem_then _ _ _ _ _ Hget). reflexivity.
Qed.

Lemma get_agent_channels_answered (agent_id : string) (s : State)
    (r : Response) (data v : json) :
  answers net s (request_of (GetAgentChannels agent_id) (base_url (self s)))
    r data ->
  PyVal.getitem data "channels" = Return v ->
  fst (get_agent_channels net agent_id s)
  = fst ((items <- iter v ;; comprehension channel_of_json items) s).
Proof.
  unfold answers, reply. intros (Hr & Hok & Hbody) Hget.
  unfold get_agent_channels.
  rewrite (method_run GET
             (fun base => base ++ "/wallets/" ++ agent_id ++ "/channels"))
    by solve_local.
  cbn [request_of] in Hr. rewrite Hr. cbn [fst].
  rewrite (decoded_answer r data) by assumption.
  rewrite (getitem_then _ _ _ _ _ Hget). reflexivity.
Qed.

(** X13: [get_all_balances] and [get_agent_channels] return one record
    per item of the server's list, in the server's order, or nothing at
    all: when an item does not decode, the call raises what the first
    such item raises and no partial list is returned. *)
Theorem lists_decode_in_order_or_fail (agent_id : string) (s : State)
    (r : Response) (data : json) (items : list json) :
  (answers net s (request_of (GetAllBalances agent_id) (base_url (self s)))
     r data ->
   PyVal.getitem data "balances" = Return (JList items) ->
   all_or_first_failure (fun item => fst (balance_of_json item s)) items
     (fst (get_all_balances net agent_id s))) /\
  (answers net s (request_of (GetAgentChannels agent_id) (base_url (self s)))
     r data ->
   PyVal.getitem data "channels" = Return (JList items) ->
   all_or_first_failure (fun item => fst (channel_of_json item s)) items
     (fst (get_agent_channels net agent_id s))).
Proof.
  split; intros Hans Hget.
  - rewrite (get_all_balances_answered _ _ _ _ _ Hans Hget).
    unfold bind at 1, iter, lift. cbn [PyVal.iter].
    apply comprehension_outcome. solve_local.
  - rewrite (get_agent_channels_answered _ _ _ _ _ Hans Hget).
    unfold bind at 1, iter, lift. cbn [PyVal.iter].
    apply comprehension_outcome. solve_local.
Qed.

(** X14: when ["balances"] is not a list, [get_all_balances] raises
    [TypeError], except for an empty object and an empty string, over
    which the comprehension runs zero times: they give the empty list,
    as an empty list does. *)
Theorem balances_not_a_list (agent_id : string) (s : State) (r : Response)
    (data v : json) :
  answers net s (request_of (GetAllBalances agent_id) (base_url (self s)))
    r data ->
  PyVal.getitem data "balances" = Return v ->
  (forall items, v <> JList items) ->
  fst (get_all_balances net agent_id s)
  = match v with
    | JObj [] | JStr EmptyString => Return []
    | _ => Raise TypeError
    end.
Proof.
  intros Hans Hget Hnl.
  rewrite (get_all_balances_answered _ _ _ _ _ Hans Hget).
  destruct v as [| b | n | f | str | l | kvs]; try reflexivity.
  - destruct str; reflexivity.
  - exfalso. exact (Hnl l eq_refl).
  - destruct kvs as [| [k x] rest]; reflexivity.
Qed.

(** X15: identifiers are put into the path as they are: [get_wallet]
    for an agent id that ends in ["/balances"] or ["/channels"], or
    that spells out a balance path, issues the very request of
    [get_all_balances], [get_agent_channels] or [get_balance]. *)
Theorem path_not_escaped (agent_id chain token : string) (s : State) :
  snd (get_wallet net (agent_id ++ "/balances") s)
  = snd (get_all_balances net agent_id s) /\
  snd (get_wallet net (agent_id ++ "/channels") s)
  = snd (get_agent_channels net agent_id s) /\
  snd (get_wallet net (agent_id ++ "/balances/" ++ chain ++ "/" ++ token) s)
  = snd (get_balance net agent_id chain token s).
Proof.
  unfold get_wallet, get_all_balances, get_agent_channels, get_balance.
  rewrite (method_run GET
             (fun base => base ++ "/wallets/" ++ agent_id ++ "/balances"))
    by (intros r'; try destruct (status_code r' =? 404); solve_local).
  rewrite (method_run GET
             (fun base => base ++ "/wallets/" ++ agent_id ++ "/channels"))
    by (intros r'; try destruct (status_code r' =? 404); solve_local).
  rewrite (method_run GET
             (fun base => base ++ "/wallets/" ++ agent_id ++ "/balances/"
                            ++ chain ++ "/" ++ token))
    by (intros r'; try destruct (status_code r' =? 404); solve_local).
  rewrite (method_run GET
             (fun base => base ++ "/wallets/" ++ agent_id ++ "/balances"))
    by solve_local.
  rewrite (method_run GET
             (fun base => base ++ "/wallets/" ++ agent_id ++ "/channels"))
    by solve_local.
  rewrite (method_run GET
             (fun base => base ++ "/wallets/" ++ agent_id ++ "/balances/"
                            ++ chain ++ "/" ++ token))
    by solve_local.
  repeat split.
Qed.


(** *** The example programs *)

Context (py : Builtins).

Lemma call_snd_create (a : string) (s : State) :
  snd (create_wallet net a s) = sent s (request_of (CreateWallet a) (base_url (self s))).
Proof.
  unfold create_wallet.
  rewrite (method_run POST (fun base => base ++ "/wallets")) by solve_local.
  reflexivity.
Qed.

Lemma call_snd_get (a : string) (s : State) :
  snd (get_wallet net a s) = sent s (request_of (GetWallet a) (base_url (self s))).
Proof.
  unfold get_wallet.
  rewrite (method_run GET (fun base => base ++ "/wallets/" ++ a))
    by (intros r'; destruct (status_code r' =? 404); solve_local).
  reflexivity.
Qed.

(** When [create_wallet] raises an [HTTPError], it carries the
    response the server gave to its request. *)
Lemma create_wallet_http_error (a : string) (s : State) (r : Response) :
  fst (create_wallet net a s) = Raise (HTTPError r) ->
  reply net s (request_of (CreateWallet a) (base_url (self s))) = inr r /\
  error_status r = true.
Proof.
  unfold create_wallet, reply.
  rewrite (method_run POST (fun base => base ++ "/wallets")) by solve_local.
  cbn [fst request_of].
  destruct (net (world s) (session (self s)) _) as [f | r0]; [discriminate |].
  unfold bind at 1. rewrite raise_for_status_run.
  destruct (error_status r0) eqn:Herr.
  - cbn. intros E. injection E as <-. split; [reflexivity | exact Herr].
  - cbn [fst]. intros E. exfalso.
    assert (Hl : local (data <- response_json r0 ;; wallet_of_json data))
      by solve_local.
    destruct Hl as (res & Hres & _).
    rewrite Hres in E. cbn in E. subst res.
    revert Hres. unfold bind, response_json, lift, decoded.
    destruct (body r0) as [data |];
      [destruct (PyVal.within_limit data) |];
      [| intros Hres; specialize (Hres s); discriminate Hres |].
    + intros Hres. specialize (Hres s). cbn in Hres.
      unfold wallet_of_json, bind, getitem, lift in Hres.
      repeat match type of Hres with
             | context [PyVal.getitem ?d ?k] =>
                 destruct (PyVal.getitem d k) as [? | ?] eqn:?
             end; cbn in Hres; try discriminate Hres;
        injection Hres as Hres;
        match goal with
        | H : PyVal.getitem _ _ = Raise _ |- _ =>
            rewrite Hres in H; unfold PyVal.getitem in H;
            destruct data; try discriminate H;
            match type of H with
            | context [PyVal.lookup ?k ?l] => destruct (PyVal.lookup k l)
            end; discriminate H
        end.
    + intros Hres. specialize (Hres s). discriminate Hres.
Qed.

Lemma create_wallet_cases (a : string) (s : State) :
  match reply net s (request_of (CreateWallet a) (base_url (self s))) with
  | inl f => fst (create_wallet net a s) = Raise (RequestException f)
  | inr r =>
      if error_status r
      then fst (create_wallet net a s) = Raise (HTTPError r)
      else forall r', fst (create_wallet net a s) <> Raise (HTTPError r')
  end.
Proof.
  destruct (reply net s _) as [f | r] eqn:Hr.
  - unfold reply in Hr. unfold create_wallet.
    rewrite (method_run POST (fun base => base ++ "/wallets")) by solve_local.
    cbn [request_of] in Hr. rewrite Hr. reflexivity.
  - destruct (error_status r) eqn:Herr.
    + unfold reply in Hr. unfold create_wallet.
      rewrite (method_run POST (fun base => base ++ "/wallets")) by solve_local.
      cbn [request_of] in Hr. rewrite Hr. cbn [fst].
      rewrite raise_for_status_error by exact Herr. reflexivity.
    + intros r' E. apply create_wallet_http_error in E.
      destruct E as [E Herr']. rewrite Hr in E. injection E as <-.
      congruence.
Qed.

Lemma requests_sent_app (w w' : World) :
  requests_sent (w ++ w')%list = (requests_sent w + requests_sent w')%nat.
Proof. unfold requests_sent. rewrite filter_app, length_app. reflexivity. Qed.

Lemma sessions_created_app (w w' : World) :
  sessions_created (w ++ w')%list = (sessions_created w + sessions_created w')%nat.
Proof. unfold sessions_created. rewrite filter_app, length_app. reflexivity. Qed.

Lemma is_closed_app (k : Session) (w w' : World) :
  is_closed k (w ++ w')%list = is_closed k w || is_closed k w'.
Proof. unfold is_closed. apply existsb_app. Qed.

Lemma slept_app (es es' : list Effect) :
  slept (es ++ es')%list = (slept es ++ slept es')%list.
Proof. unfold slept. apply flat_map_app. Qed.

Lemma printed_app (es es' : list Effect) :
  printed (es ++ es')%list = (printed es ++ printed es')%list.
Proof. unfold printed. apply flat_map_app. Qed.

Lemma not_error_status_codes (r : Response) :
  error_status r = false ->
  (status_code r =? 409) = false /\ (status_code r =? 429) = false /\
  (status_code r =? 500) = false.
Proof.
  unfold error_status. intros H.
  repeat split;
    match goal with
    | |- (_ =? ?c) = false =>
        destruct (Z.eqb_spec (status_code r) c) as [E | _]; [| reflexivity];
        rewrite E in H; discriminate H
    end.
Qed.

Ltac tally :=
  cbn [then_ print sleep fail done lift_result sent world self started session
         outside console fst snd];
  rewrite ?requests_sent_app, ?sessions_created_app, ?slept_app, ?printed_app;
  cbn [requests_sent sessions_created slept printed flat_map filter is_sent
         is_opened List.length app];
  rewrite ?app_nil_r;
  try reflexivity; try lia.

(** X17: [example_4_error_handling] constructs one client and calls
    [create_wallet] once; it makes a second request, [get_wallet], only
    when the first was answered 409, and it pauses, for 60 seconds and
    once, only when the first was answered 429. *)
Theorem error_handling_requests_and_pauses (agent_id : string) (mc : Machine) :
  let run := example_4_error_handling net py agent_id mc in
  let answer :=
    reply net (started mc) (request_of (CreateWallet agent_id) API_BASE_URL) in
  let conflict :=
    match answer with inr r => status_code r =? 409 | inl _ => false end in
  let limited :=
    match answer with inr r => status_code r =? 429 | inl _ => false end in
  requests_sent (outside (snd run))
  = (requests_sent (outside mc) + (if conflict then 2 else 1))%nat /\
  slept (console (snd run))
  = (slept (console mc) ++ (if limited then [60] else []))%list /\
  sessions_created (outside (snd run)) = S (sessions_created (outside mc)).
Proof.
  intros run answer conflict limited.
  assert (Hrun : run = example_4_error_handling net py agent_id mc)
    by reflexivity.
  clearbody run. subst conflict limited answer.
  unfold example_4_error_handling in Hrun.
  unfold then_ at 1, new_client, __init__, new_session in Hrun.
  cbn [fst snd outside console] in Hrun.
  unfold then_ at 1, print at 1 in Hrun. cbn [outside console] in Hrun.
  unfold try_http, then_ at 1, invoke at 1 in Hrun.
  cbn [outside console] in Hrun.
  fold (started mc) in Hrun.
  pose proof (create_wallet_cases agent_id (started mc)) as Hc.
  pose proof (call_snd_create agent_id (started mc)) as Hs.
  change (base_url (self (started mc))) with API_BASE_URL in Hc, Hs.
  destruct (create_wallet net agent_id (started mc)) as [res s1].
  cbn [fst snd] in Hc, Hs. subst s1.
  destruct (reply net (started mc) _) as [f | r].
  - subst res run. repeat split; tally.
  - destruct (error_status r) eqn:Herr.
    + subst res. cbn iota beta in Hrun.
      destruct (Z.eqb_spec (status_code r) 409) as [E409 | _].
      * rewrite E409. change (409 =? 429) with false. cbv iota.
        unfold then_, print, invoke in Hrun. cbn [outside console] in Hrun.
        pose proof (call_snd_get agent_id
                      (sent (started mc)
                         (request_of (CreateWallet agent_id) API_BASE_URL)))
          as Hg.
        cbn [sent self world started base_url session] in Hg, Hrun.
        destruct (get_wallet net agent_id _) as [res2 s2].
        cbn [snd] in Hg. subst s2 run.
        destruct res2; repeat split; tally.
      * destruct (status_code r =? 429); [subst run; repeat split; tally |].
        destruct (status_code r =? 500); [| subst run; repeat split; tally].
        unfold then_ at 1, lift_result in Hrun.
        destruct (decoded r) as [d | e0]; [| subst run; repeat split; tally].
        cbn [done] in Hrun. unfold then_ at 1, dict_get in Hrun.
        destruct d as [| | | | | | kvs]; try solve [subst run; repeat split; tally].
        destruct (PyVal.lookup "error" kvs) as [v |]; cbn [done] in Hrun;
          unfold then_ at 1, contains in Hrun;
          [destruct v; cbn [done fail] in Hrun |];
          try solve [subst run; repeat split; tally].
        all: try change (is_substring "master-seed not found" EmptyString)
                   with false in Hrun.
        all: try match type of Hrun with
                 | context [if ?b then _ else _] => destruct b
                 end.
        all: subst run; repeat split; tally.
    + destruct (not_error_status_codes r Herr) as (H409 & H429 & _).
      rewrite H409, H429.
      destruct res as [w | e].
      * subst run. repeat split; tally.
      * destruct e; try solve [subst run; repeat split; tally].
        exfalso. exact (Hc r0 eq_refl).
Qed.

(** X18: when [create_wallet] is answered 500, [example_4_error_handling]
    reads the body to diagnose, and what it raises depends on the body:
    [JSONDecodeError] when it is no JSON document, the [ValueError] of
    [response.json()] when the document holds an integer of more than
    4300 digits, [AttributeError] when the decoded document is no
    object, the [Exception] "System configuration error" when the
    object's ["error"] text contains "master-seed not found", and the
    [HTTPError] itself otherwise. *)
Theorem server_fault_diagnosis (agent_id : string) (mc : Machine)
    (r : Response) :
  reply net (started mc) (request_of (CreateWallet agent_id) API_BASE_URL)
  = inr r ->
  status_code r = 500 ->
  let run := example_4_error_handling net py agent_id mc in
  (body r = None -> fst run = Failed (ClientError JSONDecodeError)) /\
  (forall d, body r = Some d -> PyVal.within_limit d = false ->
             fst run = Failed (ClientError ValueError)) /\
  (forall d, decoded r = Return d -> (forall kvs, d <> JObj kvs) ->
             fst run = Failed AttributeError) /\
  (forall kvs text,
     decoded r = Return (JObj kvs) ->
     PyVal.lookup "error" kvs = Some (JStr text) ->
     fst run
     = if is_substring "master-seed not found" text
       then Failed (Exception "System configuration error")
       else Failed (ClientError (HTTPError r))) /\
  (forall kvs,
     decoded r = Return (JObj kvs) ->
     PyVal.lookup "error" kvs = None ->
     fst run = Failed (ClientError (HTTPError r))).
Proof.
  intros Hr H500 run.
  assert (Hrun : run = example_4_error_handling net py agent_id mc)
    by reflexivity.
  clearbody run.
  unfold example_4_error_handling in Hrun.
  unfold then_ at 1, new_client, __init__, new_session in Hrun.
  cbn [fst snd outside console] in Hrun.
  unfold then_ at 1, print at 1 in Hrun. cbn [outside console] in Hrun.
  unfold try_http, then_ at 1, invoke at 1 in Hrun.
  cbn [outside console] in Hrun.
  fold (started mc) in Hrun.
  pose proof (create_wallet_cases agent_id (started mc)) as Hc.
  change (base_url (self (started mc))) with API_BASE_URL in Hc.
  rewrite Hr in Hc.
  assert (Herr : error_status r = true)
    by (unfold error_status; rewrite H500; reflexivity).
  rewrite Herr in Hc.
  destruct (create_wallet net agent_id (started mc)) as [res s1].
  cbn [fst] in Hc. subst res. cbn iota beta in Hrun.
  rewrite H500 in Hrun.
  change (500 =? 409) with false in Hrun.
  change (500 =? 429) with false in Hrun.
  change (500 =? 500) with true in Hrun. cbv iota in Hrun.
  unfold then_ at 1, lift_result in Hrun.
  split; [| split; [| split; [| split]]].
  - intros Hb. unfold decoded in Hrun. rewrite Hb in Hrun. subst run.
    reflexivity.
  - intros d Hb Hlim. unfold decoded in Hrun. rewrite Hb, Hlim in Hrun.
    subst run. reflexivity.
  - intros d Hb Hobj. rewrite Hb in Hrun. cbn [done] in Hrun.
    unfold then_ at 1, dict_get in Hrun.
    destruct d; try (subst run; reflexivity).
    exfalso. exact (Hobj kvs eq_refl).
  - intros kvs text Hb Hl. rewrite Hb in Hrun. cbn [done] in Hrun.
    unfold then_ at 1, dict_get in Hrun. rewrite Hl in Hrun.
    cbn [done] in Hrun. unfold then_ at 1, contains in Hrun. cbn [done] in Hrun.
    subst run. destruct (is_substring "master-seed not found" text); reflexivity.
  - intros kvs Hb Hl. rewrite Hb in Hrun. cbn [done] in Hrun.
    unfold then_ at 1, dict_get in Hrun. rewrite Hl in Hrun.
    subst run. reflexivity.
Qed.

Lemma batch_summary_cons (client : t) (a : string) (rest : list string)
    (held held' : nat) (mc mc1 : Machine)
    (run : Outcome (list AgentWallet.t) * Machine) :
  outside mc1
  = (outside mc ++ [Sent (session client)
                      (request_of (CreateWallet a) (base_url client))])%list ->
  slept (console mc1) = slept (console mc) ->
  (held' <= S held)%nat ->
  batch_summary client rest held' mc1 run ->
  batch_summary client (a :: rest) held mc run.
Proof.
  intros Hw Hsl Hheld (k & Hk & Hout & Hslept & Hdone & Hhttp & Hd & Hn).
  exists (S k). cbn [List.length firstn map].
  split; [lia |]. split.
  { rewrite Hout, Hw, <- app_assoc. reflexivity. }
  split; [congruence |]. split.
  { intros ws E. destruct (Hdone ws E). split; lia. }
  repeat split; assumption.
Qed.

Lemma batch_summary_stop (client : t) (a : string) (rest : list string)
    (held : nat) (mc mc1 : Machine) (f : Failure) :
  outside mc1
  = (outside mc ++ [Sent (session client)
                      (request_of (CreateWallet a) (base_url client))])%list ->
  slept (console mc1) = slept (console mc) ->
  (forall r, f = ClientError (HTTPError r) -> status_code r <> 409) ->
  batch_summary client (a :: rest) held mc (Failed f, mc1).
Proof.
  intros Hw Hsl Hf. exists 1%nat. cbn [List.length firstn map fst snd].
  split; [lia |]. split; [exact Hw |]. split; [exact Hsl |].
  split; [discriminate |]. split; [| split; discriminate].
  intros r E. injection E as E. exact (Hf r E).
Qed.

Lemma create_batch_run (client : t) (ids : list string) :
  forall (wallets : list AgentWallet.t) (mc : Machine),
    batch_summary client ids (List.length wallets) mc
      (create_batch net py client ids wallets mc).
Proof.
  induction ids as [| a rest IH]; intros wallets mc.
  - exists O. cbn [List.length firstn map create_batch done fst snd].
    rewrite app_nil_r.
    split; [lia |]. split; [reflexivity |]. split; [reflexivity |].
    split; [| split; [discriminate | split; discriminate]].
    intros ws E. injection E as <-. split; [reflexivity | lia].
  - cbn [create_batch]. unfold then_ at 1, try_http, then_ at 1, invoke.
    pose proof (call_snd_create a {| self := client; world := outside mc |}) as Hs.
    cbn [self base_url] in Hs.
    destruct (create_wallet net a {| self := client; world := outside mc |})
      as [res s1].
    cbn [snd] in Hs. subst s1. cbn [sent self world].
    destruct res as [w | e].
    + unfold then_ at 1, print. cbn [then_ done fst snd outside console].
      eapply batch_summary_cons; [| | | apply IH]; cbn [outside console].
      * reflexivity.
      * rewrite slept_app. apply app_nil_r.
      * rewrite length_app. cbn. lia.
    + destruct e as [f | r | | key | | |];
        try (apply batch_summary_stop; [reflexivity | reflexivity | discriminate]).
      destruct (Z.eqb_spec (status_code r) 409) as [E409 | N409].
      * unfold then_ at 1, print. cbn [then_ done fst snd outside console].
        eapply batch_summary_cons; [| | | apply IH]; cbn [outside console].
        -- reflexivity.
        -- rewrite slept_app. apply app_nil_r.
        -- lia.
      * cbn [fail]. apply batch_summary_stop; [reflexivity | reflexivity |].
        intros r' E. injection E as <-. exact N409.
Qed.

(** X19: [example_5_batch_operations] sends the creation requests of
    its three identifiers in order, one each, through the one session it
    opens, and stops at the first failure; an answer 409 is no failure:
    the identifier is skipped and the batch goes on, so that the
    [HTTPError] of a 409 never comes out; when the example returns, all
    three requests were sent and at most three wallets are returned;
    it never pauses. *)
Theorem batch_skips_conflicts (mc : Machine) :
  let run := example_5_batch_operations net py mc in
  let ses := sessions_created (outside mc) in
  exists k : nat,
    (k <= 3)%nat /\
    outside (snd run)
    = (outside mc
         ++ Opened ses
         :: map (fun a => Sent ses (request_of (CreateWallet a) API_BASE_URL))
              (firstn k batch_agent_ids))%list /\
    (forall ws, fst run = Done ws -> k = 3%nat /\ (List.length ws <= 3)%nat) /\
    (forall r, fst run = Failed (ClientError (HTTPError r)) ->
               status_code r <> 409) /\
    slept (console (snd run)) = slept (console mc).
Proof.
  intros run ses.
  assert (Hrun : run = example_5_batch_operations net py mc) by reflexivity.
  clearbody run.
  unfold example_5_batch_operations in Hrun.
  unfold then_ at 1, new_client, __init__, new_session in Hrun.
  cbn [fst snd outside console] in Hrun. fold ses in Hrun.
  unfold then_ at 1, print at 1 in Hrun. cbn [outside console] in Hrun.
  unfold try_http, then_ at 1, print at 1 in Hrun.
  cbn [outside console] in Hrun. unfold then_ at 1 in Hrun.
  match type of Hrun with
  | context [create_batch net py ?c ?ids ?ws ?m] =>
      destruct (create_batch_run c ids ws m)
        as (k & Hk & Hw & Hsl & Hdone & Hhttp & Hd & Hn);
      destruct (create_batch net py c ids ws m) as [out mc2]
  end.
  cbn [fst snd outside console session base_url List.length] in *.
  exists k. split; [exact Hk |].
  assert (Hsl0 : slept (console mc2) = slept (console mc)).
  { rewrite Hsl, !slept_app. cbn. rewrite !app_nil_r. reflexivity. }
  assert (Hw0 : outside mc2
                = (outside mc
                     ++ Opened ses
                     :: map (fun a => Sent ses
                                        (request_of (CreateWallet a) API_BASE_URL))
                          (firstn k batch_agent_ids))%list).
  { rewrite Hw, <- app_assoc. reflexivity. }
  destruct out as [ws | f | |];
    [| | exfalso; apply Hd; reflexivity | exfalso; apply Hn; reflexivity].
  - unfold then_, print, done in Hrun. cbn in Hrun. subst run.
    cbn [fst snd outside console].
    split; [exact Hw0 |]. split.
    { intros ws' E. injection E as <-.
      destruct (Hdone ws eq_refl) as [Ek Hl].
      change (List.length batch_agent_ids) with 3%nat in Ek, Hl.
      split; [exact Ek | lia]. }
    split; [discriminate |].
    rewrite slept_app, Hsl0. cbn. apply app_nil_r.
  - destruct f as [e | |]; try (subst run; cbn [fst snd];
      split; [exact Hw0 |]; split; [discriminate |];
      split; [discriminate | exact Hsl0]).
    destruct e as [f | r | | key | | |]; try (subst run; cbn [fst snd];
      split; [exact Hw0 |]; split; [discriminate |];
      split; [discriminate | exact Hsl0]).
    unfold then_, print, fail in Hrun. cbn in Hrun. subst run.
    cbn [fst snd outside console].
    split; [exact Hw0 |]. split; [discriminate |]. split.
    { intros r' E. injection E as <-. apply Hhttp. reflexivity. }
    rewrite slept_app, Hsl0. cbn. apply app_nil_r.
Qed.

Lemma call_snd_open (a p c tk : string) (n : Z) (s : State) :
  Py.digit_count n <= Py.max_str_digits ->
  snd (open_channel net a p c tk n s)
  = sent s (request_of (OpenChannel a p c tk n) (base_url (self s))).
Proof.
  intros Hfit. rewrite (open_channel_fits _ _ _ _ _ Hfit).
  rewrite (method_run POST (fun base => base ++ "/channels")) by solve_local.
  reflexivity.
Qed.

Lemma call_snd_pay (a ch : string) (n : Z) (s : State) :
  Py.digit_count n <= Py.max_str_digits ->
  snd (send_payment net a ch n s)
  = sent s (request_of (SendPayment a ch n) (base_url (self s))).
Proof.
  intros Hfit. rewrite (send_payment_fits _ _ _ Hfit).
  rewrite (method_run POST (fun base => base ++ "/channels/" ++ ch ++ "/payments"))
    by solve_local.
  reflexivity.
Qed.

(** The amounts of [example_3_payment_channel] are within the limit
    of [str]. *)
Lemma opening_amount_fits : Py.digit_count 1000000000 <= Py.max_str_digits.
Proof. vm_compute. discriminate. Qed.

Lemma payment_amount_fits : Py.digit_count 10000000 <= Py.max_str_digits.
Proof. vm_compute. discriminate. Qed.

Lemma call_snd_close (a ch : string) (s : State) :
  snd (close_channel net a ch s)
  = sent s (request_of (CloseChannel a ch) (base_url (self s))).
Proof.
  unfold close_channel.
  rewrite (method_run DELETE (fun base => base ++ "/channels/" ++ ch))
    by solve_local.
  reflexivity.
Qed.

Lemma call_snd_channels (a : string) (s : State) :
  snd (get_agent_channels net a s)
  = sent s (request_of (GetAgentChannels a) (base_url (self s))).
Proof.
  unfold get_agent_channels.
  rewrite (method_run GET (fun base => base ++ "/wallets/" ++ a ++ "/channels"))
    by solve_local.
  reflexivity.
Qed.

Lemma call_snd_balances (a : string) (s : State) :
  snd (get_all_balances net a s)
  = sent s (request_of (GetAllBalances a) (base_url (self s))).
Proof.
  unfold get_all_balances.
  rewrite (method_run GET (fun base => base ++ "/wallets/" ++ a ++ "/balances"))
    by solve_local.
  reflexivity.
Qed.

(** A call of a method from an example: one more request in the world,
    through the client's session, and the console as it was. *)
Lemma invoke_run {A : Type} (client : t) (m : M A) (req : Request)
    (mc : Machine) :
  snd (m {| self := client; world := outside mc |})
  = sent {| self := client; world := outside mc |} req ->
  invoke client m mc
  = (match fst (m {| self := client; world := outside mc |}) with
     | Return a => Done a
     | Raise e => Failed (ClientError e)
     end,
     {| outside := (outside mc ++ [Sent (session client) req])%list;
        console := console mc |}).
Proof.
  intros Hs. unfold invoke.
  destruct (m {| self := client; world := outside mc |}) as [res s1].
  cbn [fst snd] in *. subst s1. reflexivity.
Qed.

Lemma follows_done {A : Type} (client : t) (a : A) : follows client [] (done a).
Proof.
  intros mc. exists [], []. cbn. rewrite app_nil_r. repeat split.
Qed.

Lemma follows_fail {A : Type} (client : t) (script : list Request) (f : Failure) :
  follows client script (@fail A f).
Proof.
  intros mc. exists [], script. cbn. rewrite app_nil_r.
  repeat split. discriminate.
Qed.

Lemma follows_print (client : t) (text : string) : follows client [] (print text).
Proof.
  intros mc. exists [], []. cbn. rewrite app_nil_r, slept_app. cbn.
  rewrite app_nil_r. repeat split.
Qed.

Lemma follows_then {A B : Type} (client : t) (s1 s2 : list Request)
    (p : Prog A) (k : A -> Prog B) :
  follows client s1 p -> (forall a, follows client s2 (k a)) ->
  follows client (s1 ++ s2) (then_ p k).
Proof.
  intros Hp Hk mc. unfold then_.
  destruct (Hp mc) as (d1 & r1 & E1 & W1 & S1 & D1).
  destruct (p mc) as [out mc1]. cbn [fst snd] in *.
  destruct out as [a | f | |].
  - rewrite (D1 a eq_refl) in E1. rewrite app_nil_r in E1. subst d1.
    destruct (Hk a mc1) as (d2 & r2 & E2 & W2 & S2 & D2).
    exists (s1 ++ d2)%list, r2. subst s2.
    split; [apply app_assoc |]. split.
    { rewrite W2, W1, map_app, app_assoc. reflexivity. }
    split; [congruence | exact D2].
  - exists d1, (r1 ++ s2)%list. subst s1.
    split; [symmetry; apply app_assoc |].
    split; [exact W1 |]. split; [exact S1 | discriminate].
  - exists d1, (r1 ++ s2)%list. subst s1.
    split; [symmetry; apply app_assoc |].
    split; [exact W1 |]. split; [exact S1 | discriminate].
  - exists d1, (r1 ++ s2)%list. subst s1.
    split; [symmetry; apply app_assoc |].
    split; [exact W1 |]. split; [exact S1 | discriminate].
Qed.

Lemma follows_invoke {A : Type} (client : t) (m : M A)
    (req : string -> Request) :
  (forall s, snd (m s) = sent s (req (base_url (self s)))) ->
  follows client [req (base_url client)] (invoke client m).
Proof.
  intros Hm mc. rewrite (invoke_run client m (req (base_url client)))
    by apply Hm.
  cbn [fst snd outside console].
  destruct (fst (m {| self := client; world := outside mc |})) as [a | e].
  - exists [req (base_url client)], []. repeat split.
  - exists [req (base_url client)], []. repeat split.
Qed.

(** A handler that re-raises after printing leaves the script of the
    body as it is. *)
Lemma follows_try_http {A : Type} (client : t) (script : list Request)
    (body : Prog A) (handler : Response -> Prog A) :
  follows client script body ->
  (forall r mc,
     outside (snd (handler r mc)) = outside mc /\
     slept (console (snd (handler r mc))) = slept (console mc) /\
     forall a, fst (handler r mc) <> Done a) ->
  follows client script (try_http body handler).
Proof.
  intros Hb Hh mc. unfold try_http.
  destruct (Hb mc) as (d & r & E & W & S & D).
  destruct (body mc) as [out mc1]. cbn [fst snd] in *.
  assert (Hsame : exists done_part rest : list Request,
             script = (done_part ++ rest)%list /\
             outside mc1 = (outside mc ++ map (Sent (session client)) done_part)%list /\
             slept (console mc1) = slept (console mc) /\
             (forall a, out = Done a -> rest = []))
    by (exists d, r; repeat split; assumption).
  destruct out as [a | f | |]; try exact Hsame.
  destruct f as [e | |]; try exact Hsame.
  destruct e as [f | resp | | key | | |]; try exact Hsame.
  destruct (Hh resp mc1) as (Hw & Hs & Hd).
  exists d, r. split; [exact E |]. split; [congruence |].
  split; [congruence |]. intros a Ea. exfalso. exact (Hd a Ea).
Qed.

Lemma follows_send_payments (client : t) (agent_id : string) (channel_id : json)
    (indices : list Z) :
  follows client
    (repeat (request_of (SendPayment agent_id (format_value py channel_id)
                           10000000) (base_url client))
       (List.length indices))
    (send_payments net py client agent_id channel_id indices).
Proof.
  induction indices as [| i rest IH]; cbn [send_payments List.length repeat].
  - apply follows_done.
  - apply (follows_then client [_] _).
    + apply (follows_invoke client _
               (request_of (SendPayment agent_id (format_value py channel_id)
                              10000000))).
      intros s. apply call_snd_pay, payment_amount_fits.
    + intros _. apply (follows_then client [] _); [apply follows_print |].
      intros _. exact IH.
Qed.

Lemma follows_stuck {A : Type} (client : t) (script : list Request)
    (out : Outcome A) :
  (forall a, out <> Done a) ->
  follows client script (fun mc => (out, mc)).
Proof.
  intros Hout mc. exists [], script. cbn. rewrite app_nil_r.
  repeat split. intros a E. exfalso. exact (Hout a E).
Qed.

Lemma follows_format_balance_of (client : t) (balance : Z) (decimals : json) :
  follows client [] (format_balance_of balance decimals).
Proof.
  destruct decimals as [| b | d | f | s | l | kvs]; cbn [format_balance_of];
    try apply follows_fail;
    try (apply follows_stuck; discriminate).
  - destruct (format_balance balance (if b then 1 else 0)) as [[text | e] |];
      [apply follows_done | apply follows_fail
      | apply follows_stuck; discriminate].
  - destruct (format_balance balance d) as [[text | e] |];
      [apply follows_done | apply follows_fail
      | apply follows_stuck; discriminate].
Qed.

Lemma channel_script_head (agent_id peer_id ch : string) (d r : list Request) :
  channel_script agent_id peer_id ch = (d ++ r)%list -> r <> [] ->
  Forall (fun req => method req <> DELETE) d.
Proof.
  intros E Hr.
  destruct (exists_last Hr) as (r' & y & ->).
  assert (Einit : channel_script agent_id peer_id ch
                  = ((request_of (OpenChannel agent_id peer_id "evm" "USDC"
                                    1000000000) API_BASE_URL
                      :: repeat (request_of (SendPayment agent_id ch 10000000)
                                   API_BASE_URL) 10
                      ++ [request_of (GetAgentChannels agent_id) API_BASE_URL])
                     ++ [request_of (CloseChannel agent_id ch) API_BASE_URL])%list)
    by reflexivity.
  rewrite Einit, app_assoc in E. apply app_inj_tail in E. destruct E as [E _].
  assert (Hall : Forall (fun req => method req <> DELETE) (d ++ r')%list).
  { rewrite <- E. cbn [repeat app request_of]. repeat constructor; discriminate. }
  apply Forall_app in Hall. tauto.
Qed.

(** The part of [example_3_payment_channel] that comes once the
    channel is open. *)
Lemma follows_channel_rest (client : t) (agent_id : string) (channel_id : json) :
  follows client
    (repeat (request_of (SendPayment agent_id (format_value py channel_id)
                           10000000) (base_url client)) 10
     ++ [request_of (GetAgentChannels agent_id) (base_url client);
         request_of (CloseChannel agent_id (format_value py channel_id))
           (base_url client)])%list
    (print ("Payment channel opened: " ++ format_value py channel_id) ;>
     send_payments net py client agent_id channel_id range_1_11 ;>
     channels <~ invoke client (get_agent_channels net agent_id) ;>
     match find (fun c => value_eq py (AgentChannel.id c) channel_id) channels with
     | Some channel =>
         print (nl ++ "Channel status:") ;>
         print ("  Channel ID: " ++ format_value py (AgentChannel.id channel)) ;>
         formatted <~ format_balance_of (AgentChannel.balance channel) (JInt 6) ;>
         print ("  Remaining balance: " ++ formatted ++ " USDC") ;>
         print ("  Payments sent: "
                  ++ format_value py (AgentChannel.payments_count channel))
     | None => done tt
     end ;>
     print (nl ++ "Closing payment channel...") ;>
     invoke client (close_channel net agent_id (format_value py channel_id)) ;>
     print "Channel closed and settled").
Proof.
  apply (follows_then client [] _); [apply follows_print |]. intros _.
  apply (follows_then client (repeat _ 10) _);
    [exact (follows_send_payments client agent_id channel_id range_1_11) |].
  intros _.
  apply (follows_then client [_] [_]).
  { apply (follows_invoke client _ (request_of (GetAgentChannels agent_id))).
    intros s. apply call_snd_channels. }
  intros channels.
  apply (follows_then client [] [_]).
  { destruct (find _ channels) as [channel |]; [| apply follows_done].
    apply (follows_then client [] []); [apply follows_print |]. intros _.
    apply (follows_then client [] []); [apply follows_print |]. intros _.
    apply (follows_then client [] []); [apply follows_format_balance_of |].
    intros formatted.
    apply (follows_then client [] []); [apply follows_print |]. intros _.
    apply follows_print. }
  intros _.
  apply (follows_then client [] [_]); [apply follows_print |]. intros _.
  apply (follows_then client [_] []); [| intros _; apply follows_print].
  apply (follows_invoke client _
           (request_of (CloseChannel agent_id (format_value py channel_id)))).
  intros s. apply call_snd_close.
Qed.

(** X20: [example_3_payment_channel] follows one script: through the
    one session it opens it sends the opening request, ten payments of
    10000000 on the channel it was given, the listing and the closing
    request, in this order, and stops at the first failure; it sends
    them all when it ends well; whenever a step fails before the end,
    no closing request has gone out: the channel is left open; it never
    pauses. *)
Theorem channel_example_script (agent_id peer_id : string) (mc : Machine) :
  let run := example_3_payment_channel net py agent_id peer_id mc in
  let ses := sessions_created (outside mc) in
  exists (ch : string) (done_part rest : list Request),
    channel_script agent_id peer_id ch = (done_part ++ rest)%list /\
    outside (snd run)
    = (outside mc ++ Opened ses :: map (Sent ses) done_part)%list /\
    slept (console (snd run)) = slept (console mc) /\
    (fst run = Done tt -> rest = []) /\
    (rest <> [] -> Forall (fun req => method req <> DELETE) done_part).
Proof.
  intros run ses.
  assert (Hrun : run = example_3_payment_channel net py agent_id peer_id mc)
    by reflexivity.
  clearbody run.
  unfold example_3_payment_channel in Hrun.
  unfold then_ at 1, new_client, __init__, new_session in Hrun.
  cbn [fst snd outside console] in Hrun. fold ses in Hrun.
  unfold then_ at 1, print at 1 in Hrun. cbn [outside console] in Hrun.
  unfold try_http, then_ at 1, print at 1 in Hrun.
  cbn [outside console] in Hrun. unfold then_ at 1 in Hrun.
  set (client := {| base_url := API_BASE_URL; session := ses |}) in *.
  rewrite (invoke_run client _
             (request_of (OpenChannel agent_id peer_id "evm" "USDC" 1000000000)
                API_BASE_URL)) in Hrun
    by apply call_snd_open, opening_amount_fits.
  cbn [outside console] in Hrun.
  assert (Hprint : forall (r : Response) (m : Machine),
             outside (snd ((print ("Payment channel operation failed: "
                                     ++ exception_text py (ClientError (HTTPError r))) ;>
                            @fail unit (ClientError (HTTPError r))) m)) = outside m /\
             slept (console (snd ((print ("Payment channel operation failed: "
                                     ++ exception_text py (ClientError (HTTPError r))) ;>
                            @fail unit (ClientError (HTTPError r))) m)))
             = slept (console m) /\
             fst ((print ("Payment channel operation failed: "
                            ++ exception_text py (ClientError (HTTPError r))) ;>
                   @fail unit (ClientError (HTTPError r))) m) <> Done tt).
  { intros r m. cbn. rewrite slept_app. cbn. rewrite app_nil_r.
    repeat split. discriminate. }
  assert (Hslept0 : slept ((console mc
                              ++ [Printed (nl ++ "=== Example 3: Payment Channel ===")])
                             ++ [Printed ("Opening payment channel from " ++ agent_id
                                            ++ " to " ++ peer_id)])
                    = slept (console mc)).
  { rewrite !slept_app. cbn. rewrite !app_nil_r. reflexivity. }
  destruct (fst (open_channel net agent_id peer_id "evm" "USDC" 1000000000 _))
    as [channel_id | e].
  - match type of Hrun with
    | context [then_ ?p ?k ?m] =>
        destruct (follows_channel_rest client agent_id channel_id m)
          as (d & r & E & W & S & D);
        destruct (then_ p k m) as [out mc4]
    end.
    cbn [fst snd outside console] in *.
    exists (format_value py channel_id),
           (request_of (OpenChannel agent_id peer_id "evm" "USDC" 1000000000)
              API_BASE_URL :: d), r.
    assert (Escript : channel_script agent_id peer_id (format_value py channel_id)
                      = ((request_of (OpenChannel agent_id peer_id "evm" "USDC"
                                        1000000000) API_BASE_URL :: d) ++ r)%list).
    { unfold channel_script. cbn [app]. f_equal. exact E. }
    assert (Hw : outside mc4
                 = (outside mc ++ Opened ses
                      :: map (Sent ses)
                           (request_of (OpenChannel agent_id peer_id "evm" "USDC"
                                          1000000000) API_BASE_URL :: d))%list).
    { rewrite W. cbn [map]. rewrite <- !app_assoc. reflexivity. }
    assert (Hs : slept (console mc4) = slept (console mc)) by congruence.
    split; [exact Escript |].
    assert (Hout : outside (snd run) = outside mc4 /\
                   slept (console (snd run)) = slept (console mc4) /\
                   (fst run = Done tt -> out = Done tt)).
    { destruct out as [[] | f | |];
        try solve [subst run; repeat split; discriminate].
      destruct f as [e | |]; try solve [subst run; repeat split; discriminate].
      destruct e as [f | resp | | key | | |];
        try solve [subst run; repeat split; discriminate].
      destruct (Hprint resp mc4) as (H1 & H2 & H3).
      subst run. split; [exact H1 |]. split; [exact H2 |].
      intros Hd. exfalso. exact (H3 Hd). }
    destruct Hout as (H1 & H2 & H3).
    split; [congruence |]. split; [congruence |]. split.
    + intros Hd. apply (D tt). apply H3, Hd.
    + apply (channel_script_head agent_id peer_id _ _ _ Escript).
  - exists EmptyString,
           [request_of (OpenChannel agent_id peer_id "evm" "USDC" 1000000000)
              API_BASE_URL],
           (repeat (request_of (SendPayment agent_id EmptyString 10000000)
                      API_BASE_URL) 10
            ++ [request_of (GetAgentChannels agent_id) API_BASE_URL;
                request_of (CloseChannel agent_id EmptyString) API_BASE_URL])%list.
    split; [reflexivity |].
    assert (Hout : outside (snd run)
                   = ((outside mc ++ [Opened ses])
                        ++ [Sent (session client)
                              (request_of (OpenChannel agent_id peer_id "evm" "USDC"
                                             1000000000) API_BASE_URL)])%list /\
                   slept (console (snd run)) = slept (console mc) /\
                   fst run <> Done tt).
    { destruct e as [f | resp | | key | | |];
        try solve [subst run; cbn [fst snd outside console];
                   split; [reflexivity |]; split; [exact Hslept0 | discriminate]].
      destruct (Hprint resp
                  {| outside := ((outside mc ++ [Opened ses])
                                   ++ [Sent (session client)
                                         (request_of (OpenChannel agent_id peer_id
                                                        "evm" "USDC" 1000000000)
                                            API_BASE_URL)])%list;
                     console := ((console mc
                                    ++ [Printed (nl ++ "=== Example 3: Payment Channel ===")])
                                   ++ [Printed ("Opening payment channel from "
                                                  ++ agent_id ++ " to " ++ peer_id)])%list |})
        as (H1 & H2 & H3).
      subst run. split; [exact H1 |]. split; [| exact H3].
      rewrite H2. exact Hslept0. }
    destruct Hout as (H1 & H2 & H3).
    split; [rewrite H1, <- app_assoc; reflexivity |].
    split; [exact H2 |]. split; [intros Hd; contradiction |].
    intros _. repeat constructor. discriminate.
Qed.

Lemma value_eq_pending (v : json) :
  value_eq py v (JStr "pending") = true <-> v = JStr "pending".
Proof.
  destruct v as [| b | n | f | s | l | kvs]; cbn [value_eq];
    try solve [split; discriminate].
  split.
  - intros E. apply String.eqb_eq in E. subst s. reflexivity.
  - intros E. injection E as ->. reflexivity.
Qed.

Lemma wait_until_active_run (client : t) (fuel : nat) :
  forall (wallet : option AgentWallet.t) (mc : Machine),
    polling_summary client fuel mc
      (wait_until_active net py fuel client wallet mc).
Proof.
  induction fuel as [| fuel IH]; intros wallet mc.
  - destruct wallet as [w |]; cbn [wait_until_active].
    + destruct (value_eq py (AgentWallet.status w) (JStr "pending")) eqn:Ep.
      * exists []. cbn. rewrite !app_nil_r.
        repeat split; try discriminate; auto.
      * exists []. cbn. rewrite !app_nil_r.
        split; [reflexivity |]. split; [constructor |].
        split; [reflexivity |]. split; [lia |].
        split; [| split; discriminate].
        intros w0 E. injection E as <-. exists w. split; [reflexivity |].
        intros Hs. apply value_eq_pending in Hs. congruence.
    + exists []. cbn. rewrite !app_nil_r.
      repeat split; try discriminate; auto.
  - destruct wallet as [w |]; cbn [wait_until_active].
    + destruct (value_eq py (AgentWallet.status w) (JStr "pending")) eqn:Ep.
      * unfold then_ at 1, print at 1. cbn [outside console].
        unfold then_ at 1, sleep at 1. cbn [outside console].
        unfold then_ at 1.
        rewrite (invoke_run client _
                   (request_of (GetWallet (format_value py (AgentWallet.agent_id w)))
                      (base_url client)))
          by apply call_snd_get.
        destruct (fst (get_wallet net _ _)) as [wallet' | e].
        -- match goal with
           | |- polling_summary _ _ _ (wait_until_active _ _ _ _ _ ?m) =>
               destruct (IH wallet' m)
                 as (polls & Hw & Hget & Hsl & Hlen & Hdone & Hdiv & Hn)
           end.
           exists (request_of (GetWallet (format_value py (AgentWallet.agent_id w)))
                     (base_url client) :: polls).
           split; [rewrite Hw; cbn [outside map]; rewrite <- app_assoc;
                   reflexivity |].
           split; [constructor; [reflexivity | exact Hget] |].
           split.
           { rewrite Hsl. cbn [console]. rewrite !slept_app.
             cbn [slept flat_map app List.length repeat].
             rewrite <- !app_assoc. reflexivity. }
           split; [cbn; lia |]. split; [exact Hdone |].
           split; [| exact Hn]. intros E. cbn. f_equal. apply Hdiv, E.
        -- exists [request_of (GetWallet (format_value py (AgentWallet.agent_id w)))
                     (base_url client)].
           cbn [fst snd outside console map List.length repeat].
           split; [reflexivity |]. split; [repeat constructor |].
           split.
           { rewrite !slept_app. cbn. rewrite <- !app_assoc. reflexivity. }
           split; [lia |]. repeat split; discriminate.
      * exists []. cbn. rewrite !app_nil_r.
        split; [reflexivity |]. split; [constructor |].
        split; [reflexivity |]. split; [lia |].
        split; [| split; discriminate].
        intros w0 E. injection E as <-. exists w. split; [reflexivity |].
        intros Hs. apply value_eq_pending in Hs. congruence.
    + exists []. cbn. rewrite !app_nil_r.
      repeat split; try discriminate; auto. lia.
Qed.

(** X21: [example_1_create_wallet] sends its creation request and then
    polls with [GET] requests only, all through the one session it
    opens; it pauses 5 seconds before every poll and at no other time;
    it returns only a wallet whose status is not ["pending"]; cut short
    after [fuel] rounds, it has polled exactly [fuel] times. *)
Theorem polling_discipline (fuel : nat) (mc : Machine) :
  let run := example_1_create_wallet net py fuel mc in
  let ses := sessions_created (outside mc) in
  exists polls : list Request,
    outside (snd run)
    = (outside mc
         ++ Opened ses
         :: Sent ses (request_of (CreateWallet "agent-001") API_BASE_URL)
         :: map (Sent ses) polls)%list /\
    Forall (fun req => method req = GET) polls /\
    slept (console (snd run))
    = (slept (console mc) ++ repeat 5 (List.length polls))%list /\
    (List.length polls <= fuel)%nat /\
    (forall w, fst run = Done w ->
               exists w', w = Some w' /\ AgentWallet.status w' <> JStr "pending") /\
    (fst run = Diverged -> List.length polls = fuel).
Proof.
  intros run ses.
  assert (Hrun : run = example_1_create_wallet net py fuel mc) by reflexivity.
  clearbody run.
  unfold example_1_create_wallet in Hrun.
  unfold then_ at 1, new_client, __init__, new_session in Hrun.
  cbn [fst snd outside console] in Hrun. fold ses in Hrun.
  unfold then_ at 1, print at 1 in Hrun. cbn [outside console] in Hrun.
  unfold try_http, then_ at 1 in Hrun.
  set (client := {| base_url := API_BASE_URL; session := ses |}) in *.
  rewrite (invoke_run client _
             (request_of (CreateWallet "agent-001") API_BASE_URL)) in Hrun
    by apply call_snd_create.
  cbn [outside console] in Hrun.
  destruct (fst (create_wallet net "agent-001" _)) as [w | e].
  - do 5 (unfold then_ at 1, print at 1 in Hrun; cbn [outside console] in Hrun).
    unfold then_ at 1 in Hrun.
    match type of Hrun with
    | context [wait_until_active net py fuel client ?wl ?m] =>
        destruct (wait_until_active_run client fuel wl m)
          as (polls & Hw & Hget & Hsl & Hlen & Hdone & Hdiv & Hn);
        destruct (wait_until_active net py fuel client wl m) as [out mc2]
    end.
    cbn [fst snd outside console session] in Hw, Hsl, Hdone, Hdiv, Hn.
    exists polls.
    assert (Hw0 : outside mc2
                  = (outside mc
                       ++ Opened ses
                       :: Sent ses (request_of (CreateWallet "agent-001") API_BASE_URL)
                       :: map (Sent ses) polls)%list).
    { rewrite Hw, <- !app_assoc. reflexivity. }
    assert (Hsl0 : slept (console mc2)
                   = (slept (console mc) ++ repeat 5 (List.length polls))%list).
    { rewrite Hsl, !slept_app. cbn. rewrite !app_nil_r. reflexivity. }
    destruct out as [w' | f | |]; [| | | exfalso; apply Hn; reflexivity].
    + cbn in Hrun. subst run. cbn [fst snd outside console].
      split; [exact Hw0 |]. split; [exact Hget |]. split.
      { rewrite slept_app, Hsl0. cbn. apply app_nil_r. }
      split; [exact Hlen |]. split; [| discriminate].
      intros w0 E. injection E as <-. apply Hdone. reflexivity.
    + assert (Hout : outside (snd run) = outside mc2 /\
                     slept (console (snd run)) = slept (console mc2) /\
                     (forall w0, fst run <> Done w0) /\ fst run <> Diverged).
      { destruct f as [e | |];
          try solve [subst run; repeat split; discriminate].
        destruct e as [f | resp | | key | | |];
          try solve [subst run; repeat split; discriminate].
        subst run. cbn. rewrite slept_app. cbn. rewrite app_nil_r.
        repeat split; discriminate. }
      destruct Hout as (H1 & H2 & H3 & H4).
      split; [congruence |]. split; [exact Hget |]. split; [congruence |].
      split; [exact Hlen |]. split.
      * intros w0 E. exfalso. exact (H3 w0 E).
      * intros E. contradiction.
    + subst run. cbn [fst snd].
      split; [exact Hw0 |]. split; [exact Hget |]. split; [exact Hsl0 |].
      split; [exact Hlen |]. split; [discriminate |].
      intros _. apply Hdiv. reflexivity.
  - exists [].
    assert (Hout : outside (snd run)
                   = ((outside mc ++ [Opened ses])
                        ++ [Sent (session client)
                              (request_of (CreateWallet "agent-001") API_BASE_URL)])%list /\
                   slept (console (snd run)) = slept (console mc) /\
                   (forall w0, fst run <> Done w0) /\ fst run <> Diverged).
    { destruct e as [f | resp | | key | | |];
        try solve [subst run; cbn [fst snd outside console];
                   rewrite slept_app; cbn; rewrite app_nil_r;
                   repeat split; discriminate].
      subst run. cbn. rewrite !slept_app. cbn. rewrite !app_nil_r.
      repeat split; discriminate. }
    destruct Hout as (H1 & H2 & H3 & H4).
    split; [rewrite H1, <- app_assoc; reflexivity |].
    split; [constructor |]. split; [cbn; rewrite app_nil_r; exact H2 |].
    split; [cbn; lia |]. split.
    + intros w0 E. exfalso. exact (H3 w0 E).
    + intros E. contradiction.
Qed.

Lemma wallet_of_json_status (kvs : list (string * json)) (a st : json)
    (s : State) :
  first_missing wallet_keys kvs = None ->
  PyVal.lookup "agentId" kvs = Some a ->
  PyVal.lookup "status" kvs = Some st ->
  exists w : AgentWallet.t,
    fst (wallet_of_json (JObj kvs) s) = Return w /\
    AgentWallet.agent_id w = a /\ AgentWallet.status w = st.
Proof.
  intros Hall Ha Hst.
  destruct (wallet_of_json_present kvs s Hall)
    as (w & Hw & Hid & _ & _ & _ & _ & Hstatus).
  exists w. rewrite Hw. split; [reflexivity |]. split; congruence.
Qed.

Lemma get_wallet_404 (a : string) (s : State) (r : Response) :
  reply net s (request_of (GetWallet a) (base_url (self s))) = inr r ->
  status_code r = 404 ->
  fst (get_wallet net a s) = Return None.
Proof.
  unfold reply. intros Hr H404. unfold get_wallet.
  rewrite (method_run GET (fun base => base ++ "/wallets/" ++ a))
    by (intros r'; destruct (status_code r' =? 404); solve_local).
  cbn [request_of] in Hr. rewrite Hr, H404. reflexivity.
Qed.

Lemma wait_until_active_forever (r : Response) (kvs : list (string * json))
    (a : json) (client : t) :
  (forall s req, reply net s req = inr r) ->
  error_status r = false ->
  decoded r = Return (JObj kvs) ->
  first_missing wallet_keys kvs = None ->
  PyVal.lookup "agentId" kvs = Some a ->
  PyVal.lookup "status" kvs = Some (JStr "pending") ->
  forall (fuel : nat) (w : AgentWallet.t) (mc : Machine),
    AgentWallet.status w = JStr "pending" ->
    fst (wait_until_active net py fuel client (Some w) mc) = Diverged /\
    requests_sent (outside (snd (wait_until_active net py fuel client (Some w) mc)))
    = (requests_sent (outside mc) + fuel)%nat /\
    slept (console (snd (wait_until_active net py fuel client (Some w) mc)))
    = (slept (console mc) ++ repeat 5 fuel)%list.
Proof.
  intros Hnet Hok Hbody Hall Ha Hst.
  induction fuel as [| fuel IH]; intros w mc Hw.
  - cbn [wait_until_active].
    rewrite (proj2 (value_eq_pending (AgentWallet.status w)) Hw).
    cbn. rewrite app_nil_r. repeat split. lia.
  - remember (wait_until_active net py (S fuel) client (Some w) mc) as run
      eqn:Hrun.
    cbn [wait_until_active] in Hrun.
    rewrite (proj2 (value_eq_pending (AgentWallet.status w)) Hw) in Hrun.
    unfold then_ at 1, print at 1 in Hrun. cbn [outside console] in Hrun.
    unfold then_ at 1, sleep at 1 in Hrun. cbn [outside console] in Hrun.
    unfold then_ at 1 in Hrun.
    rewrite (invoke_run client _
               (request_of (GetWallet (format_value py (AgentWallet.agent_id w)))
                  (base_url client))) in Hrun
      by apply call_snd_get.
    rewrite (get_wallet_answered _ _ r (JObj kvs)) in Hrun
      by (repeat split; [apply Hnet | exact Hok | exact Hbody]).
    match type of Hrun with
    | context [wallet_of_json (JObj kvs) ?s] =>
        destruct (wallet_of_json_status kvs a (JStr "pending") s Hall Ha Hst)
          as (w' & Ew & _ & Hw')
    end.
    rewrite Ew in Hrun.
    match type of Hrun with
    | context [wait_until_active net py fuel client (Some w') ?m] =>
        destruct (IH w' m Hw') as (Hd & Hr & Hs);
        destruct (wait_until_active net py fuel client (Some w') m) as [out mc2]
    end.
    cbn [fst snd outside console] in Hd, Hr, Hs. subst out run.
    cbn [fst snd outside console].
    split; [reflexivity |]. split.
    + rewrite Hr, requests_sent_snoc. lia.
    + rewrite Hs, !slept_app. cbn.
      rewrite <- !app_assoc. reflexivity.
Qed.

(** X22: the polling of [example_1_create_wallet] has no bound of its
    own: against a server that keeps answering with a wallet whose
    status is ["pending"], it does not return, however many rounds it is
    given; after [fuel] rounds it has sent the creation request and
    [fuel] polls and has paused [fuel] times 5 seconds. *)
Theorem pending_forever_polls_forever (r : Response)
    (kvs : list (string * json)) (a : json) (fuel : nat) (mc : Machine) :
  (forall s req, reply net s req = inr r) ->
  error_status r = false ->
  decoded r = Return (JObj kvs) ->
  first_missing wallet_keys kvs = None ->
  PyVal.lookup "agentId" kvs = Some a ->
  PyVal.lookup "status" kvs = Some (JStr "pending") ->
  let run := example_1_create_wallet net py fuel mc in
  fst run = Diverged /\
  requests_sent (outside (snd run)) = (requests_sent (outside mc) + 1 + fuel)%nat /\
  slept (console (snd run)) = (slept (console mc) ++ repeat 5 fuel)%list.
Proof.
  intros Hnet Hok Hbody Hall Ha Hst run.
  assert (Hrun : run = example_1_create_wallet net py fuel mc) by reflexivity.
  clearbody run.
  unfold example_1_create_wallet in Hrun.
  unfold then_ at 1, new_client, __init__, new_session in Hrun.
  cbn [fst snd outside console] in Hrun.
  unfold then_ at 1, print at 1 in Hrun. cbn [outside console] in Hrun.
  unfold try_http, then_ at 1 in Hrun.
  rewrite (invoke_run _ _ (request_of (CreateWallet "agent-001") API_BASE_URL))
    in Hrun by apply call_snd_create.
  rewrite (create_wallet_answered _ _ r (JObj kvs)) in Hrun
    by (repeat split; [apply Hnet | exact Hok | exact Hbody]).
  match type of Hrun with
  | context [wallet_of_json (JObj kvs) ?s] =>
      destruct (wallet_of_json_status kvs a (JStr "pending") s Hall Ha Hst)
        as (w & Ew & _ & Hw)
  end.
  rewrite Ew in Hrun. cbn [outside console] in Hrun.
  do 5 (unfold then_ at 1, print at 1 in Hrun; cbn [outside console] in Hrun).
  unfold then_ at 1 in Hrun.
  match type of Hrun with
  | context [wait_until_active net py fuel ?c (Some w) ?m] =>
      destruct (wait_until_active_forever r kvs a c Hnet Hok Hbody Hall Ha Hst
                  fuel w m Hw) as (Hd & Hr & Hs);
      destruct (wait_until_active net py fuel c (Some w) m) as [out mc2]
  end.
  cbn [fst snd outside console] in Hd, Hr, Hs. subst out run.
  cbn [fst snd]. split; [reflexivity |]. split.
  - rewrite Hr, !requests_sent_app. cbn. lia.
  - rewrite Hs, !slept_app. cbn. rewrite !app_nil_r. reflexivity.
Qed.

(** X23: in [example_1_create_wallet], a poll that is answered 404 ends
    the example with [AttributeError]: [get_wallet] returns [None], the
    loop then reads [wallet.status], and the handler, which is for
    [HTTPError] only, does not catch it. *)
Theorem poll_not_found_raises_attribute_error (r1 r2 : Response)
    (kvs : list (string * json)) (a : json) (fuel : nat) (mc : Machine) :
  answers net (started mc) (request_of (CreateWallet "agent-001") API_BASE_URL)
    r1 (JObj kvs) ->
  first_missing wallet_keys kvs = None ->
  PyVal.lookup "agentId" kvs = Some a ->
  PyVal.lookup "status" kvs = Some (JStr "pending") ->
  reply net
    (sent (started mc) (request_of (CreateWallet "agent-001") API_BASE_URL))
    (request_of (GetWallet (format_value py a)) API_BASE_URL) = inr r2 ->
  status_code r2 = 404 ->
  fst (example_1_create_wallet net py (S fuel) mc) = Failed AttributeError.
Proof.
  intros Hans Hall Ha Hst Hr2 H404.
  unfold example_1_create_wallet.
  unfold then_ at 1, new_client, __init__, new_session.
  cbn [fst snd outside console].
  unfold then_ at 1, print at 1. cbn [outside console].
  unfold try_http, then_ at 1.
  rewrite (invoke_run _ _ (request_of (CreateWallet "agent-001") API_BASE_URL))
    by apply call_snd_create.
  match goal with
  | |- context [fst (create_wallet net "agent-001" ?s)] =>
      replace (fst (create_wallet net "agent-001" s))
        with (fst (wallet_of_json (JObj kvs) s))
        by (symmetry; exact (create_wallet_answered _ _ r1 (JObj kvs) Hans));
      destruct (wallet_of_json_status kvs a (JStr "pending") s Hall Ha Hst)
        as (w & Ew & Hid & Hw)
  end.
  rewrite Ew. cbn [outside console].
  do 5 (unfold then_ at 1, print at 1; cbn [outside console]).
  unfold then_ at 1. cbn [wait_until_active].
  rewrite (proj2 (value_eq_pending (AgentWallet.status w)) Hw).
  unfold then_ at 1, print at 1. cbn [outside console].
  unfold then_ at 1, sleep at 1. cbn [outside console].
  unfold then_ at 1.
  rewrite (invoke_run _ _
             (request_of (GetWallet (format_value py (AgentWallet.agent_id w)))
                API_BASE_URL))
    by apply call_snd_get.
  rewrite Hid.
  match goal with
  | |- context [fst (get_wallet net (format_value py a) ?s)] =>
      replace (fst (get_wallet net (format_value py a) s))
        with (@Return (option AgentWallet.t) None)
        by (symmetry; exact (get_wallet_404 (format_value py a) _ r2 Hr2 H404))
  end.
  destruct fuel; reflexivity.
Qed.

(** X24: [example_1_create_wallet] returns at once, whatever the fuel,
    when the wallet comes back from the creation with a status other
    than ["pending"]: one request, no poll and no pause. *)
Theorem active_at_creation_returns (r : Response) (kvs : list (string * json))
    (a st : json) (fuel : nat) (mc : Machine) :
  answers net (started mc) (request_of (CreateWallet "agent-001") API_BASE_URL)
    r (JObj kvs) ->
  first_missing wallet_keys kvs = None ->
  PyVal.lookup "agentId" kvs = Some a ->
  PyVal.lookup "status" kvs = Some st ->
  st <> JStr "pending" ->
  let run := example_1_create_wallet net py fuel mc in
  (exists w, fst run = Done (Some w) /\ AgentWallet.status w = st) /\
  requests_sent (outside (snd run)) = S (requests_sent (outside mc)) /\
  slept (console (snd run)) = slept (console mc).
Proof.
  intros Hans Hall Ha Hst Hne run.
  assert (Hrun : run = example_1_create_wallet net py fuel mc) by reflexivity.
  clearbody run.
  unfold example_1_create_wallet in Hrun.
  unfold then_ at 1, new_client, __init__, new_session in Hrun.
  cbn [fst snd outside console] in Hrun.
  unfold then_ at 1, print at 1 in Hrun. cbn [outside console] in Hrun.
  unfold try_http, then_ at 1 in Hrun.
  rewrite (invoke_run _ _ (request_of (CreateWallet "agent-001") API_BASE_URL))
    in Hrun by apply call_snd_create.
  match type of Hrun with
  | context [fst (create_wallet net "agent-001" ?s)] =>
      replace (fst (create_wallet net "agent-001" s))
        with (fst (wallet_of_json (JObj kvs) s)) in Hrun
        by (symmetry; exact (create_wallet_answered _ _ r (JObj kvs) Hans));
      destruct (wallet_of_json_status kvs a st s Hall Ha Hst)
        as (w & Ew & Hid & Hw)
  end.
  rewrite Ew in Hrun. cbn [outside console] in Hrun.
  do 5 (unfold then_ at 1, print at 1 in Hrun; cbn [outside console] in Hrun).
  unfold then_ at 1 in Hrun.
  assert (Hnp : value_eq py (AgentWallet.status w) (JStr "pending") = false).
  { destruct (value_eq py (AgentWallet.status w) (JStr "pending")) eqn:E;
      [| reflexivity].
    apply value_eq_pending in E. congruence. }
  assert (Hwait : forall m, wait_until_active net py fuel
                              {| base_url := API_BASE_URL;
                                 session := sessions_created (outside mc) |}
                              (Some w) m = (Done (Some w), m)).
  { intros m. destruct fuel; cbn [wait_until_active]; rewrite Hnp; reflexivity. }
  rewrite Hwait in Hrun. cbn in Hrun. subst run. cbn [fst snd outside console].
  split; [exists w; split; [reflexivity | exact Hw] |]. split.
  - rewrite !requests_sent_app. cbn. lia.
  - rewrite !slept_app. cbn. rewrite !app_nil_r. reflexivity.
Qed.

Lemma keeps_done {A : Type} (client : t) (a : A) : keeps_to client (done a).
Proof. intros mc. exists []. cbn. rewrite app_nil_r. reflexivity. Qed.

Lemma keeps_fail {A : Type} (client : t) (f : Failure) :
  keeps_to client (@fail A f).
Proof. intros mc. exists []. cbn. rewrite app_nil_r. reflexivity. Qed.

Lemma keeps_stuck {A : Type} (client : t) (out : Outcome A) :
  keeps_to client (fun mc => (out, mc)).
Proof. intros mc. exists []. cbn. rewrite app_nil_r. reflexivity. Qed.

Lemma keeps_print (client : t) (text : string) : keeps_to client (print text).
Proof. intros mc. exists []. cbn. rewrite app_nil_r. reflexivity. Qed.

Lemma keeps_sleep (client : t) (n : Z) : keeps_to client (sleep n).
Proof. intros mc. exists []. cbn. rewrite app_nil_r. reflexivity. Qed.

Lemma keeps_then {A B : Type} (client : t) (p : Prog A) (k : A -> Prog B) :
  keeps_to client p -> (forall a, keeps_to client (k a)) ->
  keeps_to client (then_ p k).
Proof.
  intros Hp Hk mc. unfold then_. destruct (Hp mc) as (r1 & W1).
  destruct (p mc) as [out mc1]. cbn [snd] in W1.
  destruct out as [a | f | |]; try (exists r1; exact W1).
  destruct (Hk a mc1) as (r2 & W2). exists (r1 ++ r2)%list.
  rewrite W2, W1, map_app, app_assoc. reflexivity.
Qed.

Lemma keeps_try_http {A : Type} (client : t) (body : Prog A)
    (handler : Response -> Prog A) :
  keeps_to client body -> (forall r, keeps_to client (handler r)) ->
  keeps_to client (try_http body handler).
Proof.
  intros Hb Hh mc. unfold try_http. destruct (Hb mc) as (r1 & W1).
  destruct (body mc) as [out mc1]. cbn [snd] in W1.
  destruct out as [a | f | |]; try (exists r1; exact W1).
  destruct f as [e | |]; try (exists r1; exact W1).
  destruct e as [f | resp | | key | | |]; try (exists r1; exact W1).
  destruct (Hh resp mc1) as (r2 & W2). exists (r1 ++ r2)%list.
  rewrite W2, W1, map_app, app_assoc. reflexivity.
Qed.

Lemma keeps_invoke {A : Type} (client : t) (m : M A) (req : string -> Request) :
  (forall s, snd (m s) = sent s (req (base_url (self s)))) ->
  keeps_to client (invoke client m).
Proof.
  intros Hm mc. exists [req (base_url client)].
  rewrite (invoke_run client m (req (base_url client))) by apply Hm.
  reflexivity.
Qed.

Lemma keeps_lift_result {A : Type} (client : t) (r : PyResult A) :
  keeps_to client (lift_result r).
Proof. destruct r; [apply keeps_done | apply keeps_fail]. Qed.

Create HintDb keeps_db.

#[local] Hint Resolve
  (@keeps_done) (@keeps_fail) (@keeps_stuck) keeps_print keeps_sleep
  (@keeps_lift_result) : keeps_db.

Ltac keeps_step :=
  first
    [ apply keeps_then; [| intro]
    | apply keeps_try_http; [| intro]
    | eapply (keeps_invoke _ _ (request_of (CreateWallet _))); intro;
      apply call_snd_create
    | eapply (keeps_invoke _ _ (request_of (GetWallet _))); intro;
      apply call_snd_get
    | eapply (keeps_invoke _ _ (request_of (GetAllBalances _))); intro;
      apply call_snd_balances
    | eapply (keeps_invoke _ _ (request_of (OpenChannel _ _ _ _ _))); intro;
      apply call_snd_open, opening_amount_fits
    | eapply (keeps_invoke _ _ (request_of (SendPayment _ _ _))); intro;
      apply call_snd_pay, payment_amount_fits
    | eapply (keeps_invoke _ _ (request_of (CloseChannel _ _))); intro;
      apply call_snd_close
    | eapply (keeps_invoke _ _ (request_of (GetAgentChannels _))); intro;
      apply call_snd_channels
    | match goal with
      | |- keeps_to _ (if ?b then _ else _) => destruct b
      end
    | solve [auto with keeps_db] ].

Ltac keeps := repeat keeps_step.

Lemma keeps_format_balance_of (client : t) (balance : Z) (decimals : json) :
  keeps_to client (format_balance_of balance decimals).
Proof.
  destruct decimals as [| b | d | f | s | l | kvs]; cbn [format_balance_of];
    try solve [keeps].
  - destruct (format_balance balance (if b then 1 else 0)) as [[text | e] |];
      cbn [lift_result]; keeps.
  - destruct (format_balance balance d) as [[text | e] |];
      cbn [lift_result]; keeps.
Qed.

Lemma keeps_str_of (client : t) (n : Z) : keeps_to client (str_of n).
Proof. unfold str_of. destruct (Py.str n); keeps. Qed.

Lemma keeps_upper_of (client : t) (v : json) : keeps_to client (upper_of py v).
Proof. destruct v; cbn [upper_of]; keeps. Qed.

Lemma keeps_dict_get (client : t) (d : json) (key : string) (default : json) :
  keeps_to client (dict_get d key default).
Proof.
  destruct d; cbn [dict_get]; try solve [keeps].
  destruct (PyVal.lookup key kvs); keeps.
Qed.

Lemma keeps_contains (client : t) (needle : string) (x : json) :
  keeps_to client (contains py needle x).
Proof. destruct x; cbn [contains]; keeps. Qed.

#[local] Hint Resolve
  keeps_format_balance_of keeps_str_of keeps_upper_of keeps_dict_get
  keeps_contains
  : keeps_db.

Lemma keeps_print_balances (client : t) (balances : list AgentBalance.t) :
  keeps_to client (print_balances py balances).
Proof.
  induction balances as [| b rest IH]; cbn [print_balances]; keeps.
Qed.

Lemma keeps_send_payments (client : t) (agent_id : string) (channel_id : json)
    (indices : list Z) :
  keeps_to client (send_payments net py client agent_id channel_id indices).
Proof.
  induction indices as [| i rest IH]; cbn [send_payments]; keeps.
Qed.

Lemma keeps_create_batch (client : t) (ids : list string) :
  forall wallets, keeps_to client (create_batch net py client ids wallets).
Proof.
  induction ids as [| a rest IH]; intros wallets; cbn [create_batch]; keeps;
    apply IH.
Qed.

Lemma keeps_wait_until_active (client : t) (fuel : nat) :
  forall wallet, keeps_to client (wait_until_active net py fuel client wallet).
Proof.
  induction fuel as [| fuel IH]; intros [w |]; cbn [wait_until_active];
    try solve [keeps];
    destruct (value_eq py (AgentWallet.status w) (JStr "pending"));
    try solve [keeps; apply IH].
Qed.

#[local] Hint Resolve
  keeps_print_balances keeps_send_payments keeps_create_batch
  keeps_wait_until_active : keeps_db.

Lemma sessions_created_sent (ses : Session) (reqs : list Request) :
  sessions_created (map (Sent ses) reqs) = O.
Proof. unfold sessions_created. rewrite opened_sent. reflexivity. Qed.

(** A program that constructs its client and then keeps to it has
    constructed one session and closed none, however it ends. *)
Lemma session_from_keeps {A : Type} (body : t -> Prog A) (mc : Machine) :
  (forall client, keeps_to client (body client)) ->
  sessions_created (outside (snd ((client <~ new_client ;> body client) mc)))
  = S (sessions_created (outside mc)) /\
  forall j, is_closed j (outside (snd ((client <~ new_client ;> body client) mc)))
            = is_closed j (outside mc).
Proof.
  intros Hk.
  pose (c := {| base_url := API_BASE_URL;
                session := sessions_created (outside mc) |}).
  pose (m := {| outside := (outside mc
                              ++ [Opened (sessions_created (outside mc))])%list;
                console := console mc |}).
  change ((client <~ new_client ;> body client) mc) with (body c m).
  destruct (Hk c m) as (reqs & W).
  cbn [outside session c m] in W. split.
  - rewrite W, !sessions_created_app, sessions_created_sent. cbn. lia.
  - intros j. rewrite W, !is_closed_app, is_closed_sent. cbn.
    rewrite !orb_false_r. reflexivity.
Qed.

Lemma opens_from_keeps {A : Type} (body : t -> Prog A) :
  (forall client, keeps_to client (body client)) ->
  opens 1 (client <~ new_client ;> body client).
Proof.
  intros Hk mc. destruct (session_from_keeps body mc Hk) as [S C].
  exists 1%nat. split; [lia |]. split; [rewrite S; lia |].
  split; [exact C | reflexivity].
Qed.

Lemma opens_example_1 (fuel : nat) : opens 1 (example_1_create_wallet net py fuel).
Proof. unfold example_1_create_wallet. apply opens_from_keeps. intros. keeps. Qed.

Lemma opens_example_2 (a : string) : opens 1 (example_2_check_balances net py a).
Proof. unfold example_2_check_balances. apply opens_from_keeps. intros. keeps. Qed.

Lemma opens_example_3 (a p : string) :
  opens 1 (example_3_payment_channel net py a p).
Proof.
  unfold example_3_payment_channel. apply opens_from_keeps. intros. keeps.
  match goal with
  | |- context [find ?f ?l] => destruct (find f l)
  end; keeps.
Qed.

Lemma opens_example_4 (a : string) : opens 1 (example_4_error_handling net py a).
Proof.
  unfold example_4_error_handling. apply opens_from_keeps. intros. keeps.
Qed.

Lemma opens_example_5 : opens 1 (example_5_batch_operations net py).
Proof. unfold example_5_batch_operations. apply opens_from_keeps. intros. keeps. Qed.

Lemma opens_print (text : string) : opens 0 (print text).
Proof.
  intros mc. exists O. cbn [print fst snd outside].
  split; [lia |]. split; [lia |]. split; [reflexivity | reflexivity].
Qed.

Lemma opens_then {A B : Type} (n m : nat) (p : Prog A) (k : A -> Prog B) :
  opens n p -> (forall a, opens m (k a)) -> opens (n + m) (then_ p k).
Proof.
  intros Hp Hk mc. unfold then_.
  destruct (Hp mc) as (k1 & L1 & S1 & C1 & D1).
  destruct (p mc) as [out mc1]. cbn [fst snd] in *.
  destruct out as [a | f | |];
    try (exists k1; split; [lia |]; split; [exact S1 |];
         split; [exact C1 | discriminate]).
  destruct (Hk a mc1) as (k2 & L2 & S2 & C2 & D2).
  exists (k1 + k2)%nat. split; [lia |]. split; [lia |]. split.
  - intros j. rewrite C2. apply C1.
  - intros b E. rewrite (D1 a eq_refl), (D2 b E). reflexivity.
Qed.

Lemma opens_try_any {A : Type} (n : nat) (body : Prog A)
    (handler : Failure -> Prog A) :
  opens n body ->
  (forall f mc, outside (snd (handler f mc)) = outside mc /\
                forall a, fst (handler f mc) <> Done a) ->
  opens n (try_any body handler).
Proof.
  intros Hb Hh mc. unfold try_any.
  destruct (Hb mc) as (k & L & S & C & D).
  destruct (body mc) as [out mc1]. cbn [fst snd] in *.
  destruct out as [a | f | |]; try (exists k; repeat split; assumption).
  destruct (Hh f mc1) as (Hw & Hd).
  exists k. rewrite Hw. split; [exact L |]. split; [exact S |].
  split; [exact C |]. intros a E. exfalso. exact (Hd a E).
Qed.

Lemma opens_lifecycle (fuel : nat) :
  opens 5 (complete_lifecycle_example net py fuel).
Proof.
  unfold complete_lifecycle_example.
  apply (opens_then 0 5); [apply opens_print | intros _].
  apply (opens_then 0 5); [apply opens_print | intros _].
  apply (opens_then 0 5); [apply opens_print | intros _].
  apply opens_try_any.
  - apply (opens_then 0 5); [apply opens_print | intros _].
    apply (opens_then 1 4); [apply opens_example_1 | intros _].
    apply (opens_then 0 4); [apply opens_print | intros _].
    apply (opens_then 1 3); [apply opens_example_2 | intros _].
    apply (opens_then 0 3); [apply opens_print | intros _].
    apply (opens_then 1 2); [apply opens_example_3 | intros _].
    apply (opens_then 0 2); [apply opens_print | intros _].
    apply (opens_then 1 1); [apply opens_example_4 | intros _].
    apply (opens_then 0 1); [apply opens_print | intros _].
    apply (opens_then 1 0); [apply opens_example_5 | intros _].
    apply (opens_then 0 0); [apply opens_print | intros _].
    apply (opens_then 0 0); [apply opens_print | intros _].
    apply opens_print.
  - intros f mc. cbn. split; [reflexivity | discriminate].
Qed.

(** X25: each of the five examples constructs one client, hence one
    session, and closes none, however it ends. *)
Theorem examples_leave_sessions_open (fuel : nat) (a p : string)
    (mc : Machine) :
  let after1 := outside (snd (example_1_create_wallet net py fuel mc)) in
  let after2 := outside (snd (example_2_check_balances net py a mc)) in
  let after3 := outside (snd (example_3_payment_channel net py a p mc)) in
  let after4 := outside (snd (example_4_error_handling net py a mc)) in
  let after5 := outside (snd (example_5_batch_operations net py mc)) in
  Forall (fun after =>
            sessions_created after = S (sessions_created (outside mc)) /\
            forall j, is_closed j after = is_closed j (outside mc))
    [after1; after2; after3; after4; after5].
Proof.
  cbn zeta. repeat apply Forall_cons; [| | | | | apply Forall_nil].
  - unfold example_1_create_wallet.
    apply (session_from_keeps _ mc). intros. keeps.
  - unfold example_2_check_balances.
    apply (session_from_keeps _ mc). intros. keeps.
  - unfold example_3_payment_channel.
    apply (session_from_keeps _ mc). intros. keeps.
    match goal with
    | |- context [find ?f ?l] => destruct (find f l)
    end; keeps.
  - unfold example_4_error_handling.
    apply (session_from_keeps _ mc). intros. keeps.
  - unfold example_5_batch_operations.
    apply (session_from_keeps _ mc). intros. keeps.
Qed.

(** X26: [complete_lifecycle_example] runs the five examples one after
    the other, each with a client of its own: it constructs at most five
    sessions, all five when it ends well, and closes none of them. *)
Theorem lifecycle_leaves_five_sessions (fuel : nat) (mc : Machine) :
  let run := complete_lifecycle_example net py fuel mc in
  exists k : nat,
    (k <= 5)%nat /\
    sessions_created (outside (snd run)) = (sessions_created (outside mc) + k)%nat /\
    (forall j, is_closed j (outside (snd run)) = is_closed j (outside mc)) /\
    (fst run = Done tt -> k = 5%nat).
Proof.
  intros run. subst run.
  destruct (opens_lifecycle fuel mc) as (k & L & S & C & D).
  exists k. split; [exact L |]. split; [exact S |]. split; [exact C |].
  apply D.
Qed.








End ClientFacts.

(** ** The calls on the wire *)

Section WireFacts.

Context (wire : Requests.Wire).











End WireFacts.

(** ** The statements at concrete servers *)

Lemma get_wallet_not_found_witness :
  fst (get_wallet (net_status 404) "agent-001" fresh_client) = Return None /\
  fst (get_wallet (net_status 500) "agent-001" fresh_client)
  = Raise (HTTPError (mkResponse 500 None)).
Proof.
  split.
  - apply (proj1 (get_wallet_not_found (net_status 404) "agent-001"
                    fresh_client (mkResponse 404 None) eq_refl)).
    reflexivity.
  - apply (proj2 (get_wallet_not_found (net_status 500) "agent-001"
                    fresh_client (mkResponse 500 None) eq_refl)).
    + simpl. lia.
    + discriminate.
Defined.

(** C4, as stated, fails: a 404 answer to [get_balance],
    [get_all_balances] or [get_agent_channels] is raised, not returned. *)
Lemma not_found_raised_counterexample :
  fst (get_balance (net_status 404) "agent-001" "evm" "USDC" fresh_client)
  = Raise (HTTPError (mkResponse 404 None)) /\
  fst (get_all_balances (net_status 404) "agent-001" fresh_client)
  = Raise (HTTPError (mkResponse 404 None)) /\
  fst (get_agent_channels (net_status 404) "agent-001" fresh_client)
  = Raise (HTTPError (mkResponse 404 None)).
Proof. repeat split; reflexivity. Qed.

Lemma not_found_by_operation_witness :
  fst (get_wallet (net_status 404) "agent-001" fresh_client) = Return None /\
  fst (get_balance (net_status 404) "agent-001" "evm" "USDC" fresh_client)
  = Raise (HTTPError (mkResponse 404 None)) /\
  fst (get_all_balances (net_status 404) "agent-001" fresh_client)
  = Raise (HTTPError (mkResponse 404 None)) /\
  fst (get_agent_channels (net_status 404) "agent-001" fresh_client)
  = Raise (HTTPError (mkResponse 404 None)).
Proof.
  destruct (not_found_by_operation (net_status 404) "agent-001" "evm" "USDC"
              fresh_client (mkResponse 404 None) eq_refl)
    as (H1 & H2 & H3 & H4).
  split; [exact (H1 eq_refl) |].
  split; [exact (H2 eq_refl) |].
  split; [exact (H3 eq_refl) | exact (H4 eq_refl)].
Defined.

(** C1, as stated, fails: the integer [10 ^ 4300], which has 4301
    digits, does not make the round trip.  [str] raises [ValueError]
    for it, so that [open_channel] and [send_payment] raise and send
    nothing, and [int] raises [ValueError] for its decimal numeral. *)
Lemma amounts_cross_counterexample :
  Py.str (10 ^ Py.max_str_digits) = None /\
  Py.int_of_str (Py.decimal (10 ^ Py.max_str_digits)) = None /\
  open_channel (net_status 200) "agent-001" "agent-002" "evm" "USDC"
    (10 ^ Py.max_str_digits) fresh_client
  = (Raise ValueError, fresh_client) /\
  send_payment (net_status 200) "agent-001" "ch-1" (10 ^ Py.max_str_digits)
    fresh_client
  = (Raise ValueError, fresh_client).
Proof.
  pose proof over_limit_digits as H.
  split; [apply str_over, H |].
  split; [apply int_of_str_over; rewrite count_digits_decimal; exact H |].
  split; [apply open_channel_over, H | apply send_payment_over, H].
Qed.



(** C7, as stated, fails: a client that is constructed, used for one
    call and dropped, as the examples do, leaves its session open,
    whether the call returns or raises. *)
Lemma session_left_open_counterexample :
  let returned :=
    lifetime (net_document demo_document)
      None [GetBalance "agent-001" "evm" "USDC"] [] in
  let raised := lifetime (net_status 500) None [CreateWallet "agent-001"] [] in
  fst returned = [Return (VInt big_amount)] /\
  is_closed (session (self (snd returned))) (world (snd returned)) = false /\
  fst raised = [Raise (HTTPError (mkResponse 500 None))] /\
  is_closed (session (self (snd raised))) (world (snd raised)) = false.
Proof. repeat split; reflexivity. Qed.

(** C5, as stated, fails: one call of [get_balance] to a server that
    answers with a redirect puts two requests on the wire, and 31 when
    every answer is a redirect; one call of [send_payment] with the
    amount [10 ^ 4300] puts none there. *)
Lemma one_request_per_call_counterexample :
  let moved :=
    wire_moved "http://localhost:3000/api/v2/balances/agent-001/evm/USDC"
      (mkResponse 200 (Some demo_document)) in
  let read := GetBalance "agent-001" "evm" "USDC" in
  Requests.on_wire moved (world fresh_client) = [] /\
  fst (call (Requests.transport moved) read fresh_client)
  = Return (VInt big_amount) /\
  List.length
    (Requests.on_wire moved
       (world (snd (call (Requests.transport moved) read fresh_client))))
  = 2%nat /\
  fst (call (Requests.transport wire_loop) read fresh_client)
  = Raise (RequestException OtherRequestException) /\
  List.length
    (Requests.on_wire wire_loop
       (world (snd (call (Requests.transport wire_loop) read fresh_client))))
  = 31%nat /\
  call (Requests.transport moved)
    (SendPayment "agent-001" "ch-1" (10 ^ Py.max_str_digits)) fresh_client
  = (Raise ValueError, fresh_client).
Proof.
  cbv zeta.
  split; [reflexivity |]. split; [reflexivity |]. split; [reflexivity |].
  split; [reflexivity |]. split; [reflexivity |].
  apply call_refused. unfold converts. apply Z.leb_gt. exact over_limit_digits.
Qed.


(** C6, as stated, fails: a wait of 31 seconds for a piece of the body
    exceeds the timeout and is raised as [ConnectionError], which an
    [except requests.Timeout] clause does not catch; and a call whose
    waits are of 25 seconds each, 150 seconds together, returns. *)
Lemma uniform_timeout_counterexample :
  let answer := mkResponse 200 (Some demo_document) in
  let read := GetBalance "agent-001" "evm" "USDC" in
  API_TIMEOUT < 31 /\
  fst (call (Requests.transport (wire_waits 1 [1] [1; 31] answer)) read
         fresh_client)
  = Raise (RequestException ConnectionError) /\
  is_timeout (RequestException ConnectionError) = false /\
  API_TIMEOUT < 25 + (25 + 25) + (25 + 25 + 25) /\
  fst (call (Requests.transport (wire_waits 25 [25; 25] [25; 25; 25] answer))
         read fresh_client)
  = Return (VInt big_amount).
Proof. cbv zeta. repeat split; reflexivity. Qed.


(** C8, as stated, fails: for the amount [10 ^ 4300] [open_channel]
    raises [ValueError] itself, and nothing is sent. *)
Lemma open_channel_sends_any_amount_counterexample :
  fst (open_channel (net_status 200) "agent-001" "agent-002" "evm" "USDC"
         (10 ^ Py.max_str_digits) fresh_client)
  = Raise ValueError /\
  world (snd (open_channel (net_status 200) "agent-001" "agent-002" "evm"
                "USDC" (10 ^ Py.max_str_digits) fresh_client))
  = world fresh_client.
Proof.
  rewrite (open_channel_over (net_status 200) "agent-001" "agent-002" "evm"
             "USDC" (10 ^ Py.max_str_digits) fresh_client over_limit_digits).
  split; reflexivity.
Qed.


(** ** The further properties at concrete servers *)

Lemma answers_document (d : json) (req : Request) :
  PyVal.within_limit d = true ->
  answers (net_document d) fresh_client req (mkResponse 200 (Some d)) d.
Proof.
  intros H. split; [reflexivity |]. split; [reflexivity |].
  unfold decoded. cbn [body]. rewrite H. reflexivity.
Qed.


Lemma acknowledgement_ignores_body_witness :
  fst (call (net_status 204) (CloseChannel "agent-001" "ch-1") fresh_client)
  = Return VNone.
Proof.
  apply (acknowledgement_ignores_body (net_status 204)
           (CloseChannel "agent-001" "ch-1") fresh_client (mkResponse 204 None));
    reflexivity.
Defined.

Lemma undecodable_body_witness :
  fst (call (net_status 200) (GetBalance "agent-001" "evm" "USDC") fresh_client)
  = Raise JSONDecodeError /\
  fst (call (net_document (JList [])) (CreateWallet "agent-001") fresh_client)
  = Raise TypeError.
Proof.
  destruct (undecodable_body (net_status 200)
              (GetBalance "agent-001" "evm" "USDC") fresh_client
              (mkResponse 200 None) eq_refl eq_refl eq_refl eq_refl)
    as (H & _).
  destruct (undecodable_body (net_document (JList []))
              (CreateWallet "agent-001") fresh_client
              (mkResponse 200 (Some (JList []))) eq_refl eq_refl eq_refl
              eq_refl)
    as (_ & _ & H').
  split; [exact (H eq_refl) |].
  apply (H' (JList [])); [reflexivity | reflexivity | discriminate].
Defined.

Lemma create_wallet_decodes_witness :
  fst (create_wallet (net_document wallet_document) "agent-001" fresh_client)
  = Return demo_wallet /\
  fst (create_wallet
         (net_document (JObj [("agentId", JStr "agent-001");
                              ("status", JStr "pending")]))
         "agent-001" fresh_client)
  = Raise (KeyError "evmAddress").
Proof.
  split.
  - pose proof (create_wallet_decodes (net_document wallet_document) "agent-001"
                  fresh_client (mkResponse 200 (Some wallet_document))
                  [("agentId", JStr "agent-001"); ("evmAddress", JStr "0xabc");
                   ("xrpAddress", JStr "rXYZ"); ("derivationIndex", JInt 7);
                   ("createdAt", JStr "2026-01-01T00:00:00Z");
                   ("status", JStr "active"); ("extra", JNull)]
                  (answers_document wallet_document _ eq_refl)) as H.
    cbn [first_missing wallet_keys find PyVal.lookup String.eqb Ascii.eqb
           Bool.eqb] in H.
    destruct H as (w & Hw & Ha & He & Hx & Hd & Hc & Hs).
    destruct w; cbn in Ha, He, Hx, Hd, Hc, Hs.
    injection Ha as <-. injection He as <-. injection Hx as <-.
    injection Hd as <-. injection Hc as <-. injection Hs as <-.
    exact Hw.
  - exact (create_wallet_decodes
             (net_document (JObj [("agentId", JStr "agent-001");
                                  ("status", JStr "pending")]))
             "agent-001" fresh_client
             (mkResponse 200 (Some (JObj [("agentId", JStr "agent-001");
                                          ("status", JStr "pending")])))
             [("agentId", JStr "agent-001"); ("status", JStr "pending")]
             (answers_document
                (JObj [("agentId", JStr "agent-001");
                       ("status", JStr "pending")]) _ eq_refl)).
Defined.

Lemma get_wallet_agrees_with_create_witness :
  fst (get_wallet (net_document wallet_document) "agent-001" fresh_client)
  = match fst (create_wallet (net_document wallet_document) "agent-001"
                 fresh_client) with
    | Return w => Return (Some w)
    | Raise e => Raise e
    end.
Proof.
  apply (get_wallet_agrees_with_create (net_document wallet_document)
           "agent-001" fresh_client fresh_client
           (mkResponse 200 (Some wallet_document))
           (mkResponse 200 (Some wallet_document)) wallet_document);
    apply answers_document; reflexivity.
Defined.




Lemma lists_decode_in_order_or_fail_witness :
  all_or_first_failure
    (fun item => fst (balance_of_json item fresh_client))
    [JObj [("agentId", JStr "agent-001"); ("chain", JStr "evm")]]
    (fst (get_all_balances
            (net_document
               (JObj [("balances",
                       JList [JObj [("agentId", JStr "agent-001");
                                    ("chain", JStr "evm")]])]))
            "agent-001" fresh_client)).
Proof.
  apply (proj1 (lists_decode_in_order_or_fail
                  (net_document
                     (JObj [("balances",
                             JList [JObj [("agentId", JStr "agent-001");
                                          ("chain", JStr "evm")]])]))
                  "agent-001" fresh_client
                  (mkResponse 200
                     (Some (JObj [("balances",
                                   JList [JObj [("agentId", JStr "agent-001");
                                                ("chain", JStr "evm")]])])))
                  (JObj [("balances",
                          JList [JObj [("agentId", JStr "agent-001");
                                       ("chain", JStr "evm")]])])
                  [JObj [("agentId", JStr "agent-001"); ("chain", JStr "evm")]]));
    [apply answers_document; reflexivity | reflexivity].
Defined.

Lemma balances_not_a_list_witness :
  fst (get_all_balances (net_document (JObj [("balances", JObj [])]))
         "agent-001" fresh_client)
  = Return [] /\
  fst (get_all_balances (net_document (JObj [("balances", JNull)]))
         "agent-001" fresh_client)
  = Raise TypeError.
Proof.
  split.
  - apply (balances_not_a_list (net_document (JObj [("balances", JObj [])]))
             "agent-001" fresh_client
             (mkResponse 200 (Some (JObj [("balances", JObj [])])))
             (JObj [("balances", JObj [])]) (JObj []));
      [apply answers_document; reflexivity | reflexivity | discriminate].
  - apply (balances_not_a_list (net_document (JObj [("balances", JNull)]))
             "agent-001" fresh_client
             (mkResponse 200 (Some (JObj [("balances", JNull)])))
             (JObj [("balances", JNull)]) JNull);
      [apply answers_document; reflexivity | reflexivity | discriminate].
Defined.

Lemma server_fault_diagnosis_witness :
  fst (example_4_error_handling
         (net_answer
            (mkResponse 500
               (Some (JObj [("error", JStr "master-seed not found in keystore")]))))
         demo_builtins "agent-error-001" idle)
  = Failed (Exception "System configuration error") /\
  fst (example_4_error_handling (net_status 500) demo_builtins
         "agent-error-001" idle)
  = Failed (ClientError JSONDecodeError).
Proof.
  split.
  - destruct (server_fault_diagnosis
                (net_answer
                   (mkResponse 500
                      (Some (JObj [("error",
                                    JStr "master-seed not found in keystore")]))))
                demo_builtins "agent-error-001" idle
                (mkResponse 500
                   (Some (JObj [("error",
                                 JStr "master-seed not found in keystore")])))
                eq_refl eq_refl)
      as (_ & _ & _ & H & _).
    exact (H [("error", JStr "master-seed not found in keystore")]
             "master-seed not found in keystore" eq_refl eq_refl).
  - destruct (server_fault_diagnosis (net_status 500) demo_builtins
                "agent-error-001" idle (mkResponse 500 None) eq_refl eq_refl)
      as (H & _).
    exact (H eq_refl).
Defined.

Lemma pending_forever_polls_forever_witness :
  fst (example_1_create_wallet (net_document pending_document) demo_builtins
         3 idle) = Diverged /\
  requests_sent
    (outside (snd (example_1_create_wallet (net_document pending_document)
                     demo_builtins 3 idle))) = 4%nat /\
  slept (console (snd (example_1_create_wallet (net_document pending_document)
                         demo_builtins 3 idle))) = [5; 5; 5].
Proof.
  apply (pending_forever_polls_forever (net_document pending_document)
           demo_builtins (mkResponse 200 (Some pending_document))
           [("agentId", JStr "agent-001"); ("evmAddress", JStr "0xabc");
            ("xrpAddress", JStr "rXYZ"); ("derivationIndex", JInt 7);
            ("createdAt", JStr "2026-01-01T00:00:00Z");
            ("status", JStr "pending")]
           (JStr "agent-001") 3 idle);
    reflexivity.
Defined.

Lemma poll_not_found_raises_attribute_error_witness :
  fst (example_1_create_wallet net_created_then_gone demo_builtins 1 idle)
  = Failed AttributeError.
Proof.
  apply (poll_not_found_raises_attribute_error net_created_then_gone
           demo_builtins (mkResponse 201 (Some pending_document))
           (mkResponse 404 None)
           [("agentId", JStr "agent-001"); ("evmAddress", JStr "0xabc");
            ("xrpAddress", JStr "rXYZ"); ("derivationIndex", JInt 7);
            ("createdAt", JStr "2026-01-01T00:00:00Z");
            ("status", JStr "pending")]
           (JStr "agent-001") 0 idle);
    try reflexivity.
  repeat split.
Defined.

Lemma active_at_creation_returns_witness :
  (exists w,
     fst (example_1_create_wallet (net_document wallet_document) demo_builtins
            0 idle) = Done (Some w) /\
     AgentWallet.status w = JStr "active") /\
  requests_sent
    (outside (snd (example_1_create_wallet (net_document wallet_document)
                     demo_builtins 0 idle))) = 1%nat /\
  slept (console (snd (example_1_create_wallet (net_document wallet_document)
                         demo_builtins 0 idle))) = [].
Proof.
  apply (active_at_creation_returns (net_document wallet_document)
           demo_builtins (mkResponse 200 (Some wallet_document))
           [("agentId", JStr "agent-001"); ("evmAddress", JStr "0xabc");
            ("xrpAddress", JStr "rXYZ"); ("derivationIndex", JInt 7);
            ("createdAt", JStr "2026-01-01T00:00:00Z"); ("status", JStr "active");
            ("extra", JNull)]
           (JStr "agent-001") (JStr "active") 0 idle);
    try reflexivity.
  - repeat split.
  - discriminate.
Defined.
